(** * E-commerce metrics pipeline: a shallow embedding

    The development follows the four Python modules of the repository:
    [data_loader.py], [business_metrics.py], [dashboard_utils.py] and the
    metric computation of [app.py].  A pandas [DataFrame] is a list of rows
    together with the names of the columns it carries; a float column is a
    list of [float64] values.

    Arithmetic is exact: a finite [float64] is a rational number, and the
    three IEEE special values are kept, because the code's behaviour on a zero
    divisor is decided by them.  Binary rounding of float arithmetic is outside
    the model. *)

From stdpp Require Import base strings gmap.
From Stdlib Require Import String Ascii.
From Stdlib Require Import ZArith QArith Qround Qabs Lia Lqa Bool.
From Stdlib Require Import List Permutation Sorted.
Import ListNotations.

Local Open Scope Z_scope.
Local Open Scope Q_scope.
Local Open Scope string_scope.
Local Open Scope list_scope.

(** ** NumPy scalars *)

Module np.

(** [numpy.float64] without signed zeros: a rational, an infinity or NaN. *)
Inductive float64 : Type :=
| Fin (q : Q)
| PInf
| NInf
| NaN.

(** Same value (not IEEE [==], for which NaN differs from itself). *)
Definition feq (x y : float64) : Prop :=
  match x, y with
  | Fin a, Fin b => a == b
  | PInf, PInf | NInf, NInf | NaN, NaN => True
  | _, _ => False
  end.

Definition Qltb (a b : Q) : bool := negb (Qle_bool b a).

Definition isnan (x : float64) : bool :=
  match x with NaN => true | _ => false end.

Definition notna (x : float64) : bool := negb (isnan x).

Definition fneg (x : float64) : float64 :=
  match x with
  | Fin a => Fin (- a)
  | PInf => NInf
  | NInf => PInf
  | NaN => NaN
  end.

Definition fadd (x y : float64) : float64 :=
  match x, y with
  | NaN, _ | _, NaN => NaN
  | Fin a, Fin b => Fin (a + b)
  | PInf, NInf | NInf, PInf => NaN
  | PInf, _ | _, PInf => PInf
  | NInf, _ | _, NInf => NInf
  end.

Definition fsub (x y : float64) : float64 := fadd x (fneg y).

(** An infinity with the sign of [a], NaN when [a] is zero. *)
Definition signed_inf (a : Q) : float64 :=
  if Qeq_bool a 0 then NaN else if Qltb 0 a then PInf else NInf.

Definition fmul (x y : float64) : float64 :=
  match x, y with
  | NaN, _ | _, NaN => NaN
  | Fin a, Fin b => Fin (a * b)
  | PInf, Fin a | Fin a, PInf => signed_inf a
  | NInf, Fin a | Fin a, NInf => signed_inf (- a)
  | PInf, PInf | NInf, NInf => PInf
  | PInf, NInf | NInf, PInf => NInf
  end.

(** True division of NumPy scalars: a zero divisor gives an infinity or NaN
    (with a [RuntimeWarning]), never an exception. *)
Definition fdiv (x y : float64) : float64 :=
  match x, y with
  | NaN, _ | _, NaN => NaN
  | Fin a, Fin b => if Qeq_bool b 0 then signed_inf a else Fin (a / b)
  | Fin _, _ => Fin 0
  | PInf, Fin b => if Qltb b 0 then NInf else PInf
  | NInf, Fin b => if Qltb b 0 then PInf else NInf
  | _, _ => NaN
  end.

(** [x > y] on floats: false as soon as one side is NaN. *)
Definition fgtb (x y : float64) : bool :=
  match x, y with
  | NaN, _ | _, NaN => false
  | Fin a, Fin b => Qltb b a
  | PInf, PInf | NInf, _ => false
  | PInf, _ => true
  | Fin _, NInf => true
  | Fin _, PInf => false
  end.

(** [np.isfinite] *)
Definition isfinite (x : float64) : bool :=
  match x with Fin _ => true | _ => false end.

Definition of_Z (n : Z) : float64 := Fin (inject_Z n).
Definition of_nat (n : nat) : float64 := Fin (inject_Z (Z.of_nat n)).

(** Round half to even, to an integer. *)
Definition rint (q : Q) : Z :=
  let f := Qfloor q in
  let r := q - inject_Z f in
  if Qltb r (1 # 2) then f
  else if Qltb (1 # 2) r then (f + 1)%Z
  else if Z.even f then f else (f + 1)%Z.

(** [round(q, 2)] on a finite value. *)
Definition Qround2 (q : Q) : Q := inject_Z (rint (q * 100)) / 100.

(** [.round(2)]. *)
Definition round2 (x : float64) : float64 :=
  match x with
  | Fin q => Fin (Qround2 q)
  | _ => x
  end.

End np.

Import np.

Declare Scope float_scope.
Delimit Scope float_scope with float.
Bind Scope float_scope with float64.
Infix "+" := fadd : float_scope.
Infix "-" := fsub : float_scope.
Infix "*" := fmul : float_scope.
Infix "/" := fdiv : float_scope.
Infix "=f=" := feq (at level 70, no associativity).

(** ** Python exceptions *)

Inductive exn : Type :=
| ZeroDivisionError
| IndexError
| KeyError (key : string)
| DateParseError (text : string).

Definition result (A : Type) : Type := (exn + A)%type.

Definition raise {A} (e : exn) : result A := inl e.

#[global] Instance result_ret : MRet result := fun A a => inr a.

#[global] Instance result_bind : MBind result := fun A B k m =>
  match m with
  | inl e => inl e
  | inr a => k a
  end.

(** True division of Python [int]s: a zero divisor raises. *)
Definition int_truediv (a b : Z) : result float64 :=
  if (b =? 0)%Z then raise ZeroDivisionError
  else mret (Fin (inject_Z a / inject_Z b)).

(** ** Timestamps *)

Record Timestamp : Type := mkTimestamp {
  ts_year : Z;
  ts_month : Z;
  ts_day : Z;
  ts_hour : Z;
  ts_minute : Z;
  ts_second : Z
}.

(** [.dt.quarter] *)
Definition ts_quarter (t : Timestamp) : Z := ((ts_month t - 1) / 3 + 1)%Z.

(** [.dt.to_period('M')]: a year and a month. *)
Definition Period : Type := (Z * Z)%type.
Definition to_period_M (t : Timestamp) : Period := (ts_year t, ts_month t).

(** ** The unified sales record *)

(** One row of the sales frame.  A column that a left join or a date
    difference can leave empty holds an option; [None] is NaN (NaT for an
    instant). *)
Record Row : Type := mkRow {
  order_id : string;
  order_item_id : Z;
  product_id : string;
  price : Q;
  order_status : string;
  order_purchase_timestamp : option Timestamp;
  order_delivered_customer_date : option Timestamp;
  customer_id : string;
  year : option Z;
  month : option Z;
  quarter : option Z;
  product_category_name : option string;
  customer_state : option string;
  customer_city : option string;
  review_score : option Z;
  delivery_days : option Z;
  delivery_category : option string
}.

(** A frame: the names of its columns and its rows.  The code tests for the
    optional columns before it reads them and reads the others ([order_id],
    [price], [order_status], ...) without a test; a frame that has rows is
    taken to carry those. *)
Record DataFrame : Type := mkFrame {
  columns : list string;
  rows : list Row
}.

(** [name in data.columns] *)
Definition has_column (name : string) (data : DataFrame) : bool :=
  existsb (String.eqb name) (columns data).

(** [data.empty]: no column or no row. *)
Definition df_empty (data : DataFrame) : bool :=
  match columns data, rows data with
  | [], _ | _, [] => true
  | _, _ => false
  end.

(** [pd.DataFrame()] *)
Definition empty_frame : DataFrame := mkFrame [] [].

(** [data[mask]]: the rows that satisfy the mask, columns unchanged. *)
Definition select (mask : Row -> bool) (data : DataFrame) : DataFrame :=
  mkFrame (columns data) (List.filter mask (rows data)).

(** ** pandas operations *)

(** The order in which [groupby] and [sort_index] list their keys. *)
Class KeyOrd (K : Type) : Type := key_leb : K -> K -> bool.

#[global] Instance string_ord : KeyOrd string := String.leb.
#[global] Instance Z_ord : KeyOrd Z := Z.leb.
#[global] Instance period_ord : KeyOrd Period := fun p q =>
  (fst p <? fst q)%Z || ((fst p =? fst q)%Z && (snd p <=? snd q)%Z).

Module pd.

Section Generic.
Context {A : Type}.

Fixpoint insert_sorted (leb : A -> A -> bool) (x : A) (l : list A) : list A :=
  match l with
  | [] => [x]
  | y :: l' => if leb x y then x :: l else y :: insert_sorted leb x l'
  end.

(** Ascending insertion sort. *)
Definition sort_by (leb : A -> A -> bool) (l : list A) : list A :=
  fold_right (insert_sorted leb) [] l.

(** [dropna] on one column. *)
Fixpoint dropna (l : list (option A)) : list A :=
  match l with
  | [] => []
  | Some x :: l' => x :: dropna l'
  | None :: l' => dropna l'
  end.

Context `{EqDecision A}.

(** [unique()], [drop_duplicates()]: the first occurrence of every value, in
    order of appearance. *)
Fixpoint unique (l : list A) : list A :=
  match l with
  | [] => []
  | x :: l' => x :: List.filter (fun y => negb (bool_decide (y = x))) (unique l')
  end.

(** [nunique()] of a column without NaN. *)
Definition nunique (l : list A) : nat := length (unique l).

Definition occurrences (x : A) (l : list A) : nat :=
  length (List.filter (fun y => bool_decide (y = x)) l).

(** [value_counts()]: every distinct value with the number of its
    occurrences.  pandas lists the most frequent first; the code reads the
    result only through [to_dict], [sum], [get] and [sort_index], none of which
    sees that order, so values are listed in order of appearance. *)
Definition value_counts (l : list A) : list (A * nat) :=
  map (fun x => (x, occurrences x l)) (unique l).

End Generic.

(** [Series.sum()]: NaN is skipped, the empty sum is 0. *)
Definition sum (s : list float64) : float64 :=
  fold_left fadd (List.filter notna s) (Fin 0).

(** [Series.count()]: the number of values that are not NaN. *)
Definition count (s : list float64) : nat :=
  length (List.filter notna s).

(** [Series.mean()]: NaN is skipped; NaN when nothing is left. *)
Definition mean (s : list float64) : float64 :=
  (sum s / of_nat (count s))%float.

(** Order of floats used for sorting values that are not NaN. *)
Definition fleb (x y : float64) : bool := negb (fgtb x y).

(** [Series.median()]: NaN is skipped; the middle value of the sorted values,
    the mean of the two middle values when their number is even. *)
Definition median (s : list float64) : float64 :=
  let v := sort_by fleb (List.filter notna s) in
  let n := length v in
  match n with
  | O => NaN
  | _ =>
      if Nat.even n
      then ((nth (n / 2 - 1) v NaN + nth (n / 2) v NaN) / Fin 2)%float
      else nth (n / 2) v NaN
  end.

Fixpoint pct_change_from (prev : float64) (s : list float64) : list float64 :=
  match s with
  | [] => []
  | x :: s' => (x / prev - Fin 1)%float :: pct_change_from x s'
  end.

(** [Series.pct_change()] on a series without NaN: the first entry is NaN,
    each later one is [current / previous - 1]. *)
Definition pct_change (s : list float64) : list float64 :=
  match s with
  | [] => []
  | x :: s' => NaN :: pct_change_from x s'
  end.

(** The keys of [groupby(key)]: distinct, NaN dropped, ascending. *)
Definition group_keys {K} `{EqDecision K} `{KeyOrd K}
    (key : Row -> option K) (rs : list Row) : list K :=
  sort_by key_leb (unique (dropna (map key rs))).

Definition group_rows {K} `{EqDecision K}
    (key : Row -> option K) (k : K) (rs : list Row) : list Row :=
  List.filter (fun r => bool_decide (key r = Some k)) rs.

(** [groupby(key)]: every key with the rows that carry it. *)
Definition groupby {K} `{EqDecision K} `{KeyOrd K}
    (key : Row -> option K) (rs : list Row) : list (K * list Row) :=
  map (fun k => (k, group_rows key k rs)) (group_keys key rs).

(** [Series.to_dict()] *)
Definition to_dict {K V} `{Countable K} (s : list (K * V)) : gmap K V :=
  list_to_map s.

End pd.

(** Columns as series. *)
Definition price_col (rs : list Row) : list float64 :=
  map (fun r => Fin (price r)) rs.

Definition opt_float (o : option Z) : float64 :=
  match o with
  | Some z => of_Z z
  | None => NaN
  end.

Definition review_score_col (rs : list Row) : list float64 :=
  map (fun r => opt_float (review_score r)) rs.

Definition delivery_days_col (rs : list Row) : list float64 :=
  map (fun r => opt_float (delivery_days r)) rs.

(** ** [sort_values]

    [DataFrame.sort_values(col, ascending=False)] with the default
    [kind='quicksort']: the rows come back rearranged so that the column
    never increases.  The default kind is not a stable sort, so which of two
    rows with equal values comes first is left to the algorithm. *)
Class SortKind : Type := {
  sort_values_desc : forall {A : Type}, (A -> float64) -> list A -> list A;
  sort_values_perm : forall A (f : A -> float64) l,
    Permutation (sort_values_desc f l) l;
  sort_values_sorted : forall A (f : A -> float64) l,
    Sorted (fun a b => fgtb (f b) (f a) = false) (sort_values_desc f l)
}.

(** One such algorithm, an insertion sort (which happens to be stable). *)
Definition insertion_desc {A : Type} (f : A -> float64) (l : list A) : list A :=
  pd.sort_by (fun a b => negb (fgtb (f b) (f a))) l.

(** ** [business_metrics.py] *)

Module business_metrics.

(** A period filter such as [{'year': 2023}]: column names with the integer
    each must equal. *)
Definition period_filter : Type := list (string * Z).

(** The integer columns of a row, by name; any other column never equals an
    integer. *)
Definition int_cell (key : string) (r : Row) : option Z :=
  if (key =? "year")%string then year r
  else if (key =? "month")%string then month r
  else if (key =? "quarter")%string then quarter r
  else if (key =? "order_item_id")%string then Some (order_item_id r)
  else if (key =? "review_score")%string then review_score r
  else if (key =? "delivery_days")%string then delivery_days r
  else None.

(** The loop [for key, value in filter.items(): d = d[d[key] == value]]. *)
Fixpoint apply_filter (items : period_filter) (d : DataFrame) : result DataFrame :=
  match items with
  | [] => mret d
  | (key, value) :: items' =>
      if has_column key d
      then apply_filter items'
             (select (fun r => bool_decide (int_cell key r = Some value)) d)
      else raise (KeyError key)
  end.

Record PeriodMetrics : Type := {
  total_revenue : float64;
  total_orders : Z;
  total_customers : Z;
  average_order_value : float64;
  period_description : option period_filter   (* [None] is 'All data' *)
}.

Record GrowthRates : Type := {
  revenue_growth : float64;
  order_growth : float64;
  aov_growth : float64
}.

Record RevenueMetrics : Type := {
  current_period : PeriodMetrics;
  comparison_period : option PeriodMetrics;
  growth_rates : option GrowthRates
}.

(** [d.groupby('order_id')['price'].sum()] *)
Definition order_totals (rs : list Row) : list float64 :=
  map (fun g => pd.sum (price_col (snd g)))
      (pd.groupby (fun r => Some (order_id r)) rs).

(** The dictionary of one period (written out twice in the source). *)
Definition period_metrics (d : DataFrame) (desc : option period_filter)
    : PeriodMetrics :=
  {| total_revenue := pd.sum (price_col (rows d));
     total_orders := Z.of_nat (pd.nunique (map order_id (rows d)));
     total_customers := Z.of_nat (pd.nunique (map customer_id (rows d)));
     average_order_value := pd.mean (order_totals (rows d));
     period_description := desc |}.

(** [(current - comparison) / comparison * 100] on NumPy floats. *)
Definition float_growth (current comparison : float64) : float64 :=
  ((current - comparison) / comparison * Fin 100)%float.

(** The rows of one period: [data] filtered when a filter is given and not
    empty, [otherwise] when it is not. *)
Definition filter_period (filter : option period_filter)
    (data otherwise : DataFrame) : result DataFrame :=
  match filter with
  | Some (i :: items) => apply_filter (i :: items) data
  | _ => mret otherwise
  end.

Definition calculate_revenue_metrics (data : DataFrame)
    (current_period_filter comparison_period_filter : option period_filter)
    : result RevenueMetrics :=
  current_data ← filter_period current_period_filter data data;
  comparison_data ← filter_period comparison_period_filter data empty_frame;
  let current :=
    period_metrics current_data
      match current_period_filter with
      | Some (i :: items) => current_period_filter
      | _ => None
      end in
  if negb (df_empty comparison_data) then
    let comparison := period_metrics comparison_data comparison_period_filter in
    og ← int_truediv (total_orders current - total_orders comparison)
                     (total_orders comparison);
    mret {| current_period := current;
            comparison_period := Some comparison;
            growth_rates := Some
              {| revenue_growth :=
                   float_growth (total_revenue current) (total_revenue comparison);
                 order_growth := (og * Fin 100)%float;
                 aov_growth :=
                   float_growth (average_order_value current)
                                (average_order_value comparison) |} |}
  else
    mret {| current_period := current;
            comparison_period := None;
            growth_rates := None |}.

(** The monthly frame, column by column. *)
Record MonthlyMetrics : Type := {
  mm_month : list Z;
  mm_revenue : list float64;
  mm_orders : list Z;
  mm_customers : list Z;
  mm_revenue_growth : list float64;
  mm_order_growth : list float64;
  mm_month_name : list (option string)
}.

Definition month_names (m : Z) : option string :=
  match m with
  | 1 => Some "Jan" | 2 => Some "Feb" | 3 => Some "Mar" | 4 => Some "Apr"
  | 5 => Some "May" | 6 => Some "Jun" | 7 => Some "Jul" | 8 => Some "Aug"
  | 9 => Some "Sep" | 10 => Some "Oct" | 11 => Some "Nov" | 12 => Some "Dec"
  | _ => None
  end%Z.

Definition times100 (s : list float64) : list float64 :=
  map (fun x => (x * Fin 100)%float) s.

Definition calculate_monthly_trends (data : DataFrame) (y : Z) : MonthlyMetrics :=
  let year_data := select (fun r => bool_decide (year r = Some y)) data in
  let groups := pd.groupby month (rows year_data) in
  let revenue := map (fun g => pd.sum (price_col (snd g))) groups in
  let orders := map (fun g => Z.of_nat (pd.nunique (map order_id (snd g)))) groups in
  let customers :=
    map (fun g => Z.of_nat (pd.nunique (map customer_id (snd g)))) groups in
  {| mm_month := map fst groups;
     mm_revenue := revenue;
     mm_orders := orders;
     mm_customers := customers;
     mm_revenue_growth := times100 (pd.pct_change revenue);
     mm_order_growth := times100 (pd.pct_change (map of_Z orders));
     mm_month_name := map (fun g => month_names (fst g)) groups |}.

(** What an analyzer returns: its result, or the [{'error': ...}] dictionary
    when the column it needs is missing. *)
Inductive Analysis (A : Type) : Type :=
| Unavailable (error : string)
| Available (a : A).
Arguments Unavailable {A} error.
Arguments Available {A} a.

(** One row of the grouped frame of an analyzer, before [revenue_share] is
    added.  [grp_mean] is [avg_price] for categories and [avg_order_value] for
    states; [grp_orders] is [unique_orders] or [total_orders]; [grp_distinct]
    is [unique_products] or [unique_customers]; [grp_items] is the category
    frame's [total_items]. *)
Record GroupAgg : Type := {
  grp_key : string;
  grp_total_revenue : float64;
  grp_mean : float64;
  grp_items : Z;
  grp_orders : Z;
  grp_distinct : Z
}.

Record GroupRow : Type := {
  grp_agg : GroupAgg;
  revenue_share : float64
}.

(** [data.groupby(key).agg({...}).round(2)] followed by [reset_index()]. *)
Definition group_agg (key : Row -> option string) (distinct : Row -> string)
    (rs : list Row) : list GroupAgg :=
  map (fun g =>
         {| grp_key := fst g;
            grp_total_revenue := round2 (pd.sum (price_col (snd g)));
            grp_mean := round2 (pd.mean (price_col (snd g)));
            grp_items := Z.of_nat (pd.count (price_col (snd g)));
            grp_orders := Z.of_nat (pd.nunique (map order_id (snd g)));
            grp_distinct := Z.of_nat (pd.nunique (map distinct (snd g))) |})
      (pd.groupby key rs).

(** Sorting by [total_revenue], then the [revenue_share] column. *)
Definition with_revenue_share `{SortKind} (aggs : list GroupAgg) : list GroupRow :=
  let sorted := sort_values_desc grp_total_revenue aggs in
  let total_revenue := pd.sum (map grp_total_revenue sorted) in
  map (fun a =>
         {| grp_agg := a;
            revenue_share :=
              round2 (grp_total_revenue a / total_revenue * Fin 100)%float |})
      sorted.

(** [frame.iloc[0][...]] *)
Definition iloc0 {A B} (f : A -> B) (frame : list A) : result B :=
  match frame with
  | [] => raise IndexError
  | a :: _ => mret (f a)
  end.

Record ProductPerformance : Type := {
  category_performance : list GroupRow;
  top_category : string;
  total_categories : Z
}.

Definition analyze_product_performance `{SortKind} (data : DataFrame)
    : result (Analysis ProductPerformance) :=
  if negb (has_column "product_category_name" data) then
    mret (Unavailable "Product category information not available")
  else
    let category_metrics :=
      with_revenue_share (group_agg product_category_name product_id (rows data)) in
    top ← iloc0 (fun g => grp_key (grp_agg g)) category_metrics;
    mret (Available
            {| category_performance := category_metrics;
               top_category := top;
               total_categories := Z.of_nat (length category_metrics) |}).

Record GeographicPerformance : Type := {
  state_performance : list GroupRow;
  top_state : string;
  total_states : Z;
  top_5_states : list GroupRow
}.

Definition analyze_geographic_performance `{SortKind} (data : DataFrame)
    : result (Analysis GeographicPerformance) :=
  if negb (has_column "customer_state" data) then
    mret (Unavailable "Geographic information not available")
  else
    let state_metrics :=
      with_revenue_share (group_agg customer_state customer_id (rows data)) in
    top ← iloc0 (fun g => grp_key (grp_agg g)) state_metrics;
    mret (Available
            {| state_performance := state_metrics;
               top_state := top;
               total_states := Z.of_nat (length state_metrics);
               top_5_states := firstn 5 state_metrics |}).

Record SatisfactionMetrics : Type := {
  average_score : float64;
  median_score : float64;
  score_distribution : gmap Z nat;
  total_reviews : Z;
  satisfaction_rate : float64
}.

(** [data[['order_id', 'review_score']].drop_duplicates()]: rows are
    duplicates when both columns agree. *)
Definition review_data (rs : list Row) : list (string * option Z) :=
  pd.unique (map (fun r => (order_id r, review_score r)) rs).

(** [(scores >= 4).sum()]: NaN compares false. *)
Definition count_at_least (n : Z) (scores : list (option Z)) : nat :=
  length (List.filter (fun o => match o with
                                | Some z => (n <=? z)%Z
                                | None => false
                                end) scores).

Definition analyze_customer_satisfaction (data : DataFrame)
    : Analysis SatisfactionMetrics :=
  if negb (has_column "review_score" data) then
    Unavailable "Review score information not available"
  else
    let rd := review_data (rows data) in
    let scores := map snd rd in
    Available
      {| average_score := pd.mean (map opt_float scores);
         median_score := pd.median (map opt_float scores);
         score_distribution :=
           pd.to_dict (pd.sort_by (fun a b => key_leb (fst a) (fst b))
                                  (pd.value_counts (pd.dropna scores)));
         total_reviews := Z.of_nat (length rd);
         satisfaction_rate :=
           (of_nat (count_at_least 4 scores) / of_nat (length rd) * Fin 100)%float |}.

Record DeliveryMetrics : Type := {
  average_delivery_days : float64;
  median_delivery_days : float64;
  delivery_categories : gmap string nat;
  on_time_percentage : float64;
  satisfaction_by_delivery_speed : option (gmap string float64)
}.

Definition count_at_most (n : Z) (days : list (option Z)) : nat :=
  length (List.filter (fun o => match o with
                                | Some z => (z <=? n)%Z
                                | None => false
                                end) days).

Definition analyze_delivery_performance (data : DataFrame)
    : result (Analysis DeliveryMetrics) :=
  if negb (has_column "delivery_days" data) then
    mret (Unavailable "Delivery information not available")
  else
    let delivery_data :=
      List.filter (fun r => bool_decide (delivery_days r <> None)) (rows data) in
    by_speed ←
      (if has_column "review_score" data then
         if has_column "delivery_category" data then
           mret (Some (pd.to_dict
                   (map (fun g => (fst g, pd.mean (review_score_col (snd g))))
                        (pd.groupby delivery_category delivery_data))))
         else raise (KeyError "delivery_category")
       else mret None);
    mret (Available
      {| average_delivery_days := pd.mean (delivery_days_col delivery_data);
         median_delivery_days := pd.median (delivery_days_col delivery_data);
         delivery_categories :=
           if has_column "delivery_category" data
           then pd.to_dict (pd.value_counts
                              (pd.dropna (map delivery_category delivery_data)))
           else ∅;
         on_time_percentage :=
           (of_nat (count_at_most 7 (map delivery_days delivery_data))
            / of_nat (length delivery_data) * Fin 100)%float;
         satisfaction_by_delivery_speed := by_speed |}).

Record OrderStatusMetrics : Type := {
  status_counts : gmap string nat;
  status_percentages : gmap string float64;
  os_total_orders : Z;
  completion_rate : float64
}.

(** [data['order_status'].value_counts()] *)
Definition status_value_counts (data : DataFrame) : list (string * nat) :=
  pd.value_counts (map order_status (rows data)).

(** [status_counts.sum()] *)
Definition counts_sum {K} (s : list (K * nat)) : nat :=
  fold_right Nat.add O (map snd s).

Definition calculate_order_status_metrics (data : DataFrame) : OrderStatusMetrics :=
  let counts := status_value_counts data in
  let total := counts_sum counts in
  let percentages :=
    pd.to_dict
      (map (fun c => (fst c, round2 (of_nat (snd c) / of_nat total * Fin 100)%float))
           counts) in
  {| status_counts := pd.to_dict counts;
     status_percentages := percentages;
     os_total_orders := Z.of_nat total;
     completion_rate := default (Fin 0) (percentages !! "delivered") |}.

Record Report : Type := {
  analysis_period : Z * Z;          (* the text [f'{a} vs {c}'] *)
  generated_at : string;
  revenue_metrics : RevenueMetrics;
  monthly_trends : MonthlyMetrics;
  product_performance : Analysis ProductPerformance;
  geographic_performance : Analysis GeographicPerformance;
  customer_satisfaction : Analysis SatisfactionMetrics;
  delivery_performance : Analysis DeliveryMetrics;
  order_status_metrics : OrderStatusMetrics
}.

(** [now] is the text of [pd.Timestamp.now()], read once. *)
Definition generate_comprehensive_report `{SortKind} (now : string)
    (data : DataFrame) (analysis_year comparison_year : Z) : result Report :=
  revenue ←
    calculate_revenue_metrics data
      (Some [("year", analysis_year)]) (Some [("year", comparison_year)]);
  let trends := calculate_monthly_trends data analysis_year in
  let analysis_data :=
    select (fun r => bool_decide (year r = Some analysis_year)) data in
  product ← analyze_product_performance analysis_data;
  geographic ← analyze_geographic_performance analysis_data;
  let satisfaction := analyze_customer_satisfaction analysis_data in
  delivery ← analyze_delivery_performance analysis_data;
  let status := calculate_order_status_metrics analysis_data in
  mret {| analysis_period := (analysis_year, comparison_year);
          generated_at := now;
          revenue_metrics := revenue;
          monthly_trends := trends;
          product_performance := product;
          geographic_performance := geographic;
          customer_satisfaction := satisfaction;
          delivery_performance := delivery;
          order_status_metrics := status |}.

End business_metrics.

(** ** [data_loader.py] *)

Module data_loader.

(** The raw tables as read from the CSV files.  A timestamp cell is text, or
    [None] when the cell is empty. *)
Record OrderItem : Type := {
  oi_order_id : string;
  oi_order_item_id : Z;
  oi_product_id : string;
  oi_price : Q
}.

Record Order : Type := {
  o_order_id : string;
  o_order_status : string;
  o_order_purchase_timestamp : option string;
  o_order_delivered_customer_date : option string;
  o_customer_id : string
}.

Record Product : Type := {
  p_product_id : string;
  p_product_category_name : option string
}.

Record Customer : Type := {
  c_customer_id : string;
  c_customer_state : option string;
  c_customer_city : option string
}.

Record Review : Type := {
  rv_order_id : string;
  rv_review_score : option Z
}.

(** The dictionary returned by [load_raw_datasets]: a table is missing when
    its file was not found. *)
Record Datasets : Type := {
  orders : option (list Order);
  order_items : option (list OrderItem);
  products : option (list Product);
  customers : option (list Customer);
  reviews : option (list Review)
}.

(** [datasets[key]] *)
Definition getitem {A} (key : string) (table : option A) : result A :=
  match table with
  | Some t => mret t
  | None => raise (KeyError key)
  end.

(** Columns of the frame built by [clean_and_prepare_data]. *)
Definition sales_columns : list string :=
  ["order_id"; "order_item_id"; "product_id"; "price"; "order_status";
   "order_purchase_timestamp"; "order_delivered_customer_date"; "customer_id";
   "year"; "month"; "quarter"; "product_category_name"; "customer_state";
   "customer_city"; "review_score"].

(** [pd.merge(left, right, on=key)]: every left row with every right row of
    the same key, in the order of the left rows. *)
Definition merge_inner {L R O} (same : L -> R -> bool) (join : L -> R -> O)
    (left : list L) (right : list R) : list O :=
  flat_map (fun l => map (join l) (List.filter (same l) right)) left.

(** [pd.merge(left, right, on=key, how='left')]: a left row without a match
    is kept once, with NaN in the new columns. *)
Definition merge_left {L R} (same : L -> R -> bool) (join : L -> option R -> L)
    (left : list L) (right : list R) : list L :=
  flat_map (fun l => match List.filter (same l) right with
                     | [] => [join l None]
                     | ms => map (fun r => join l (Some r)) ms
                     end) left.

Section Unify.

(** The date parser behind [pd.to_datetime]: the instant a text denotes, if
    it denotes one. *)
Variable parse_datetime : string -> option Timestamp.

(** [pd.to_datetime(column)] with the default [errors='raise']: an empty cell
    becomes NaT, a text that is no date raises. *)
Fixpoint to_datetime (column : list (option string))
    : result (list (option Timestamp)) :=
  match column with
  | [] => mret []
  | None :: column' =>
      rest ← to_datetime column';
      mret (None :: rest)
  | Some text :: column' =>
      match parse_datetime text with
      | Some t =>
          rest ← to_datetime column';
          mret (Some t :: rest)
      | None => raise (DateParseError text)
      end
  end.

(** A row of the first merge, timestamps still text. *)
Definition RawSale : Type := (OrderItem * Order)%type.

Definition sale_row (s : RawSale) (purchase delivered : option Timestamp) : Row :=
  {| order_id := oi_order_id (fst s);
     order_item_id := oi_order_item_id (fst s);
     product_id := oi_product_id (fst s);
     price := oi_price (fst s);
     order_status := o_order_status (snd s);
     order_purchase_timestamp := purchase;
     order_delivered_customer_date := delivered;
     customer_id := o_customer_id (snd s);
     year := ts_year <$> purchase;
     month := ts_month <$> purchase;
     quarter := ts_quarter <$> purchase;
     product_category_name := None;
     customer_state := None;
     customer_city := None;
     review_score := None;
     delivery_days := None;
     delivery_category := None |}.

Fixpoint sale_rows (sales : list RawSale) (purchase delivered : list (option Timestamp))
    : list Row :=
  match sales, purchase, delivered with
  | s :: sales', p :: purchase', d :: delivered' =>
      sale_row s p d :: sale_rows sales' purchase' delivered'
  | _, _, _ => []
  end.

Definition with_product (r : Row) (p : option Product) : Row :=
  mkRow (order_id r) (order_item_id r) (product_id r) (price r) (order_status r)
        (order_purchase_timestamp r) (order_delivered_customer_date r)
        (customer_id r) (year r) (month r) (quarter r)
        (p ≫= p_product_category_name)
        (customer_state r) (customer_city r) (review_score r)
        (delivery_days r) (delivery_category r).

Definition with_customer (r : Row) (c : option Customer) : Row :=
  mkRow (order_id r) (order_item_id r) (product_id r) (price r) (order_status r)
        (order_purchase_timestamp r) (order_delivered_customer_date r)
        (customer_id r) (year r) (month r) (quarter r)
        (product_category_name r)
        (c ≫= c_customer_state) (c ≫= c_customer_city) (review_score r)
        (delivery_days r) (delivery_category r).

Definition with_review (r : Row) (v : option Review) : Row :=
  mkRow (order_id r) (order_item_id r) (product_id r) (price r) (order_status r)
        (order_purchase_timestamp r) (order_delivered_customer_date r)
        (customer_id r) (year r) (month r) (quarter r)
        (product_category_name r)
        (customer_state r) (customer_city r) (v ≫= rv_review_score)
        (delivery_days r) (delivery_category r).

(** The first merge: order items with their orders. *)
Definition merge_orders (order_items : list OrderItem) (orders : list Order)
    : list RawSale :=
  merge_inner (fun i o => String.eqb (oi_order_id i) (o_order_id o)) pair
              order_items orders.

(** The two timestamp cells of a merged row. *)
Definition purchase_text (s : RawSale) : option string :=
  o_order_purchase_timestamp (snd s).

Definition delivered_text (s : RawSale) : option string :=
  o_order_delivered_customer_date (snd s).

Definition clean_and_prepare_data (datasets : Datasets) : result DataFrame :=
  orders ← getitem "orders" (orders datasets);
  order_items ← getitem "order_items" (order_items datasets);
  products ← getitem "products" (products datasets);
  customers ← getitem "customers" (customers datasets);
  reviews ← getitem "reviews" (reviews datasets);
  let sales := merge_orders order_items orders in
  purchase ← to_datetime (map purchase_text sales);
  delivered ← to_datetime (map delivered_text sales);
  let sales_data := sale_rows sales purchase delivered in
  let sales_data :=
    merge_left (fun r p => String.eqb (product_id r) (p_product_id p))
               with_product sales_data products in
  let sales_data :=
    merge_left (fun r c => String.eqb (customer_id r) (c_customer_id c))
               with_customer sales_data customers in
  let sales_data :=
    merge_left (fun r v => String.eqb (order_id r) (rv_order_id v))
               with_review sales_data reviews in
  mret (mkFrame sales_columns sales_data).

End Unify.

(** Days from 1970-01-01 to a civil date. *)
Definition days_from_civil (y m d : Z) : Z :=
  let y' := if (m <=? 2)%Z then (y - 1)%Z else y in
  let era := (y' / 400)%Z in
  let yoe := (y' - era * 400)%Z in
  let mp := if (2 <? m)%Z then (m - 3)%Z else (m + 9)%Z in
  let doy := ((153 * mp + 2) / 5 + d - 1)%Z in
  let doe := (yoe * 365 + yoe / 4 - yoe / 100 + doy)%Z in
  (era * 146097 + doe - 719468)%Z.

Definition epoch_seconds (t : Timestamp) : Z :=
  (days_from_civil (ts_year t) (ts_month t) (ts_day t) * 86400
   + ts_hour t * 3600 + ts_minute t * 60 + ts_second t)%Z.

(** [(delivered - purchase).dt.days]: whole days, rounded down; NaN when an
    instant is missing. *)
Definition days_between (purchase delivered : option Timestamp) : option Z :=
  match purchase, delivered with
  | Some p, Some d => Some ((epoch_seconds d - epoch_seconds p) / 86400)%Z
  | _, _ => None
  end.

(** [categorize_delivery_speed], local to [filter_delivered_orders]. *)
Definition categorize_delivery_speed (days : option Z) : string :=
  match days with
  | None => "Unknown"
  | Some d =>
      if (d <=? 3)%Z then "1-3 days"
      else if (d <=? 7)%Z then "4-7 days"
      else "8+ days"
  end.

Definition with_delivery (r : Row) : Row :=
  let days :=
    days_between (order_purchase_timestamp r) (order_delivered_customer_date r) in
  mkRow (order_id r) (order_item_id r) (product_id r) (price r) (order_status r)
        (order_purchase_timestamp r) (order_delivered_customer_date r)
        (customer_id r) (year r) (month r) (quarter r)
        (product_category_name r)
        (customer_state r) (customer_city r) (review_score r)
        days (Some (categorize_delivery_speed days)).

Definition filter_delivered_orders (sales_data : DataFrame) : DataFrame :=
  let delivered_data :=
    select (fun r => String.eqb (order_status r) "delivered") sales_data in
  mkFrame (columns delivered_data ++ ["delivery_days"; "delivery_category"])
          (map with_delivery (rows delivered_data)).

(** [column >= bound] and [column <= bound]: false on NaN. *)
Definition at_least (bound : Z) (cell : option Z) : bool :=
  match cell with Some z => (bound <=? z)%Z | None => false end.

Definition at_most (bound : Z) (cell : option Z) : bool :=
  match cell with Some z => (z <=? bound)%Z | None => false end.

Definition filter_by_date_range (data : DataFrame)
    (start_year end_year start_month end_month : option Z) : DataFrame :=
  let step (bound : option Z) (mask : Z -> Row -> bool) (d : DataFrame) :=
    match bound with
    | Some b => select (mask b) d
    | None => d
    end in
  let d := step start_year (fun b r => at_least b (year r)) data in
  let d := step end_year (fun b r => at_most b (year r)) d in
  let d := step start_month (fun b r => at_least b (month r)) d in
  step end_month (fun b r => at_most b (month r)) d.

(** [Series.min()] and [Series.max()] on a column of instants: NaT is
    skipped; NaT when nothing is left. *)
Definition instant_min (column : list (option Timestamp)) : option Timestamp :=
  match pd.dropna column with
  | [] => None
  | t :: ts =>
      Some (fold_left (fun m x =>
                         if (epoch_seconds x <? epoch_seconds m)%Z then x else m)
                      ts t)
  end.

Definition instant_max (column : list (option Timestamp)) : option Timestamp :=
  match pd.dropna column with
  | [] => None
  | t :: ts =>
      Some (fold_left (fun m x =>
                         if (epoch_seconds m <? epoch_seconds x)%Z then x else m)
                      ts t)
  end.

(** The dictionary returned by [get_data_summary]; [date_range] holds its
    ['start'] and ['end']. *)
Record DataSummary : Type := {
  total_records : Z;
  unique_orders : Z;
  unique_customers : Z;
  unique_products : Z;
  date_range : option Timestamp * option Timestamp;
  total_revenue : float64;
  order_statuses : gmap string nat;
  product_categories : Z;
  geographic_coverage : Z
}.

Definition get_data_summary (data : DataFrame) : DataSummary :=
  {| total_records := Z.of_nat (length (rows data));
     unique_orders := Z.of_nat (pd.nunique (map order_id (rows data)));
     unique_customers := Z.of_nat (pd.nunique (map customer_id (rows data)));
     unique_products := Z.of_nat (pd.nunique (map product_id (rows data)));
     date_range :=
       (instant_min (map order_purchase_timestamp (rows data)),
        instant_max (map order_purchase_timestamp (rows data)));
     total_revenue := pd.sum (price_col (rows data));
     order_statuses := pd.to_dict (pd.value_counts (map order_status (rows data)));
     product_categories :=
       if has_column "product_category_name" data
       then Z.of_nat (pd.nunique (pd.dropna (map product_category_name (rows data))))
       else 0%Z;
     geographic_coverage :=
       if has_column "customer_state" data
       then Z.of_nat (pd.nunique (pd.dropna (map customer_state (rows data))))
       else 0%Z |}.

End data_loader.

(** ** [dashboard_utils.py] *)

Module dashboard_utils.

(** [categorize_delivery_time], local to [create_satisfaction_delivery_chart]. *)
Definition categorize_delivery_time (days : option Z) : string :=
  match days with
  | None => "Unknown"
  | Some d =>
      if (d <=? 3)%Z then "1-3 days"
      else if (d <=? 7)%Z then "4-7 days"
      else if (d <=? 14)%Z then "8-14 days"
      else "15+ days"
  end.

(** [calculate_trend_indicator]: the change in percent, its arrow and its
    style; a previous value of 0 or NaN gives the neutral triple. *)
Definition calculate_trend_indicator (current_value previous_value : float64)
    : float64 * string * string :=
  match previous_value with
  | NaN => (Fin 0, "→", "trend-neutral")
  | _ =>
      if (match previous_value with Fin p => Qeq_bool p 0 | _ => false end)
      then (Fin 0, "→", "trend-neutral")
      else
        let change :=
          ((current_value - previous_value) / previous_value * Fin 100)%float in
        if fgtb change (Fin 0) then (change, "↗", "trend-positive")
        else if fgtb (Fin 0) change
             then (fsub (Fin 0) change, "↘", "trend-negative")
             else (Fin 0, "→", "trend-neutral")
  end.

(** [drop_duplicates(subset=['order_id'])]: the first row of every order. *)
Fixpoint first_per_order (rs : list Row) : list Row :=
  match rs with
  | [] => []
  | r :: rs' =>
      r :: List.filter (fun r' => negb (String.eqb (order_id r') (order_id r)))
                       (first_per_order rs')
  end.

Definition bucket_order : list string :=
  ["1-3 days"; "4-7 days"; "8-14 days"; "15+ days"; "Unknown"].

(** The data of the bars drawn by [create_satisfaction_delivery_chart]: the
    mean review score of every delivery bucket, in [bucket_order] (every
    label of [categorize_delivery_time] is in it); [None] when a column is
    missing and the chart only shows a notice. *)
Definition satisfaction_by_delivery (data : DataFrame)
    : option (list (string * float64)) :=
  if negb (has_column "review_score" data) || negb (has_column "delivery_days" data)
  then None
  else
    let review_delivery :=
      List.filter (fun r => bool_decide (delivery_days r <> None)
                            && bool_decide (review_score r <> None))
                  (first_per_order (rows data)) in
    let bucket r := categorize_delivery_time (delivery_days r) in
    let means :=
      map (fun b => (b, pd.mean (review_score_col
                                   (List.filter (fun r => String.eqb (bucket r) b)
                                                review_delivery))))
          (pd.sort_by String.leb (pd.unique (map bucket review_delivery))) in
    Some (flat_map (fun b => List.filter (fun m => String.eqb (fst m) b) means)
                   bucket_order).

(** [str.replace('_', ' ')] *)
Fixpoint replace_underscore (s : string) : string :=
  match s with
  | EmptyString => EmptyString
  | String c s' =>
      String (if Ascii.eqb c "_" then " "%char else c) (replace_underscore s')
  end.

Section CategoryChart.

(** [str.title()], the title casing of Python strings. *)
Variable str_title : string -> string.

(** A row of the frame [category_revenue] of [create_category_bar_chart]:
    the bar's category, its length and its label. *)
Record CategoryBar : Type := {
  bar_category : string;
  bar_price : float64;
  display_name : string
}.

(** The frame behind the bars of [create_category_bar_chart]: the ten
    categories of highest revenue; [None] when the category column is missing
    and the chart only shows a notice. *)
Definition category_revenue `{SortKind} (data : DataFrame)
    : option (list CategoryBar) :=
  if negb (has_column "product_category_name" data) then None
  else
    let sums :=
      map (fun g => (fst g, pd.sum (price_col (snd g))))
          (pd.groupby product_category_name (rows data)) in
    let top := firstn 10 (sort_values_desc snd sums) in
    Some (map (fun c =>
                 {| bar_category := fst c;
                    bar_price := snd c;
                    display_name := str_title (replace_underscore (fst c)) |})
              top).

End CategoryChart.

End dashboard_utils.

(** ** [app.py] *)

Module app.

Section LoadAndPrepare.
Variable parse_datetime : string -> option Timestamp.

(** [load_and_prepare_data]: any exception of the load is reported with
    [st.error] and the empty frame is returned. *)
Definition load_and_prepare_data (raw_datasets : data_loader.Datasets) : DataFrame :=
  match data_loader.clean_and_prepare_data parse_datetime raw_datasets with
  | inr sales_data => data_loader.filter_delivered_orders sales_data
  | inl _ => empty_frame
  end.

End LoadAndPrepare.

Record CurrentMetrics : Type := {
  total_revenue : float64;
  total_orders : Z;
  total_customers : Z;
  avg_order_value : float64
}.

(** The numbers shown by the KPI row. *)
Record Kpis : Type := {
  current_metrics : CurrentMetrics;
  monthly_growth : float64;
  revenue_trend : float64;
  orders_trend : float64;
  aov_trend : float64
}.

(** How [main] ends: with [st.error], with [st.warning], or with the
    dashboard drawn from the computed numbers. *)
Inductive Outcome : Type :=
| NoDataAvailable
| NoDataForRange
| Dashboard (k : Kpis).

(** [delivered_orders['year'] = ...dt.year] and the same for the month. *)
Definition with_calendar (r : Row) : Row :=
  mkRow (order_id r) (order_item_id r) (product_id r) (price r) (order_status r)
        (order_purchase_timestamp r) (order_delivered_customer_date r)
        (customer_id r)
        (ts_year <$> order_purchase_timestamp r)
        (ts_month <$> order_purchase_timestamp r)
        (quarter r) (product_category_name r)
        (customer_state r) (customer_city r) (review_score r)
        (delivery_days r) (delivery_category r).

(** The mask of a period: the year, and the month unless 'All Months'
    ([None]) is selected. *)
Definition in_period (y : Z) (selected_month : option Z) (r : Row) : bool :=
  match selected_month with
  | None => bool_decide (year r = Some y)
  | Some m => bool_decide (year r = Some y) && bool_decide (month r = Some m)
  end.

(** [d['order_purchase_timestamp'].dt.to_period('M')] *)
Definition purchase_month (r : Row) : option Period :=
  to_period_M <$> order_purchase_timestamp r.

(** [d.groupby(d['order_purchase_timestamp'].dt.to_period('M'))['price'].sum()] *)
Definition monthly_revenue (rs : list Row) : list (Period * float64) :=
  map (fun g => (fst g, pd.sum (price_col (snd g))))
      (pd.groupby purchase_month rs).

(** [monthly.pct_change().mean() * 100 if len(monthly) > 1 else 0] *)
Definition growth_of_months (monthly : list float64) : float64 :=
  if (1 <? length monthly)%nat
  then (pd.mean (pd.pct_change monthly) * Fin 100)%float
  else Fin 0.

(** [((current - comparison) / comparison * 100) if comparison > 0 else 0]
    on NumPy floats. *)
Definition float_trend (current comparison : float64) : float64 :=
  if fgtb comparison (Fin 0)
  then ((current - comparison) / comparison * Fin 100)%float
  else Fin 0.

(** The same on Python [int]s. *)
Definition int_trend (current comparison : Z) : result float64 :=
  if (0 <? comparison)%Z
  then q ← int_truediv (current - comparison) comparison; mret (q * Fin 100)%float
  else mret (Fin 0).

Definition main (delivered_orders : DataFrame) (selected_year : Z)
    (selected_month : option Z) : result Outcome :=
  if df_empty delivered_orders then mret NoDataAvailable
  else
    let delivered_orders :=
      mkFrame (columns delivered_orders) (map with_calendar (rows delivered_orders)) in
    let filtered_data :=
      select (in_period selected_year selected_month) delivered_orders in
    let comparison_year := (selected_year - 1)%Z in
    let comparison_data :=
      select (in_period comparison_year selected_month) delivered_orders in
    if df_empty filtered_data then mret NoDataForRange
    else
      let current :=
        {| total_revenue := pd.sum (price_col (rows filtered_data));
           total_orders := Z.of_nat (pd.nunique (map order_id (rows filtered_data)));
           total_customers :=
             Z.of_nat (pd.nunique (map customer_id (rows filtered_data)));
           avg_order_value :=
             pd.mean (business_metrics.order_totals (rows filtered_data)) |} in
      let growth := growth_of_months (map snd (monthly_revenue (rows filtered_data))) in
      if negb (df_empty comparison_data) then
        let comparison_revenue := pd.sum (price_col (rows comparison_data)) in
        let comparison_orders :=
          Z.of_nat (pd.nunique (map order_id (rows comparison_data))) in
        let comparison_aov :=
          pd.mean (business_metrics.order_totals (rows comparison_data)) in
        orders ← int_trend (total_orders current) comparison_orders;
        mret (Dashboard
                {| current_metrics := current;
                   monthly_growth := growth;
                   revenue_trend := float_trend (total_revenue current) comparison_revenue;
                   orders_trend := orders;
                   aov_trend := float_trend (avg_order_value current) comparison_aov |})
      else
        mret (Dashboard
                {| current_metrics := current;
                   monthly_growth := growth;
                   revenue_trend := Fin 0;
                   orders_trend := Fin 0;
                   aov_trend := Fin 0 |}).

End app.

(** ** Fixtures *)

Module fixture.

(** A delivered line item bought on the first day of month [m] of year [y]. *)
Definition line (order : string) (item : Z) (amount : Q) (y m : Z) : Row :=
  {| order_id := order;
     order_item_id := item;
     product_id := "P-" ++ order;
     price := amount;
     order_status := "delivered";
     order_purchase_timestamp := Some (mkTimestamp y m 1 0 0 0);
     order_delivered_customer_date := Some (mkTimestamp y m 3 0 0 0);
     customer_id := "C-" ++ order;
     year := Some y;
     month := Some m;
     quarter := Some ((m - 1) / 3 + 1)%Z;
     product_category_name := None;
     customer_state := None;
     customer_city := None;
     review_score := None;
     delivery_days := Some 2%Z;
     delivery_category := Some "1-3 days" |}.

Definition reviewed (score : Z) (r : Row) : Row :=
  mkRow (order_id r) (order_item_id r) (product_id r) (price r) (order_status r)
        (order_purchase_timestamp r) (order_delivered_customer_date r)
        (customer_id r) (year r) (month r) (quarter r)
        (product_category_name r) (customer_state r) (customer_city r)
        (Some score) (delivery_days r) (delivery_category r).

Definition in_category (category : string) (r : Row) : Row :=
  mkRow (order_id r) (order_item_id r) (product_id r) (price r) (order_status r)
        (order_purchase_timestamp r) (order_delivered_customer_date r)
        (customer_id r) (year r) (month r) (quarter r)
        (Some category) (customer_state r) (customer_city r)
        (review_score r) (delivery_days r) (delivery_category r).

Definition in_state (state : string) (r : Row) : Row :=
  mkRow (order_id r) (order_item_id r) (product_id r) (price r) (order_status r)
        (order_purchase_timestamp r) (order_delivered_customer_date r)
        (customer_id r) (year r) (month r) (quarter r)
        (product_category_name r) (Some state) (customer_city r)
        (review_score r) (delivery_days r) (delivery_category r).

(** A sale of 50 in 2023 after a 2022 in which the only delivered order was
    a free item. *)
Definition free_item_2022 : list Row :=
  [line "A" 1 50 2023 1; line "Z" 1 0 2022 1].

(** One order joined with two reviews of different scores. *)
Definition two_reviews : list Row :=
  [reviewed 5 (line "A" 1 10 2023 1); reviewed 1 (line "A" 1 10 2023 1)].

(** One order on three rows, each with score 5. *)
Definition three_rows_score_5 : list Row :=
  [reviewed 5 (line "A" 1 10 2023 1);
   reviewed 5 (line "A" 2 20 2023 1);
   reviewed 5 (line "A" 3 30 2023 1)].

(** A date parser for the examples: texts of the form
    [YYYY-MM-DD hh:mm:ss], the format of the dataset.  pandas reads more
    formats than this one; the texts the examples need rejected are no dates
    for pandas either. *)
Definition digit (c : ascii) : option Z :=
  let n := Z.of_nat (nat_of_ascii c) in
  if (48 <=? n)%Z && (n <=? 57)%Z then Some (n - 48)%Z else None.

Fixpoint number (cs : list ascii) (acc : Z) : option Z :=
  match cs with
  | [] => Some acc
  | c :: cs' => d ← digit c; number cs' (10 * acc + d)%Z
  end.

Definition field (text : string) (start len : nat) : option Z :=
  number (list_ascii_of_string (substring start len text)) 0.

Definition separator (text : string) (i : nat) (c : ascii) : bool :=
  bool_decide (get i text = Some c).

Definition iso_parse (text : string) : option Timestamp :=
  if (String.length text =? 19)%nat
     && separator text 4 "-" && separator text 7 "-" && separator text 10 " "
     && separator text 13 ":" && separator text 16 ":"
  then
    y ← field text 0 4; m ← field text 5 2; d ← field text 8 2;
    h ← field text 11 2; mi ← field text 14 2; sec ← field text 17 2;
    if (1 <=? m)%Z && (m <=? 12)%Z && (1 <=? d)%Z && (d <=? 31)%Z
       && (h <? 24)%Z && (mi <? 60)%Z && (sec <? 60)%Z
    then Some (mkTimestamp y m d h mi sec)
    else None
  else None.

(** Two orders of one item each; the purchase timestamp of the second is no
    date. *)
Definition raw_with_bad_timestamp : data_loader.Datasets :=
  {| data_loader.orders := Some
       [ {| data_loader.o_order_id := "A";
            data_loader.o_order_status := "delivered";
            data_loader.o_order_purchase_timestamp := Some "2023-01-05 10:00:00";
            data_loader.o_order_delivered_customer_date := Some "2023-01-07 12:00:00";
            data_loader.o_customer_id := "C1" |};
         {| data_loader.o_order_id := "B";
            data_loader.o_order_status := "delivered";
            data_loader.o_order_purchase_timestamp := Some "not a date";
            data_loader.o_order_delivered_customer_date := Some "2023-02-07 12:00:00";
            data_loader.o_customer_id := "C2" |} ];
     data_loader.order_items := Some
       [ {| data_loader.oi_order_id := "A"; data_loader.oi_order_item_id := 1;
            data_loader.oi_product_id := "P1"; data_loader.oi_price := 50 |};
         {| data_loader.oi_order_id := "B"; data_loader.oi_order_item_id := 1;
            data_loader.oi_product_id := "P2"; data_loader.oi_price := 100 |} ];
     data_loader.products := Some [];
     data_loader.customers := Some [];
     data_loader.reviews := Some [] |}.

(** The same two orders; the delivery timestamp of the second is empty. *)
Definition raw_with_missing_timestamp : data_loader.Datasets :=
  {| data_loader.orders := Some
       [ {| data_loader.o_order_id := "A";
            data_loader.o_order_status := "delivered";
            data_loader.o_order_purchase_timestamp := Some "2023-01-05 10:00:00";
            data_loader.o_order_delivered_customer_date := Some "2023-01-07 12:00:00";
            data_loader.o_customer_id := "C1" |};
         {| data_loader.o_order_id := "B";
            data_loader.o_order_status := "delivered";
            data_loader.o_order_purchase_timestamp := Some "2023-02-01 09:30:00";
            data_loader.o_order_delivered_customer_date := None;
            data_loader.o_customer_id := "C2" |} ];
     data_loader.order_items := Some
       [ {| data_loader.oi_order_id := "A"; data_loader.oi_order_item_id := 1;
            data_loader.oi_product_id := "P1"; data_loader.oi_price := 50 |};
         {| data_loader.oi_order_id := "B"; data_loader.oi_order_item_id := 1;
            data_loader.oi_product_id := "P2"; data_loader.oi_price := 100 |} ];
     data_loader.products := Some [];
     data_loader.customers := Some [];
     data_loader.reviews := Some [] |}.

(** The tables of the end-to-end scenario of the specification: order A
    with two items of 50 and 30, delivered after 2 days, score 5; order B with
    one item of 100, delivered after 10 days, score 3; order C with one item
    of 20, canceled. *)
Definition raw_scenario : data_loader.Datasets :=
  {| data_loader.orders := Some
       [ {| data_loader.o_order_id := "A";
            data_loader.o_order_status := "delivered";
            data_loader.o_order_purchase_timestamp := Some "2023-01-10 09:00:00";
            data_loader.o_order_delivered_customer_date := Some "2023-01-12 15:00:00";
            data_loader.o_customer_id := "C1" |};
         {| data_loader.o_order_id := "B";
            data_loader.o_order_status := "delivered";
            data_loader.o_order_purchase_timestamp := Some "2023-02-01 08:00:00";
            data_loader.o_order_delivered_customer_date := Some "2023-02-11 20:00:00";
            data_loader.o_customer_id := "C2" |};
         {| data_loader.o_order_id := "C";
            data_loader.o_order_status := "canceled";
            data_loader.o_order_purchase_timestamp := Some "2023-02-05 10:00:00";
            data_loader.o_order_delivered_customer_date := None;
            data_loader.o_customer_id := "C3" |} ];
     data_loader.order_items := Some
       [ {| data_loader.oi_order_id := "A"; data_loader.oi_order_item_id := 1;
            data_loader.oi_product_id := "P1"; data_loader.oi_price := 50 |};
         {| data_loader.oi_order_id := "A"; data_loader.oi_order_item_id := 2;
            data_loader.oi_product_id := "P2"; data_loader.oi_price := 30 |};
         {| data_loader.oi_order_id := "B"; data_loader.oi_order_item_id := 1;
            data_loader.oi_product_id := "P3"; data_loader.oi_price := 100 |};
         {| data_loader.oi_order_id := "C"; data_loader.oi_order_item_id := 1;
            data_loader.oi_product_id := "P1"; data_loader.oi_price := 20 |} ];
     data_loader.products := Some
       [ {| data_loader.p_product_id := "P1";
            data_loader.p_product_category_name := Some "toys" |};
         {| data_loader.p_product_id := "P2";
            data_loader.p_product_category_name := Some "books" |};
         {| data_loader.p_product_id := "P3";
            data_loader.p_product_category_name := Some "books" |} ];
     data_loader.customers := Some
       [ {| data_loader.c_customer_id := "C1";
            data_loader.c_customer_state := Some "SP";
            data_loader.c_customer_city := Some "sao paulo" |};
         {| data_loader.c_customer_id := "C2";
            data_loader.c_customer_state := Some "RJ";
            data_loader.c_customer_city := Some "niteroi" |};
         {| data_loader.c_customer_id := "C3";
            data_loader.c_customer_state := Some "SP";
            data_loader.c_customer_city := Some "campinas" |} ];
     data_loader.reviews := Some
       [ {| data_loader.rv_order_id := "A"; data_loader.rv_review_score := Some 5%Z |};
         {| data_loader.rv_order_id := "B"; data_loader.rv_review_score := Some 3%Z |} ]
  |}.

(** Its delivered line items, as the loader prepares them. *)
Definition scenario : list Row :=
  [ {| order_id := "A"; order_item_id := 1; product_id := "P1"; price := 50;
       order_status := "delivered";
       order_purchase_timestamp := Some (mkTimestamp 2023 1 10 9 0 0);
       order_delivered_customer_date := Some (mkTimestamp 2023 1 12 15 0 0);
       customer_id := "C1";
       year := Some 2023%Z; month := Some 1%Z; quarter := Some 1%Z;
       product_category_name := Some "toys";
       customer_state := Some "SP"; customer_city := Some "sao paulo";
       review_score := Some 5%Z;
       delivery_days := Some 2%Z; delivery_category := Some "1-3 days" |};
    {| order_id := "A"; order_item_id := 2; product_id := "P2"; price := 30;
       order_status := "delivered";
       order_purchase_timestamp := Some (mkTimestamp 2023 1 10 9 0 0);
       order_delivered_customer_date := Some (mkTimestamp 2023 1 12 15 0 0);
       customer_id := "C1";
       year := Some 2023%Z; month := Some 1%Z; quarter := Some 1%Z;
       product_category_name := Some "books";
       customer_state := Some "SP"; customer_city := Some "sao paulo";
       review_score := Some 5%Z;
       delivery_days := Some 2%Z; delivery_category := Some "1-3 days" |};
    {| order_id := "B"; order_item_id := 1; product_id := "P3"; price := 100;
       order_status := "delivered";
       order_purchase_timestamp := Some (mkTimestamp 2023 2 1 8 0 0);
       order_delivered_customer_date := Some (mkTimestamp 2023 2 11 20 0 0);
       customer_id := "C2";
       year := Some 2023%Z; month := Some 2%Z; quarter := Some 1%Z;
       product_category_name := Some "books";
       customer_state := Some "RJ"; customer_city := Some "niteroi";
       review_score := Some 3%Z;
       delivery_days := Some 10%Z; delivery_category := Some "8+ days" |} ].

(** Three categories with a revenue of 1 each. *)
Definition three_categories : list Row :=
  [in_category "x" (line "A" 1 1 2023 1);
   in_category "y" (line "B" 1 1 2023 1);
   in_category "w" (line "C" 1 1 2023 1)].

(** Toys for 30 and books for 50 and 20, bought from two states. *)
Definition two_categories : list Row :=
  [in_state "SP" (in_category "toys" (line "A" 1 30 2023 1));
   in_state "RJ" (in_category "books" (line "B" 1 50 2023 1));
   in_state "SP" (in_category "books" (line "B" 2 20 2023 1))].

(** Title casing for the examples, on ASCII text: a letter that follows a
    letter is put in lower case, any other letter in upper case; the
    characters that are no letters are kept and end a word. *)
Definition is_lower (c : ascii) : bool :=
  (97 <=? nat_of_ascii c)%nat && (nat_of_ascii c <=? 122)%nat.

Definition is_upper (c : ascii) : bool :=
  (65 <=? nat_of_ascii c)%nat && (nat_of_ascii c <=? 90)%nat.

Definition to_upper (c : ascii) : ascii :=
  if is_lower c then ascii_of_nat (nat_of_ascii c - 32) else c.

Definition to_lower (c : ascii) : ascii :=
  if is_upper c then ascii_of_nat (nat_of_ascii c + 32) else c.

Fixpoint title_from (previous_is_cased : bool) (s : string) : string :=
  match s with
  | EmptyString => EmptyString
  | String c s' =>
      if is_lower c || is_upper c
      then String (if previous_is_cased then to_lower c else to_upper c)
                  (title_from true s')
      else String c (title_from false s')
  end.

Definition ascii_title (s : string) : string := title_from false s.

(** The frame of delivered orders with these rows. *)
Definition frame (rs : list Row) : DataFrame :=
  mkFrame (data_loader.sales_columns ++ ["delivery_days"; "delivery_category"]) rs.

(** One delivered order of one item of 10 whose review is in the reviews
    table twice, with scores 5 and 1. *)
Definition raw_reviewed_twice : data_loader.Datasets :=
  {| data_loader.orders := Some
       [ {| data_loader.o_order_id := "A";
            data_loader.o_order_status := "delivered";
            data_loader.o_order_purchase_timestamp := Some "2023-01-05 10:00:00";
            data_loader.o_order_delivered_customer_date := Some "2023-01-07 12:00:00";
            data_loader.o_customer_id := "C1" |} ];
     data_loader.order_items := Some
       [ {| data_loader.oi_order_id := "A"; data_loader.oi_order_item_id := 1;
            data_loader.oi_product_id := "P1"; data_loader.oi_price := 10 |} ];
     data_loader.products := Some
       [ {| data_loader.p_product_id := "P1";
            data_loader.p_product_category_name := Some "toys" |} ];
     data_loader.customers := Some
       [ {| data_loader.c_customer_id := "C1";
            data_loader.c_customer_state := Some "SP";
            data_loader.c_customer_city := Some "sao paulo" |} ];
     data_loader.reviews := Some
       [ {| data_loader.rv_order_id := "A"; data_loader.rv_review_score := Some 5%Z |};
         {| data_loader.rv_order_id := "A"; data_loader.rv_review_score := Some 1%Z |} ]
  |}.

(** The tables of the scenario without the reviews table, whose file was
    not found. *)
Definition raw_without_reviews : data_loader.Datasets :=
  {| data_loader.orders := data_loader.orders raw_scenario;
     data_loader.order_items := data_loader.order_items raw_scenario;
     data_loader.products := data_loader.products raw_scenario;
     data_loader.customers := data_loader.customers raw_scenario;
     data_loader.reviews := None |}.

End fixture.

Import business_metrics.

(** * Reference definitions

    What the specification says a metric is, written without the pandas
    operations. *)

(** The sum of a list of rationals, one summand per element. *)
Definition Qsum (l : list Q) : Q := fold_right Qplus 0 l.

(** The value [Series.sum()] computes on finite values: summed from the left
    onto 0. *)
Definition sum_of (qs : list Q) : Q := fold_left Qplus qs 0.

(** The sum of the prices of the line items of order [o]. *)
Definition order_sum (rs : list Row) (o : string) : Q :=
  Qsum (map price (List.filter (fun r => String.eqb (order_id r) o) rs)).

(** The distinct order ids of a record set. *)
Definition distinct_orders (rs : list Row) : list string :=
  nodup string_dec (map order_id rs).

(** The mean, over the distinct orders, of the sum of price within the order. *)
Definition mean_order_sum (rs : list Row) : Q :=
  Qsum (map (order_sum rs) (distinct_orders rs))
  / inject_Z (Z.of_nat (length (distinct_orders rs))).

(** The flat mean of the line-item prices. *)
Definition flat_mean_price (rs : list Row) : Q :=
  Qsum (map price rs) / inject_Z (Z.of_nat (length rs)).

(** Two frames with the same columns whose rows are a rearrangement of each
    other. *)
Definition reordered (d d' : DataFrame) : Prop :=
  columns d = columns d' /\ Permutation (rows d) (rows d').

(** A timestamp cell that holds a text which is no date. *)
Definition unparseable (parse : string -> option Timestamp)
    (cell : option string) : Prop :=
  exists text, cell = Some text /\ parse text = None.

(** Row [r] of the unified frame is the merged row [s]: same order, item and
    price, and its instants are those its two cells denote (NaT for an empty
    cell). *)
Definition line_of (parse : string -> option Timestamp)
    (s : data_loader.RawSale) (r : Row) : Prop :=
  order_id r = data_loader.oi_order_id (fst s)
  /\ order_item_id r = data_loader.oi_order_item_id (fst s)
  /\ price r = data_loader.oi_price (fst s)
  /\ order_purchase_timestamp r = data_loader.purchase_text s ≫= parse
  /\ order_delivered_customer_date r = data_loader.delivered_text s ≫= parse.

(** The current-period record set of [main]. *)
Definition current_rows (delivered_orders : DataFrame) (selected_year : Z)
    (selected_month : option Z) : list Row :=
  List.filter (app.in_period selected_year selected_month)
              (map app.with_calendar (rows delivered_orders)).

(** Row [r] was bought in the month [p]. *)
Definition bought_in (p : Period) (r : Row) : bool :=
  bool_decide (to_period_M <$> order_purchase_timestamp r = Some p).

(** Month [p] is before month [q]. *)
Definition period_lt (p q : Period) : Prop :=
  (fst p < fst q)%Z \/ (fst p = fst q /\ (snd p < snd q)%Z).

(** The revenue of month [p]. *)
Definition month_total (rs : list Row) (p : Period) : Q :=
  Qsum (map price (List.filter (bought_in p) rs)).

(** The successive percentage changes along a sequence of totals. *)
Fixpoint percentage_changes (totals : list Q) : list Q :=
  match totals with
  | previous :: (current :: _) as rest =>
      (current - previous) / previous * 100 :: percentage_changes rest
  | _ => []
  end.

(** Their arithmetic mean. *)
Definition mean_percentage_change (totals : list Q) : Q :=
  Qsum (percentage_changes totals)
  / inject_Z (Z.of_nat (length (percentage_changes totals))).

(** The values [pct_change] computes after the first, as rationals. *)
Fixpoint steps (previous : Q) (totals : list Q) : list Q :=
  match totals with
  | [] => []
  | current :: rest => (current / previous - 1) :: steps current rest
  end.

(** The distinct values of a grouping column, NaN left out. *)
Definition distinct_keys (key : Row -> option string) (rs : list Row) : list string :=
  nodup string_dec (pd.dropna (map key rs)).

(** The revenue of the rows whose grouping key is [k]. *)
Definition group_revenue (key : Row -> option string) (rs : list Row) (k : string) : Q :=
  Qsum (map price (List.filter (fun r => bool_decide (key r = Some k)) rs)).

(** A row of the grouped frame carries the rounded revenue of its group. *)
Definition agg_ok (key : Row -> option string) (rs : list Row) (a : GroupAgg) : Prop :=
  grp_total_revenue a = Fin (Qround2 (group_revenue key rs (grp_key a))).

(** What an analyzer's table of groups is, for the rows [rs] grouped by
    [key]: the groups are the distinct keys; [totals] lists their
    [total_revenue], the revenue of the group rounded to two decimals, and
    never increases along the table; the sum of [totals] differs from the
    revenue of all rows by at most 0.005 per group when every row has a key.
    When that sum is not zero, [revenue_share] is the group's [total_revenue]
    over the sum, times 100, rounded to two decimals, hence within 0.005 of
    the quotient, and the shares add up to 100 within 0.005 per group.  When
    the sum is zero no share is a number. *)
Definition share_table (key : Row -> option string) (rs : list Row)
    (groups : list GroupRow) : Prop :=
  exists totals : list Q,
    Permutation (map (fun g => grp_key (grp_agg g)) groups) (distinct_keys key rs)
    /\ Forall2 (fun g t =>
                  grp_total_revenue (grp_agg g) = Fin t
                  /\ t = Qround2 (group_revenue key rs (grp_key (grp_agg g))))
               groups totals
    /\ Sorted (fun t t' => t' <= t) totals
    /\ ((forall r, In r rs -> key r <> None) ->
        Qabs (Qsum totals - Qsum (map price rs))
        <= inject_Z (Z.of_nat (length groups)) * (1 # 200))
    /\ (~ Qsum totals == 0 ->
        exists shares : list Q,
          Forall2 (fun g s => revenue_share g = Fin s) groups shares
          /\ Forall2 (fun s t => s = Qround2 (t / Qsum totals * 100)) shares totals
          /\ Forall2 (fun s t => Qabs (s - t / Qsum totals * 100) <= 1 # 200)
                     shares totals
          /\ Qabs (Qsum shares - 100)
             <= inject_Z (Z.of_nat (length groups)) * (1 # 200))
    /\ (Qsum totals == 0 ->
        Forall (fun g => isfinite (revenue_share g) = false) groups).

(** The first of the five tables [clean_and_prepare_data] reads that the
    dictionary does not hold. *)
Definition first_missing (datasets : data_loader.Datasets) : option string :=
  match data_loader.orders datasets with
  | None => Some "orders"
  | Some _ =>
  match data_loader.order_items datasets with
  | None => Some "order_items"
  | Some _ =>
  match data_loader.products datasets with
  | None => Some "products"
  | Some _ =>
  match data_loader.customers datasets with
  | None => Some "customers"
  | Some _ =>
  match data_loader.reviews datasets with
  | None => Some "reviews"
  | Some _ => None
  end end end end end.

(** The rows of the lookup tables that match a merged line item. *)
Definition products_of (ps : list data_loader.Product) (s : data_loader.RawSale)
    : list data_loader.Product :=
  List.filter (fun p => String.eqb (data_loader.oi_product_id (fst s))
                                   (data_loader.p_product_id p)) ps.

Definition customers_of (cs : list data_loader.Customer) (s : data_loader.RawSale)
    : list data_loader.Customer :=
  List.filter (fun c => String.eqb (data_loader.o_customer_id (snd s))
                                   (data_loader.c_customer_id c)) cs.

Definition reviews_of (rvs : list data_loader.Review) (s : data_loader.RawSale)
    : list data_loader.Review :=
  List.filter (fun v => String.eqb (data_loader.oi_order_id (fst s))
                                   (data_loader.rv_order_id v)) rvs.

(** The row of a merged line item whose product, customer and review are
    looked up: the first match of each table, NaN where there is none. *)
Definition unified_row (parse : string -> option Timestamp)
    (ps : list data_loader.Product) (cs : list data_loader.Customer)
    (rvs : list data_loader.Review) (s : data_loader.RawSale) : Row :=
  let purchase := data_loader.purchase_text s ≫= parse in
  {| order_id := data_loader.oi_order_id (fst s);
     order_item_id := data_loader.oi_order_item_id (fst s);
     product_id := data_loader.oi_product_id (fst s);
     price := data_loader.oi_price (fst s);
     order_status := data_loader.o_order_status (snd s);
     order_purchase_timestamp := purchase;
     order_delivered_customer_date := data_loader.delivered_text s ≫= parse;
     customer_id := data_loader.o_customer_id (snd s);
     year := ts_year <$> purchase;
     month := ts_month <$> purchase;
     quarter := ts_quarter <$> purchase;
     product_category_name :=
       head (products_of ps s) ≫= data_loader.p_product_category_name;
     customer_state := head (customers_of cs s) ≫= data_loader.c_customer_state;
     customer_city := head (customers_of cs s) ≫= data_loader.c_customer_city;
     review_score := head (reviews_of rvs s) ≫= data_loader.rv_review_score;
     delivery_days := None;
     delivery_category := None |}.

(** The number of rows a left join makes of a row with [n] matches. *)
Definition copies (n : nat) : nat := Nat.max 1 n.

(** The number of rows the three left joins make of a merged line item. *)
Definition rows_of_sale (ps : list data_loader.Product)
    (cs : list data_loader.Customer) (rvs : list data_loader.Review)
    (s : data_loader.RawSale) : nat :=
  (copies (length (products_of ps s)) * copies (length (customers_of cs s))
   * copies (length (reviews_of rvs s)))%nat.

(** The calendar columns of a row are those of its purchase instant. *)
Definition calendar_ok (r : Row) : Prop :=
  year r = ts_year <$> order_purchase_timestamp r
  /\ month r = ts_month <$> order_purchase_timestamp r
  /\ quarter r = ts_quarter <$> order_purchase_timestamp r.

(** Seconds since midnight. *)
Definition time_of_day (t : Timestamp) : Z :=
  (ts_hour t * 3600 + ts_minute t * 60 + ts_second t)%Z.

(** A cell lies within the bounds that are given. *)
Definition within (lower upper : option Z) (cell : option Z) : bool :=
  match lower with Some b => data_loader.at_least b cell | None => true end
  && match upper with Some b => data_loader.at_most b cell | None => true end.

(** The first key of a period filter that is no column of the frame. *)
Definition missing_column (filter : option period_filter) (data : DataFrame)
    : option string :=
  match filter with
  | Some items => fst <$> List.find (fun kv => negb (has_column (fst kv) data)) items
  | None => None
  end.

(** No row has a value in the column. *)
Definition no_key (key : Row -> option string) (rs : list Row) : bool :=
  forallb (fun r => bool_decide (key r = None)) rs.

(** The exception [generate_comprehensive_report] ends with, if any: read
    off the columns of the frame and the rows of the analysis year. *)
Definition report_error (data : DataFrame) (analysis_year : Z) : option exn :=
  let analysis_rows :=
    List.filter (fun r => bool_decide (year r = Some analysis_year)) (rows data) in
  if negb (has_column "year" data) then Some (KeyError "year")
  else if has_column "product_category_name" data
          && no_key product_category_name analysis_rows
  then Some IndexError
  else if has_column "customer_state" data && no_key customer_state analysis_rows
  then Some IndexError
  else if has_column "delivery_days" data && has_column "review_score" data
          && negb (has_column "delivery_category" data)
  then Some (KeyError "delivery_category")
  else None.

(** * Facts about the model *)

(** The scenario, loaded: the canceled order is gone, the two items of order
    A and the item of order B remain, with their delivery times. *)
Example scenario_loaded :
  app.load_and_prepare_data fixture.iso_parse fixture.raw_scenario
  = fixture.frame fixture.scenario.
Proof. vm_compute. reflexivity. Qed.

(** Its metrics: revenue 180, two orders, average order value 90, mean
    review score 4; two of the three delivered line items arrived within 7
    days. *)
Example scenario_metrics :
  let data := fixture.frame fixture.scenario in
  (exists m,
     calculate_revenue_metrics data None None = inr m
     /\ total_revenue (current_period m) =f= Fin 180
     /\ total_orders (current_period m) = 2%Z
     /\ average_order_value (current_period m) =f= Fin 90)
  /\ (exists sm,
        analyze_customer_satisfaction data = Available sm
        /\ average_score sm =f= Fin 4
        /\ total_reviews sm = 2%Z)
  /\ (exists dm,
        analyze_delivery_performance data = inr (Available dm)
        /\ on_time_percentage dm =f= Fin (200 / 3)
        /\ average_delivery_days dm =f= Fin (14 / 3)).
Proof.
  cbv zeta. split; [|split]; eexists; (split; [vm_compute; reflexivity|]);
    repeat split; vm_compute; reflexivity.
Qed.


(** ** Floats *)

Section FloatFacts.

#[global] Instance feq_equiv : Equivalence feq.
Proof.
  split.
  - intros [q| | |]; simpl; auto. reflexivity.
  - intros [a| | |] [b| | |]; simpl; auto. intros E; symmetry; exact E.
  - intros [a| | |] [b| | |] [c| | |]; simpl; auto; try contradiction.
    intros E1 E2. rewrite E1. exact E2.
Qed.

Lemma Qltb_lt (a b : Q) : Qltb a b = true <-> a < b.
Proof.
  unfold Qltb. rewrite negb_true_iff. split.
  - intros H. apply Qnot_le_lt. intros L. apply Qle_bool_iff in L. congruence.
  - intros H. destruct (Qle_bool b a) eqn:E; auto.
    apply Qle_bool_iff in E. apply Qle_not_lt in E. contradiction.
Qed.

Lemma Qltb_ge (a b : Q) : Qltb a b = false <-> b <= a.
Proof.
  unfold Qltb. rewrite negb_false_iff. apply Qle_bool_iff.
Qed.

Lemma Qeq_bool_false (a b : Q) : Qeq_bool a b = false <-> ~ a == b.
Proof.
  split.
  - intros E H. apply Qeq_bool_iff in H. congruence.
  - intros H. destruct (Qeq_bool a b) eqn:E; auto.
    apply Qeq_bool_iff in E. contradiction.
Qed.

(** Division of finite floats by a non-zero finite float is exact. *)
Lemma fdiv_Fin (a b : Q) : ~ b == 0 -> (Fin a / Fin b)%float = Fin (a / b).
Proof.
  intros H. simpl. apply Qeq_bool_false in H. rewrite H. reflexivity.
Qed.

End FloatFacts.

(** ** Sums *)

Section SumFacts.

Lemma Qsum_perm (l1 l2 : list Q) : Permutation l1 l2 -> Qsum l1 == Qsum l2.
Proof.
  induction 1 as [|x l1 l2 _ IH|x y l|l1 l2 l3 _ IH1 _ IH2]; simpl.
  - reflexivity.
  - rewrite IH. reflexivity.
  - ring.
  - rewrite IH1. exact IH2.
Qed.

Lemma Qsum_ext {A} (f g : A -> Q) (l : list A) :
  (forall a, In a l -> f a == g a) -> Qsum (map f l) == Qsum (map g l).
Proof.
  induction l as [|a l IH]; simpl; intros H.
  - reflexivity.
  - rewrite (H a) by auto. rewrite IH by auto. reflexivity.
Qed.

Lemma filter_notna_Fin (qs : list Q) :
  List.filter notna (map Fin qs) = map Fin qs.
Proof.
  induction qs as [|q qs IH]; simpl; [reflexivity | now rewrite IH].
Qed.

Lemma count_Fin (qs : list Q) : pd.count (map Fin qs) = length qs.
Proof.
  unfold pd.count. rewrite filter_notna_Fin. apply length_map.
Qed.

Lemma fold_left_fadd_Fin_eq (qs : list Q) (a : Q) :
  fold_left fadd (map Fin qs) (Fin a) = Fin (fold_left Qplus qs a).
Proof.
  revert a. induction qs as [|q qs IH]; intros a; simpl; [reflexivity | apply IH].
Qed.

Lemma fold_left_Qplus (qs : list Q) (a : Q) :
  fold_left Qplus qs a == a + Qsum qs.
Proof.
  revert a. induction qs as [|q qs IH]; intros a; simpl.
  - ring.
  - rewrite IH. ring.
Qed.

Lemma sum_of_Qsum (qs : list Q) : sum_of qs == Qsum qs.
Proof. unfold sum_of. rewrite fold_left_Qplus. ring. Qed.

Lemma sum_Fin_eq (qs : list Q) : pd.sum (map Fin qs) = Fin (sum_of qs).
Proof. unfold pd.sum. rewrite filter_notna_Fin. apply fold_left_fadd_Fin_eq. Qed.

Lemma inject_nat_nonzero (n : nat) : n <> O -> ~ inject_Z (Z.of_nat n) == 0.
Proof.
  intros N E. apply N. unfold Qeq in E. simpl in E. lia.
Qed.

(** [Series.mean()] of a non-empty column of finite values. *)
Lemma mean_Fin_eq (qs : list Q) :
  qs <> [] ->
  pd.mean (map Fin qs) = Fin (sum_of qs / inject_Z (Z.of_nat (length qs))).
Proof.
  intros N. unfold pd.mean. rewrite sum_Fin_eq, count_Fin. unfold of_nat.
  apply fdiv_Fin, inject_nat_nonzero. destruct qs; [congruence | discriminate].
Qed.

Lemma price_col_Fin (rs : list Row) : price_col rs = map Fin (map price rs).
Proof. unfold price_col. now rewrite map_map. Qed.

(** [Series.sum()] of the price column is the sum of the prices. *)
Lemma sum_price_col (rs : list Row) :
  exists s, pd.sum (price_col rs) = Fin s /\ s == Qsum (map price rs).
Proof.
  rewrite price_col_Fin, sum_Fin_eq. eexists. split; [reflexivity|].
  apply sum_of_Qsum.
Qed.

End SumFacts.

(** ** Lists: distinct values, sorting, counting *)

Section ListFacts.
Context {A : Type} `{EqDecision A}.

Lemma filter_perm (f : A -> bool) (l1 l2 : list A) :
  Permutation l1 l2 -> Permutation (List.filter f l1) (List.filter f l2).
Proof.
  induction 1 as [|x l1 l2 _ IH|x y l|l1 l2 l3 _ IH1 _ IH2]; simpl.
  - constructor.
  - destruct (f x); [now constructor | exact IH].
  - destruct (f x), (f y); try reflexivity. apply perm_swap.
  - now transitivity (List.filter f l2).
Qed.

Lemma unique_In (x : A) (l : list A) : In x (pd.unique l) <-> In x l.
Proof.
  induction l as [|y l IH]; simpl; [tauto|].
  rewrite filter_In, IH, negb_true_iff, bool_decide_eq_false.
  destruct (decide (x = y)) as [->|N]; [tauto|].
  split; [tauto|]. intros [E|H]; [now subst | auto].
Qed.

Lemma unique_NoDup (l : list A) : NoDup (pd.unique l).
Proof.
  induction l as [|y l IH]; simpl; constructor.
  - rewrite filter_In, negb_true_iff, bool_decide_eq_false. tauto.
  - now apply NoDup_filter.
Qed.

Lemma unique_length_le (l : list A) : (length (pd.unique l) <= length l)%nat.
Proof.
  induction l as [|x l IH]; simpl; [lia|].
  pose proof (filter_length_le (fun y => negb (bool_decide (y = x))) (pd.unique l)).
  lia.
Qed.

(** A repeated value makes [nunique] smaller than the number of rows. *)
Lemma unique_length_lt (l : list A) :
  ~ NoDup l -> (length (pd.unique l) < length l)%nat.
Proof.
  induction l as [|x l IH]; intros N.
  - exfalso. apply N. constructor.
  - simpl.
    pose proof (filter_length_le (fun y => negb (bool_decide (y = x))) (pd.unique l)) as L.
    pose proof (unique_length_le l) as U.
    destruct (in_dec (fun a b => decide (a = b)) x l) as [I|I].
    + apply unique_In in I.
      assert (length (List.filter (fun y => negb (bool_decide (y = x))) (pd.unique l))
              < length (pd.unique l))%nat; [|lia].
      clear -I. induction (pd.unique l) as [|y u IHu]; [destruct I|].
      simpl. pose proof (filter_length_le (fun y => negb (bool_decide (y = x))) u).
      destruct (decide (y = x)) as [->|Ne].
      * rewrite bool_decide_eq_true_2 by reflexivity. simpl. lia.
      * rewrite bool_decide_eq_false_2 by exact Ne. simpl.
        destruct I as [E|I]; [congruence|]. specialize (IHu I). lia.
    + assert (~ NoDup l) as N' by (intros D; apply N; now constructor).
      specialize (IH N'). lia.
Qed.

Lemma insert_sorted_perm (leb : A -> A -> bool) (x : A) (l : list A) :
  Permutation (pd.insert_sorted leb x l) (x :: l).
Proof.
  induction l as [|y l IH]; simpl; [reflexivity|].
  destruct (leb x y); [reflexivity|].
  rewrite IH. apply perm_swap.
Qed.

Lemma sort_by_perm (leb : A -> A -> bool) (l : list A) :
  Permutation (pd.sort_by leb l) l.
Proof.
  induction l as [|x l IH]; simpl; [reflexivity|].
  rewrite insert_sorted_perm. now constructor.
Qed.

Lemma occurrences_cons (x y : A) (l : list A) :
  pd.occurrences x (y :: l)
  = ((if bool_decide (y = x) then 1 else 0) + pd.occurrences x l)%nat.
Proof. unfold pd.occurrences. cbn. now destruct (bool_decide (y = x)). Qed.

Lemma occurrences_app (x : A) (l1 l2 : list A) :
  pd.occurrences x (l1 ++ l2) = (pd.occurrences x l1 + pd.occurrences x l2)%nat.
Proof. unfold pd.occurrences. now rewrite filter_app, length_app. Qed.

Lemma occurrences_pos (x : A) (l : list A) :
  In x l <-> (0 < pd.occurrences x l)%nat.
Proof.
  unfold pd.occurrences. induction l as [|y l IH]; simpl; [split; [tauto|lia]|].
  destruct (decide (y = x)) as [->|Ne].
  - rewrite bool_decide_eq_true_2 by reflexivity. simpl. split; [lia|auto].
  - rewrite bool_decide_eq_false_2 by exact Ne. rewrite <- IH.
    split; [intros [E|I]; [congruence|exact I] | auto].
Qed.

Lemma occurrences_filter_ne (x k : A) (l : list A) :
  x <> k ->
  pd.occurrences x (List.filter (fun y => negb (bool_decide (y = k))) l)
  = pd.occurrences x l.
Proof.
  intros Ne. unfold pd.occurrences. induction l as [|y l IH]; simpl; [reflexivity|].
  destruct (decide (y = k)) as [->|Nk].
  - rewrite (bool_decide_eq_true_2 (k = k)) by reflexivity. simpl.
    rewrite (bool_decide_eq_false_2 (k = x)) by congruence. exact IH.
  - rewrite (bool_decide_eq_false_2 (y = k)) by exact Nk. simpl.
    destruct (bool_decide (y = x)); simpl; now rewrite IH.
Qed.

(** The counts of the distinct values of a list add up to its length. *)
Lemma occurrences_total (keys l : list A) :
  NoDup keys -> (forall x, In x l -> In x keys) ->
  fold_right Nat.add O (map (fun x => pd.occurrences x l) keys) = length l.
Proof.
  intros N. revert l. induction N as [|k keys Nk _ IH]; intros l Hl; simpl.
  - destruct l as [|x l]; [reflexivity | destruct (Hl x); now left].
  - rewrite <- (filter_length (fun y => bool_decide (y = k)) l).
    unfold pd.occurrences at 1. f_equal.
    rewrite <- (IH (List.filter (fun y => negb (bool_decide (y = k))) l)).
    + f_equal. apply map_ext_in. intros x Hx. symmetry.
      apply occurrences_filter_ne. intros ->. contradiction.
    + intros x Hx. apply filter_In in Hx as [Hx Hk].
      rewrite negb_true_iff, bool_decide_eq_false in Hk.
      destruct (Hl x Hx) as [E|I]; [congruence | exact I].
Qed.

End ListFacts.

(** ** The insertion sort is a [sort_values] algorithm *)

Section SortFacts.
Context {A : Type}.

Lemma fgtb_asym (x y : float64) : fgtb x y = true -> fgtb y x = false.
Proof.
  destruct x as [a| | |], y as [b| | |]; simpl; try reflexivity; try discriminate.
  rewrite Qltb_lt, Qltb_ge. apply Qlt_le_weak.
Qed.

(** Insertion sort with a total comparison sorts. *)
Lemma insert_sorted_HdRel (leb : A -> A -> bool) (x a : A) (l : list A) :
  leb a x = true -> HdRel (fun a b => leb a b = true) a l ->
  HdRel (fun a b => leb a b = true) a (pd.insert_sorted leb x l).
Proof.
  intros Rax H. destruct l as [|y l]; simpl.
  - now constructor.
  - destruct (leb x y); constructor; [exact Rax|]. now inversion H.
Qed.

Lemma sort_by_sorted (leb : A -> A -> bool) (l : list A) :
  (forall a b, leb a b = false -> leb b a = true) ->
  Sorted (fun a b => leb a b = true) (pd.sort_by leb l).
Proof.
  intros Total. unfold pd.sort_by.
  induction l as [|x l IH]; simpl; [constructor|].
  induction IH as [|y s Ss IHs Hd]; simpl.
  - repeat constructor.
  - destruct (leb x y) eqn:E.
    + constructor; [constructor; assumption | constructor; exact E].
    + constructor; [exact IHs|].
      apply insert_sorted_HdRel; [now apply Total | exact Hd].
Qed.

Lemma insertion_desc_sorted (f : A -> float64) (l : list A) :
  Sorted (fun a b => fgtb (f b) (f a) = false) (insertion_desc f l).
Proof.
  unfold insertion_desc.
  assert (Sorted (fun a b => negb (fgtb (f b) (f a)) = true)
                 (pd.sort_by (fun a b => negb (fgtb (f b) (f a))) l)) as S.
  { apply sort_by_sorted. intros a b E. apply negb_false_iff in E.
    apply negb_true_iff. now apply fgtb_asym. }
  induction S as [|a s _ IH Hd]; constructor; [exact IH|].
  destruct Hd as [|b s' Hb]; constructor. now apply negb_true_iff in Hb.
Qed.

End SortFacts.

Definition insertion_kind : SortKind := {|
  sort_values_desc := @insertion_desc;
  sort_values_perm := fun A f l => sort_by_perm _ l;
  sort_values_sorted := @insertion_desc_sorted
|}.

(** ** Dictionaries *)

Section DictFacts.
Context {K : Type} `{Countable K}.

Lemma value_counts_keys (l : list K) : map fst (pd.value_counts l) = pd.unique l.
Proof.
  unfold pd.value_counts. rewrite map_map. simpl. apply map_id.
Qed.

(** [value_counts().to_dict()] maps every value that occurs to the number of
    its occurrences, and nothing else. *)
Lemma to_dict_value_counts (l : list K) (k : K) :
  pd.to_dict (pd.value_counts l) !! k
  = match pd.occurrences k l with
    | O => None
    | n => Some n
    end.
Proof.
  unfold pd.to_dict. pose proof (occurrences_pos k l) as P.
  destruct (pd.occurrences k l) as [|n] eqn:E.
  - apply not_elem_of_list_to_map_1. intros I.
    apply list_elem_of_In in I. change (In k (map fst (pd.value_counts l))) in I.
    rewrite value_counts_keys in I. apply unique_In, P in I. lia.
  - apply elem_of_list_to_map_1.
    + apply NoDup_ListNoDup. change (NoDup (map fst (pd.value_counts l))).
      rewrite value_counts_keys. apply unique_NoDup.
    + apply list_elem_of_In. unfold pd.value_counts.
      apply in_map_iff. exists k. split; [now rewrite E|].
      apply unique_In, P. lia.
Qed.

Lemma to_dict_map_values {V W} (g : V -> W) (s : list (K * V)) :
  pd.to_dict (map (fun c => (fst c, g (snd c))) s) = g <$> pd.to_dict s.
Proof.
  unfold pd.to_dict. rewrite <- list_to_map_fmap. f_equal.
Qed.

Lemma counts_sum_value_counts (l : list K) :
  business_metrics.counts_sum (pd.value_counts l) = length l.
Proof.
  unfold business_metrics.counts_sum, pd.value_counts. rewrite map_map. simpl.
  apply occurrences_total; [apply unique_NoDup|].
  intros x. apply unique_In.
Qed.

End DictFacts.

(** ** Grouping by order *)

Section OrderFacts.

Lemma dropna_map_Some {A B} (f : A -> B) (l : list A) :
  pd.dropna (map (fun a => Some (f a)) l) = map f l.
Proof.
  induction l as [|a l IH]; simpl; [reflexivity | now rewrite IH].
Qed.

Lemma order_keys_perm (rs : list Row) :
  Permutation (pd.group_keys (fun r => Some (order_id r)) rs) (distinct_orders rs).
Proof.
  unfold pd.group_keys, distinct_orders. rewrite sort_by_perm, dropna_map_Some.
  apply NoDup_Permutation; [apply unique_NoDup | apply NoDup_nodup |].
  intros o. now rewrite unique_In, nodup_In.
Qed.

Lemma group_rows_order (rs : list Row) (o : string) :
  pd.group_rows (fun r => Some (order_id r)) o rs
  = List.filter (fun r => String.eqb (order_id r) o) rs.
Proof.
  unfold pd.group_rows. apply filter_ext. intros r.
  destruct (String.eqb_spec (order_id r) o) as [->|N].
  - now apply bool_decide_eq_true_2.
  - apply bool_decide_eq_false_2. congruence.
Qed.

(** The per-order totals are finite: one exact sum per distinct order. *)
Lemma order_totals_Fin (rs : list Row) :
  order_totals rs
  = map Fin (map (fun o => sum_of (map price
                                     (List.filter (fun r => String.eqb (order_id r) o) rs)))
                 (pd.group_keys (fun r => Some (order_id r)) rs)).
Proof.
  unfold order_totals, pd.groupby. rewrite !map_map. apply map_ext. intros o.
  cbn [snd]. now rewrite price_col_Fin, sum_Fin_eq, group_rows_order.
Qed.

Lemma distinct_orders_perm (rs rs' : list Row) :
  Permutation rs rs' -> Permutation (distinct_orders rs) (distinct_orders rs').
Proof.
  intros P. unfold distinct_orders.
  apply NoDup_Permutation; try apply NoDup_nodup.
  intros o. rewrite !nodup_In.
  split; apply Permutation_in; apply Permutation_map; [|symmetry]; exact P.
Qed.

Lemma order_sum_perm (rs rs' : list Row) (o : string) :
  Permutation rs rs' -> order_sum rs o == order_sum rs' o.
Proof.
  intros P. unfold order_sum. now apply Qsum_perm, Permutation_map, filter_perm.
Qed.

(** Reordering the rows leaves the mean of the per-order sums unchanged. *)
Lemma mean_order_sum_perm (rs rs' : list Row) :
  Permutation rs rs' -> mean_order_sum rs == mean_order_sum rs'.
Proof.
  intros P. unfold mean_order_sum.
  rewrite (Permutation_length (distinct_orders_perm _ _ P)).
  apply Qdiv_comp; [|reflexivity].
  rewrite (Qsum_perm _ _ (Permutation_map (order_sum rs) (distinct_orders_perm _ _ P))).
  apply Qsum_ext. intros o _. now apply order_sum_perm.
Qed.

(** The per-order sums of a record set add up to the sum of all its prices. *)
Lemma order_sums_total (keys : list string) (rs : list Row) :
  NoDup keys -> (forall r, In r rs -> In (order_id r) keys) ->
  Qsum (map (order_sum rs) keys) == Qsum (map price rs).
Proof.
  intros N. revert rs. induction N as [|k keys Nk _ IH]; intros rs Hrs; simpl.
  - destruct rs as [|r rs]; [reflexivity | destruct (Hrs r); now left].
  - set (rest := List.filter (fun r => negb (String.eqb (order_id r) k)) rs).
    assert (Qsum (map price rs) == order_sum rs k + Qsum (map price rest)) as ->.
    { unfold order_sum, rest. clear. induction rs as [|r rs IHr]; simpl; [ring|].
      destruct (String.eqb (order_id r) k); simpl; rewrite IHr; ring. }
    apply Qplus_comp; [reflexivity|].
    rewrite <- (IH rest).
    + apply Qsum_ext. intros o Ho. unfold order_sum, rest.
      assert (o <> k) as Ne by (intros ->; contradiction).
      clear -Ne. induction rs as [|r rs IHr]; simpl; [reflexivity|].
      destruct (String.eqb_spec (order_id r) k) as [E|E]; simpl.
      * destruct (String.eqb_spec (order_id r) o) as [E'|E']; [congruence|exact IHr].
      * destruct (String.eqb (order_id r) o); simpl; now rewrite IHr.
    + intros r Hr. unfold rest in Hr. apply filter_In in Hr as [Hr Hk].
      apply negb_true_iff, String.eqb_neq in Hk.
      destruct (Hrs r Hr) as [E|I]; [congruence | exact I].
Qed.

Lemma mean_order_sum_total (rs : list Row) :
  mean_order_sum rs
  == Qsum (map price rs) / inject_Z (Z.of_nat (length (distinct_orders rs))).
Proof.
  unfold mean_order_sum. apply Qdiv_comp; [|reflexivity].
  apply order_sums_total; [apply NoDup_nodup|].
  intros r Hr. apply nodup_In. now apply in_map.
Qed.

Lemma distinct_orders_nonempty (rs : list Row) : rs <> [] -> distinct_orders rs <> [].
Proof.
  destruct rs as [|r rs]; [congruence|]. intros _ E.
  assert (In (order_id r) (distinct_orders (r :: rs))) as I
    by (apply nodup_In; now left).
  rewrite E in I. destruct I.
Qed.

(** [groupby('order_id')['price'].sum().mean()] on a non-empty record set. *)
Lemma order_totals_mean (rs : list Row) :
  rs <> [] ->
  exists q, pd.mean (order_totals rs) = Fin q /\ q == mean_order_sum rs.
Proof.
  intros N. pose proof (order_keys_perm rs) as P.
  rewrite order_totals_Fin, mean_Fin_eq.
  - eexists. split; [reflexivity|].
    rewrite sum_of_Qsum, length_map, (Permutation_length P).
    unfold mean_order_sum. apply Qdiv_comp; [|reflexivity].
    rewrite (Qsum_perm _ _ (Permutation_map _ P)).
    apply Qsum_ext. intros o _. apply sum_of_Qsum.
  - intros E. apply map_eq_nil in E.
    apply (distinct_orders_nonempty rs N), Permutation_nil.
    now rewrite <- P, E.
Qed.

End OrderFacts.

(** ** Period filters and reordering *)

Section FilterFacts.

Lemma select_reordered (mask : Row -> bool) (d d' : DataFrame) :
  reordered d d' -> reordered (select mask d) (select mask d').
Proof.
  intros [C P]. split; [exact C | now apply filter_perm].
Qed.

Lemma apply_filter_reordered (items : period_filter) (d d' : DataFrame) :
  reordered d d' ->
  match apply_filter items d, apply_filter items d' with
  | inr c, inr c' => reordered c c'
  | inl e, inl e' => e = e'
  | _, _ => False
  end.
Proof.
  revert d d'. induction items as [|[key value] items IH]; intros d d' R; cbn.
  - exact R.
  - unfold has_column. destruct R as [C P]. rewrite <- C.
    destruct (existsb (String.eqb key) (columns d)); [|reflexivity].
    apply IH. now apply select_reordered.
Qed.

Lemma filter_period_reordered (f : option period_filter) (d d' o o' : DataFrame) :
  reordered d d' -> reordered o o' ->
  match filter_period f d o, filter_period f d' o' with
  | inr c, inr c' => reordered c c'
  | inl e, inl e' => e = e'
  | _, _ => False
  end.
Proof.
  intros R Ro. unfold filter_period. destruct f as [[|i items]|]; try exact Ro.
  now apply apply_filter_reordered.
Qed.

End FilterFacts.

(** ** Months *)

Section MonthFacts.

Lemma period_leb_total (p q : Period) :
  key_leb p q = false -> key_leb q p = true.
Proof.
  unfold key_leb, period_ord. destruct p as [y m], q as [y' m']. cbn.
  destruct (Z.ltb_spec y y'), (Z.eqb_spec y y'), (Z.leb_spec m m'),
    (Z.ltb_spec y' y), (Z.eqb_spec y' y), (Z.leb_spec m' m);
    cbn; intros; try reflexivity; try discriminate; lia.
Qed.

Lemma period_leb_trans (p q r : Period) :
  key_leb p q = true -> key_leb q r = true -> key_leb p r = true.
Proof.
  unfold key_leb, period_ord. destruct p as [y m], q as [y' m'], r as [y'' m'']. cbn.
  destruct (Z.ltb_spec y y'), (Z.eqb_spec y y'), (Z.leb_spec m m'),
    (Z.ltb_spec y' y''), (Z.eqb_spec y' y''), (Z.leb_spec m' m''),
    (Z.ltb_spec y y''), (Z.eqb_spec y y''), (Z.leb_spec m m'');
    cbn; intros; try reflexivity; try discriminate; lia.
Qed.

Lemma period_leb_lt (p q : Period) :
  key_leb p q = true -> p <> q -> period_lt p q.
Proof.
  unfold key_leb, period_ord, period_lt. destruct p as [y m], q as [y' m']. cbn.
  destruct (Z.ltb_spec y y'), (Z.eqb_spec y y'), (Z.leb_spec m m');
    cbn; intros E N; try discriminate; try (left; lia).
  right. split; [assumption|]. destruct (Z.eq_dec m m'); [|lia].
  exfalso. apply N. congruence.
Qed.

Lemma dropna_In {A} (x : A) (l : list (option A)) :
  In x (pd.dropna l) <-> In (Some x) l.
Proof.
  induction l as [|[y|] l IH]; cbn; [tauto| |].
  - rewrite IH. split; intros [E|I]; auto; left; congruence.
  - rewrite IH. split; [auto|]. intros [E|I]; [discriminate | exact I].
Qed.

(** The months of a record set come out in chronological order, each once. *)
Lemma month_keys_sorted (rs : list Row) :
  StronglySorted period_lt (pd.group_keys app.purchase_month rs).
Proof.
  unfold pd.group_keys.
  set (keys := pd.unique (pd.dropna (map app.purchase_month rs))).
  assert (NoDup (pd.sort_by key_leb keys)) as N.
  { eapply Permutation_NoDup; [symmetry; apply sort_by_perm | apply unique_NoDup]. }
  assert (StronglySorted (fun p q : Period => key_leb p q = true)
                         (pd.sort_by key_leb keys)) as S.
  { apply Sorted_StronglySorted.
    - intros p q r. apply period_leb_trans.
    - apply sort_by_sorted. apply period_leb_total. }
  induction S as [|p l S IH F]; constructor.
  - apply IH. now inversion N.
  - inversion N as [|p' l' Np Nl]. subst. rewrite Forall_forall in *.
    intros q Iq. apply period_leb_lt; [now apply F|]. intros ->. contradiction.
Qed.

Lemma month_keys_In (rs : list Row) (p : Period) :
  In p (pd.group_keys app.purchase_month rs)
  <-> exists r, In r rs /\ bought_in p r = true.
Proof.
  unfold pd.group_keys.
  split.
  - intros I. apply (Permutation_in _ (sort_by_perm key_leb _)) in I.
    apply unique_In, dropna_In, in_map_iff in I as (r & E & I).
    exists r. split; [exact I|]. now apply bool_decide_eq_true_2.
  - intros (r & I & B). apply bool_decide_eq_true_1 in B.
    apply (Permutation_in _ (Permutation_sym (sort_by_perm key_leb _))).
    apply unique_In, dropna_In, in_map_iff. now exists r.
Qed.

Lemma monthly_revenue_Fin (rs : list Row) :
  map snd (app.monthly_revenue rs)
  = map Fin (map (fun p => sum_of (map price (List.filter (bought_in p) rs)))
                 (pd.group_keys app.purchase_month rs)).
Proof.
  unfold app.monthly_revenue, pd.groupby. rewrite !map_map.
  apply map_ext. intros p. cbn [snd fst]. now rewrite price_col_Fin, sum_Fin_eq.
Qed.

End MonthFacts.

(** ** Percentage changes *)

Section ChangeFacts.

Lemma steps_length (previous : Q) (totals : list Q) :
  length (steps previous totals) = length totals.
Proof.
  revert previous. induction totals as [|t totals IH]; intros previous; cbn;
    [reflexivity | now rewrite IH].
Qed.

Lemma pct_change_from_Fin (previous : Q) (totals : list Q) :
  Forall (fun t => ~ t == 0) (removelast (previous :: totals)) ->
  pd.pct_change_from (Fin previous) (map Fin totals)
  = map Fin (steps previous totals).
Proof.
  revert previous. induction totals as [|t totals IH]; intros previous F;
    [reflexivity|].
  cbn [map pd.pct_change_from steps].
  change (removelast (previous :: t :: totals))
    with (previous :: removelast (t :: totals)) in F.
  inversion F as [|x l Nz F']. subst.
  rewrite (IH t F'), (fdiv_Fin t previous Nz). reflexivity.
Qed.

Lemma percentage_changes_steps (previous : Q) (totals : list Q) :
  Forall (fun t => ~ t == 0) (removelast (previous :: totals)) ->
  Forall2 Qeq (map (fun c => c * 100) (steps previous totals))
              (percentage_changes (previous :: totals)).
Proof.
  revert previous. induction totals as [|t totals IH]; intros previous F;
    [constructor|].
  change (removelast (previous :: t :: totals))
    with (previous :: removelast (t :: totals)) in F.
  inversion F as [|x l Nz F']. subst.
  cbn [steps map percentage_changes]. constructor; [field; exact Nz|].
  apply IH, F'.
Qed.

Lemma Qsum_Forall2 (l l' : list Q) : Forall2 Qeq l l' -> Qsum l == Qsum l'.
Proof.
  induction 1 as [|x y l l' E _ IH]; cbn; [reflexivity|]. now rewrite E, IH.
Qed.

Lemma Qsum_scale (c : Q) (l : list Q) :
  Qsum (map (fun x => x * c) l) == Qsum l * c.
Proof.
  induction l as [|x l IH]; cbn [map Qsum fold_right]; [ring|].
  fold (Qsum (map (fun x => x * c) l)). fold (Qsum l). rewrite IH. ring.
Qed.

Lemma percentage_changes_compat (l l' : list Q) :
  Forall2 Qeq l l' -> Forall2 Qeq (percentage_changes l) (percentage_changes l').
Proof.
  induction 1 as [|x y l l' E F IH]; [constructor|].
  destruct F as [|x' y' l l' E' F']; [constructor|].
  cbn [percentage_changes]. constructor; [now rewrite E, E' | exact IH].
Qed.

Lemma removelast_nonzero_compat (l l' : list Q) :
  Forall2 Qeq l l' ->
  Forall (fun t => ~ t == 0) (removelast l') ->
  Forall (fun t => ~ t == 0) (removelast l).
Proof.
  induction 1 as [|x y l l' E F IH]; intros Nz; [constructor|].
  destruct F as [|x' y' l l' E' F']; [constructor|].
  change (removelast (x :: x' :: l)) with (x :: removelast (x' :: l)).
  change (removelast (y :: y' :: l')) with (y :: removelast (y' :: l')) in Nz.
  inversion Nz as [|a b Ny Nz']. subst. constructor.
  - intros E0. apply Ny. rewrite <- E. exact E0.
  - apply IH, Nz'.
Qed.

Lemma mean_percentage_change_compat (l l' : list Q) :
  Forall2 Qeq l l' -> mean_percentage_change l == mean_percentage_change l'.
Proof.
  intros F. apply percentage_changes_compat in F. unfold mean_percentage_change.
  rewrite (Forall2_length F). apply Qdiv_comp; [|reflexivity].
  now apply Qsum_Forall2.
Qed.

(** [pct_change().mean() * 100] on at least two non-zero monthly totals. *)
Lemma growth_of_months_Fin (totals : list Q) :
  (2 <= length totals)%nat ->
  Forall (fun t => ~ t == 0) (removelast totals) ->
  app.growth_of_months (map Fin totals) =f= Fin (mean_percentage_change totals).
Proof.
  intros L F. unfold app.growth_of_months. rewrite length_map.
  assert ((1 <? length totals)%nat = true) as -> by (apply Nat.ltb_lt; lia).
  destruct totals as [|t0 totals]; [cbn in L; lia|].
  cbn [map pd.pct_change]. rewrite (pct_change_from_Fin _ _ F).
  change (pd.mean (NaN :: map Fin (steps t0 totals)))
    with (pd.mean (map Fin (steps t0 totals))).
  assert (steps t0 totals <> []) as Ns.
  { intros E. apply (f_equal (@length Q)) in E. rewrite steps_length in E.
    cbn in L, E. lia. }
  rewrite (mean_Fin_eq _ Ns). cbn [fmul feq].
  pose proof (percentage_changes_steps _ _ F) as P.
  unfold mean_percentage_change.
  rewrite <- (Forall2_length P), <- (Qsum_Forall2 _ _ P), length_map, Qsum_scale,
    sum_of_Qsum.
  field. apply inject_nat_nonzero. now destruct (steps t0 totals).
Qed.

Lemma growth_of_months_short (monthly : list float64) :
  (length monthly < 2)%nat -> app.growth_of_months monthly = Fin 0.
Proof.
  intros L. unfold app.growth_of_months.
  assert ((1 <? length monthly)%nat = false) as -> by (apply Nat.ltb_ge; lia).
  reflexivity.
Qed.

End ChangeFacts.

(** ** Rounding *)

Section RoundFacts.

(** Rounding to an integer moves a value by at most one half. *)
Lemma rint_bound (q : Q) : Qabs (inject_Z (rint q) - q) <= 1 # 2.
Proof.
  unfold rint. pose proof (Qfloor_le q) as Lo. pose proof (Qlt_floor q) as Hi.
  rewrite inject_Z_plus in Hi. change (inject_Z 1) with 1 in Hi.
  set (f := Qfloor q) in *. apply Qabs_Qle_condition.
  destruct (Qltb (q - inject_Z f) (1 # 2)) eqn:E1.
  - apply Qltb_lt in E1. split; lra.
  - apply Qltb_ge in E1.
    destruct (Qltb (1 # 2) (q - inject_Z f)) eqn:E2.
    + rewrite inject_Z_plus. change (inject_Z 1) with 1. split; lra.
    + apply Qltb_ge in E2. destruct (Z.even f).
      * split; lra.
      * rewrite inject_Z_plus. change (inject_Z 1) with 1. split; lra.
Qed.

Lemma Qltb_comp (a a' b b' : Q) : a == a' -> b == b' -> Qltb a b = Qltb a' b'.
Proof. intros Ea Eb. unfold Qltb. now rewrite Ea, Eb. Qed.

Lemma rint_comp (q q' : Q) : q == q' -> rint q = rint q'.
Proof.
  intros E. unfold rint. rewrite (Qfloor_comp _ _ E).
  rewrite (Qltb_comp (q - inject_Z (Qfloor q')) (q' - inject_Z (Qfloor q'))
                     (1 # 2) (1 # 2)) by (now rewrite E || reflexivity).
  rewrite (Qltb_comp (1 # 2) (1 # 2)
                     (q - inject_Z (Qfloor q')) (q' - inject_Z (Qfloor q')))
    by (now rewrite E || reflexivity).
  reflexivity.
Qed.

Lemma Qround2_comp (q q' : Q) : q == q' -> Qround2 q = Qround2 q'.
Proof.
  intros E. unfold Qround2. rewrite (rint_comp (q * 100) (q' * 100)); [reflexivity|].
  now rewrite E.
Qed.

(** Rounding to two decimals moves a value by at most 0.005. *)
Lemma Qround2_bound (q : Q) : Qabs (Qround2 q - q) <= 1 # 200.
Proof.
  pose proof (rint_bound (q * 100)) as B. apply Qabs_Qle_condition in B.
  apply Qabs_Qle_condition. unfold Qround2.
  set (z := inject_Z (rint (q * 100))) in *. destruct B as [B1 B2].
  assert (z / 100 - q == (z - q * 100) * (1 # 100)) as -> by field.
  split; lra.
Qed.

End RoundFacts.

(** ** Groups and shares *)

Section ShareFacts.

Lemma group_keys_perm (key : Row -> option string) (rs : list Row) :
  Permutation (pd.group_keys key rs) (distinct_keys key rs).
Proof.
  unfold pd.group_keys, distinct_keys. rewrite sort_by_perm.
  apply NoDup_Permutation; [apply unique_NoDup | apply NoDup_nodup |].
  intros k. now rewrite unique_In, nodup_In.
Qed.

(** The revenues of the groups add up to the revenue of the rows that have a
    key. *)
Lemma group_revenue_total (key : Row -> option string) (keys : list string)
    (rs : list Row) :
  NoDup keys -> (forall r, In r rs -> exists k, key r = Some k /\ In k keys) ->
  Qsum (map (group_revenue key rs) keys) == Qsum (map price rs).
Proof.
  intros N. revert rs. induction N as [|k keys Nk _ IH]; intros rs Hrs.
  - destruct rs as [|r rs]; [reflexivity|].
    destruct (Hrs r) as (k & _ & []). now left.
  - cbn [map Qsum fold_right]. fold (Qsum (map (group_revenue key rs) keys)).
    set (rest := List.filter (fun r => negb (bool_decide (key r = Some k))) rs).
    assert (Qsum (map price rs) == group_revenue key rs k + Qsum (map price rest)) as ->.
    { unfold group_revenue, rest. clear. induction rs as [|r rs IHr]; [reflexivity|].
      cbn [List.filter]. destruct (bool_decide (key r = Some k));
        cbn [negb map Qsum fold_right];
        fold (Qsum (map price rs)); rewrite IHr; unfold Qsum; ring. }
    apply Qplus_comp; [reflexivity|].
    rewrite <- (IH rest).
    + apply Qsum_ext. intros k' Hk'. unfold group_revenue, rest.
      assert (k' <> k) as Ne by (intros ->; contradiction).
      apply Qsum_perm. apply Permutation_map. clear -Ne.
      induction rs as [|r rs IHr]; [reflexivity|]. cbn [List.filter].
      destruct (decide (key r = Some k)) as [E|E].
      * rewrite (bool_decide_eq_true_2 _ E). cbn [negb].
        rewrite bool_decide_eq_false_2 by congruence. exact IHr.
      * rewrite (bool_decide_eq_false_2 _ E). cbn [negb List.filter].
        destruct (bool_decide (key r = Some k')); [now constructor | exact IHr].
    + intros r Hr. unfold rest in Hr. apply filter_In in Hr as [Hr Hk].
      apply negb_true_iff, bool_decide_eq_false in Hk.
      destruct (Hrs r Hr) as (k' & E & [->|I]); [congruence|]. now exists k'.
Qed.

Lemma Qsum_close (e : Q) (ss xs : list Q) :
  Forall2 (fun s x => Qabs (s - x) <= e) ss xs ->
  Qabs (Qsum ss - Qsum xs) <= inject_Z (Z.of_nat (length ss)) * e.
Proof.
  induction 1 as [|s x ss xs B _ IH].
  - change (Qabs (0 - 0) <= 0 * e). apply Qabs_Qle_condition. split; lra.
  - cbn [length Qsum fold_right]. fold (Qsum ss). fold (Qsum xs).
    rewrite Nat2Z.inj_succ, <- Z.add_1_r, inject_Z_plus.
    change (inject_Z 1) with 1.
    apply Qabs_Qle_condition in B, IH. apply Qabs_Qle_condition.
    destruct B, IH. split; lra.
Qed.

Lemma Qsum_quotients (c : Q) (l : list Q) :
  ~ c == 0 -> Qsum (map (fun t => t / c * 100) l) == Qsum l / c * 100.
Proof.
  intros N. induction l as [|t l IH]; cbn [map Qsum fold_right].
  - field. exact N.
  - fold (Qsum (map (fun t => t / c * 100) l)). fold (Qsum l). rewrite IH.
    field. exact N.
Qed.

Lemma Forall2_maps {A B C} (R : B -> C -> Prop) (f : A -> B) (g : A -> C)
    (l : list A) :
  Forall (fun a => R (f a) (g a)) l -> Forall2 R (map f l) (map g l).
Proof. induction 1; cbn [map]; constructor; assumption. Qed.

Lemma Forall2_map_left {A B} (R : B -> A -> Prop) (h : A -> B) (l : list A) :
  (forall a, R (h a) a) -> Forall2 R (map h l) l.
Proof. intros H. induction l; cbn [map]; constructor; auto. Qed.

Lemma group_agg_keys (key : Row -> option string) (distinct : Row -> string)
    (rs : list Row) :
  map grp_key (group_agg key distinct rs) = pd.group_keys key rs.
Proof.
  unfold group_agg, pd.groupby. rewrite !map_map. cbn. apply map_id.
Qed.

Lemma group_agg_ok (key : Row -> option string) (distinct : Row -> string)
    (rs : list Row) :
  Forall (agg_ok key rs) (group_agg key distinct rs).
Proof.
  unfold group_agg, pd.groupby. rewrite map_map. apply Forall_map, Forall_forall.
  intros k _. unfold agg_ok. cbn [grp_total_revenue grp_key fst snd].
  rewrite price_col_Fin, sum_Fin_eq. cbn [round2]. f_equal.
  apply Qround2_comp. unfold group_revenue, pd.group_rows. apply sum_of_Qsum.
Qed.

End ShareFacts.

Section ShareTable.
Context {kind : SortKind}.
Variable key : Row -> option string.
Variable distinct : Row -> string.
Variable rs : list Row.

Let tot (a : GroupAgg) : Q := Qround2 (group_revenue key rs (grp_key a)).
Let sorted : list GroupAgg :=
  sort_values_desc grp_total_revenue (group_agg key distinct rs).

Lemma sorted_perm : Permutation sorted (group_agg key distinct rs).
Proof. apply sort_values_perm. Qed.

Lemma sorted_ok : Forall (agg_ok key rs) sorted.
Proof.
  eapply Permutation_Forall; [symmetry; apply sorted_perm | apply group_agg_ok].
Qed.

Lemma sorted_totals : map grp_total_revenue sorted = map Fin (map tot sorted).
Proof.
  rewrite map_map. apply map_ext_in. intros a Ia.
  pose proof sorted_ok as F. rewrite Forall_forall in F. exact (F a Ia).
Qed.

Lemma sorted_keys_perm : Permutation (map grp_key sorted) (distinct_keys key rs).
Proof.
  rewrite (Permutation_map grp_key sorted_perm), group_agg_keys.
  apply group_keys_perm.
Qed.

Lemma sorted_descending : Sorted (fun t t' => t' <= t) (map tot sorted).
Proof.
  pose proof (sort_values_sorted _ grp_total_revenue (group_agg key distinct rs)) as S.
  fold sorted in S. pose proof sorted_ok as F.
  induction S as [|a l S IH Hd]; [constructor|].
  inversion F as [|a' l' Oa Ol]. subst. cbn [map]. constructor; [now apply IH|].
  destruct Hd as [|b l Hab]; [constructor|]. cbn [map]. constructor.
  apply Forall_inv in Ol. unfold agg_ok in Oa, Ol. rewrite Oa, Ol in Hab.
  cbn in Hab. now apply Qltb_ge in Hab.
Qed.

Lemma sorted_total_close :
  (forall r, In r rs -> key r <> None) ->
  Qabs (Qsum (map tot sorted) - Qsum (map price rs))
  <= inject_Z (Z.of_nat (length sorted)) * (1 # 200).
Proof.
  intros Hk.
  rewrite <- (group_revenue_total key (map grp_key sorted) rs).
  - rewrite <- (length_map tot sorted). apply Qsum_close.
    induction sorted as [|a l IH]; cbn [map]; constructor;
      [apply Qround2_bound | exact IH].
  - eapply Permutation_NoDup; [symmetry; apply sorted_keys_perm | apply NoDup_nodup].
  - intros r Ir. destruct (key r) as [k|] eqn:Ek; [|now destruct (Hk r Ir)].
    exists k. split; [reflexivity|].
    apply (Permutation_in _ (Permutation_sym sorted_keys_perm)).
    apply nodup_In, dropna_In, in_map_iff. now exists r.
Qed.

(** The table an analyzer builds is a share table. *)
Lemma with_revenue_share_table :
  share_table key rs (with_revenue_share (group_agg key distinct rs)).
Proof.
  unfold with_revenue_share. fold sorted. exists (map tot sorted).
  rewrite sorted_totals, sum_Fin_eq.
  split; [|split; [|split; [|split; [|split]]]].
  - rewrite map_map. cbn [grp_agg]. apply sorted_keys_perm.
  - apply Forall2_maps. eapply Forall_impl; [|apply sorted_ok].
    intros a Oa. cbn [grp_agg]. split; [exact Oa | reflexivity].
  - apply sorted_descending.
  - rewrite length_map. apply sorted_total_close.
  - intros Nz. exists (map (fun t => Qround2 (t / Qsum (map tot sorted) * 100))
                           (map tot sorted)).
    assert (~ sum_of (map tot sorted) == 0) as Nz'
      by (intros E; apply Nz; now rewrite <- sum_of_Qsum).
    split; [|split; [|split]].
    + rewrite map_map. apply Forall2_maps. eapply Forall_impl; [|apply sorted_ok].
      intros a Oa. cbn [revenue_share]. rewrite Oa. fold (tot a).
      rewrite (fdiv_Fin _ _ Nz'). cbn [fmul round2]. f_equal.
      apply Qround2_comp. now rewrite sum_of_Qsum.
    + apply Forall2_map_left. reflexivity.
    + apply Forall2_map_left. intros t. apply Qround2_bound.
    + rewrite length_map, <- (length_map tot sorted).
      rewrite <- (length_map (fun t => Qround2 (t / Qsum (map tot sorted) * 100))
                             (map tot sorted)).
      assert (100 == Qsum (map (fun t => t / Qsum (map tot sorted) * 100)
                               (map tot sorted))) as E100.
      { rewrite (Qsum_quotients _ _ Nz). field. exact Nz. }
      rewrite E100 at 1. apply Qsum_close.
      apply Forall2_maps, Forall_forall. intros t _. apply Qround2_bound.
  - intros Z0. rewrite Forall_map. pose proof sorted_ok as F.
    revert F. apply Forall_impl. intros a Oa. cbn [revenue_share].
    rewrite Oa. cbn -[Qeq_bool].
    assert (Qeq_bool (sum_of (map tot sorted)) 0 = true) as ->.
    { apply Qeq_bool_iff. now rewrite sum_of_Qsum. }
    unfold signed_inf. destruct (Qeq_bool _ 0); [reflexivity|].
    destruct (Qltb 0 _); reflexivity.
Qed.

End ShareTable.

(** * The claims *)

(** ** Delivery buckets *)

(** C4.  Both bucketing functions are total on [delivery_days].  The Delivery
    Filter scheme sends a missing value to "Unknown", at most 3 days to
    "1-3 days", more than 3 and at most 7 days to "4-7 days" and everything
    above to "8+ days".  The satisfaction chart scheme agrees up to 7 days and
    splits the rest into "8-14 days" and "15+ days".  Every value therefore
    has exactly one bucket in each scheme, and the two schemes differ exactly
    on the values above 7 days. *)
Theorem delivery_bucketing_total :
  let speed := data_loader.categorize_delivery_speed in
  let time := dashboard_utils.categorize_delivery_time in
  (speed None = "Unknown"
   /\ (forall d, (d <= 3)%Z -> speed (Some d) = "1-3 days")
   /\ (forall d, (3 < d <= 7)%Z -> speed (Some d) = "4-7 days")
   /\ (forall d, (7 < d)%Z -> speed (Some d) = "8+ days"))
  /\ (time None = "Unknown"
      /\ (forall d, (d <= 3)%Z -> time (Some d) = "1-3 days")
      /\ (forall d, (3 < d <= 7)%Z -> time (Some d) = "4-7 days")
      /\ (forall d, (7 < d <= 14)%Z -> time (Some d) = "8-14 days")
      /\ (forall d, (14 < d)%Z -> time (Some d) = "15+ days"))
  /\ (forall days, In (speed days) ["Unknown"; "1-3 days"; "4-7 days"; "8+ days"])
  /\ (forall days,
        In (time days) ["Unknown"; "1-3 days"; "4-7 days"; "8-14 days"; "15+ days"])
  /\ (forall days,
        speed days <> time days <-> exists d, days = Some d /\ (7 < d)%Z).
Proof.
  intros speed time. subst speed time.
  unfold data_loader.categorize_delivery_speed, dashboard_utils.categorize_delivery_time.
  repeat split.
  - intros d L. apply Z.leb_le in L. now rewrite L.
  - intros d [L1 L2]. apply Z.leb_gt in L1. apply Z.leb_le in L2. now rewrite L1, L2.
  - intros d L. assert (3 < d)%Z as L3 by lia.
    apply Z.leb_gt in L, L3. now rewrite L3, L.
  - intros d L. apply Z.leb_le in L. now rewrite L.
  - intros d [L1 L2]. apply Z.leb_gt in L1. apply Z.leb_le in L2. now rewrite L1, L2.
  - intros d [L1 L2]. assert (3 < d)%Z as L3 by lia.
    apply Z.leb_gt in L1, L3. apply Z.leb_le in L2. now rewrite L3, L1, L2.
  - intros d L. assert (3 < d)%Z as L3 by lia. assert (7 < d)%Z as L7 by lia.
    apply Z.leb_gt in L, L3, L7. now rewrite L3, L7, L.
  - intros [d|]; simpl; [|tauto].
    destruct (d <=? 3)%Z; [tauto|]. destruct (d <=? 7)%Z; tauto.
  - intros [d|]; simpl; [|tauto].
    destruct (d <=? 3)%Z; [tauto|]. destruct (d <=? 7)%Z; [tauto|].
    destruct (d <=? 14)%Z; tauto.
  - intros N. destruct days as [d|]; [|congruence]. exists d. split; [reflexivity|].
    destruct (d <=? 3)%Z eqn:E3; [congruence|].
    destruct (d <=? 7)%Z eqn:E7; [congruence|]. now apply Z.leb_gt.
  - intros (d & -> & L). assert (3 < d)%Z as L3 by lia.
    apply Z.leb_gt in L, L3. rewrite L3, L.
    destruct (d <=? 14)%Z; discriminate.
Qed.

(** The values named by the specification, bucketed through the theorem. *)
Lemma delivery_bucketing_witness :
  map data_loader.categorize_delivery_speed
      [None; Some 0; Some 3; Some 4; Some 7; Some 8; Some 14; Some 15; Some 100]%Z
  = ["Unknown"; "1-3 days"; "1-3 days"; "4-7 days"; "4-7 days";
     "8+ days"; "8+ days"; "8+ days"; "8+ days"]
  /\ map dashboard_utils.categorize_delivery_time
         [None; Some 0; Some 3; Some 4; Some 7; Some 8; Some 14; Some 15; Some 100]%Z
     = ["Unknown"; "1-3 days"; "1-3 days"; "4-7 days"; "4-7 days";
        "8-14 days"; "8-14 days"; "15+ days"; "15+ days"]
  /\ data_loader.categorize_delivery_speed (Some 8%Z)
     <> dashboard_utils.categorize_delivery_time (Some 8%Z).
Proof.
  destruct delivery_bucketing_total
    as ((S0 & S3 & S7 & S8) & (T0 & T3 & T7 & T14 & T15) & _ & _ & D).
  cbv zeta in *. split; [|split].
  - cbn [map].
    rewrite S0, (S3 0%Z), (S3 3%Z), (S7 4%Z), (S7 7%Z), (S8 8%Z), (S8 14%Z),
      (S8 15%Z), (S8 100%Z) by lia.
    reflexivity.
  - cbn [map].
    rewrite T0, (T3 0%Z), (T3 3%Z), (T7 4%Z), (T7 7%Z), (T14 8%Z), (T14 14%Z),
      (T15 15%Z), (T15 100%Z) by lia.
    reflexivity.
  - apply D. exists 8%Z. split; [reflexivity | lia].
Defined.

(** ** Revenue *)

Lemma calculate_revenue_metrics_current (data : DataFrame)
    (cf pf : option period_filter) (m : RevenueMetrics) :
  calculate_revenue_metrics data cf pf = inr m ->
  exists current_data,
    filter_period cf data data = inr current_data
    /\ total_revenue (current_period m) = pd.sum (price_col (rows current_data))
    /\ average_order_value (current_period m)
       = pd.mean (order_totals (rows current_data))
    /\ total_orders (current_period m)
       = Z.of_nat (pd.nunique (map order_id (rows current_data))).
Proof.
  unfold calculate_revenue_metrics.
  destruct (filter_period cf data data) as [e|cur]; [discriminate|].
  destruct (filter_period pf data empty_frame) as [e|cmp]; [discriminate|].
  cbn -[period_metrics]. intros E. exists cur. split; [reflexivity|].
  destruct (negb (df_empty cmp)).
  - destruct (int_truediv _ _) as [e|og]; [discriminate|].
    cbn in E. injection E as <-. now cbn.
  - injection E as <-. now cbn.
Qed.

(** C5.  Whatever the filters, when [calculate_revenue_metrics] returns, the
    [total_revenue] of the current period is the sum of [price] over the rows
    of the current record set, one summand per row.  Without a current filter
    that set is the whole input. *)
Theorem total_revenue_is_sum_of_prices (data : DataFrame)
    (cf pf : option period_filter) (m : RevenueMetrics) :
  calculate_revenue_metrics data cf pf = inr m ->
  exists current_data,
    filter_period cf data data = inr current_data
    /\ (cf = None -> current_data = data)
    /\ total_revenue (current_period m)
       =f= Fin (Qsum (map price (rows current_data))).
Proof.
  intros E. destruct (calculate_revenue_metrics_current _ _ _ _ E)
    as (cur & F & T & _).
  exists cur. split; [exact F|]. split.
  - intros ->. cbn in F. now injection F as <-.
  - rewrite T. destruct (sum_price_col (rows cur)) as (s & -> & Es). exact Es.
Qed.

Lemma total_revenue_witness :
  exists m,
    calculate_revenue_metrics (fixture.frame fixture.scenario) None None = inr m
    /\ total_revenue (current_period m) =f= Fin 180.
Proof.
  destruct (calculate_revenue_metrics (fixture.frame fixture.scenario) None None)
    as [e|m] eqn:E; [vm_compute in E; discriminate|].
  exists m. split; [reflexivity|].
  destruct (total_revenue_is_sum_of_prices _ _ _ _ E) as (cur & F & C & T).
  rewrite (C eq_refl) in T. etransitivity; [exact T|].
  vm_compute. reflexivity.
Defined.

(** ** Average order value *)

(** C2.  When [calculate_revenue_metrics] returns and the current record set
    is not empty, [average_order_value] is the mean, over the distinct
    [order_id]s, of the sum of [price] within each order.  It is not the flat
    mean of the line-item prices: the two differ as soon as some order has two
    line items and the revenue is positive.  Reordering the rows of the input
    does not change it. *)
Theorem average_order_value_is_mean_of_order_sums (data : DataFrame)
    (cf pf : option period_filter) (m : RevenueMetrics) :
  calculate_revenue_metrics data cf pf = inr m ->
  exists current_data,
    filter_period cf data data = inr current_data
    /\ (rows current_data <> [] ->
        exists aov,
          average_order_value (current_period m) = Fin aov
          /\ aov == mean_order_sum (rows current_data)
          /\ ((length (distinct_orders (rows current_data))
               < length (rows current_data))%nat ->
              0 < Qsum (map price (rows current_data)) ->
              ~ aov == flat_mean_price (rows current_data)))
    /\ (forall data' m',
          columns data = columns data' ->
          Permutation (rows data) (rows data') ->
          calculate_revenue_metrics data' cf pf = inr m' ->
          average_order_value (current_period m')
          =f= average_order_value (current_period m)).
Proof.
  intros E. destruct (calculate_revenue_metrics_current _ _ _ _ E)
    as (cur & F & _ & A & _).
  exists cur. split; [exact F|]. split.
  - intros N. destruct (order_totals_mean _ N) as (q & Eq & Hq).
    exists q. split; [now rewrite A|]. split; [exact Hq|].
    intros L T Eflat. rewrite Hq, mean_order_sum_total in Eflat.
    unfold flat_mean_price in Eflat.
    pose proof (distinct_orders_nonempty _ N) as Nd.
    set (t := Qsum (map price (rows cur))) in *.
    set (a := inject_Z (Z.of_nat (length (distinct_orders (rows cur))))) in *.
    set (b := inject_Z (Z.of_nat (length (rows cur)))) in *.
    assert (0 < a) as Pa.
    { unfold a. change 0 with (inject_Z 0). rewrite <- Zlt_Qlt.
      destruct (distinct_orders (rows cur)); [congruence | simpl; lia]. }
    assert (a < b) as Lab by (unfold a, b; rewrite <- Zlt_Qlt; lia).
    assert (t * b == t * a) as Em.
    { assert (t / a * (a * b) == t / b * (a * b)) as Ex by now rewrite Eflat.
      field_simplify in Ex; lra. }
    nra.
  - intros data' m' C P E'.
    destruct (calculate_revenue_metrics_current _ _ _ _ E') as (cur' & F' & _ & A' & _).
    pose proof (filter_period_reordered cf data data' data data'
                  (conj C P) (conj C P)) as R.
    rewrite F, F' in R. destruct R as [_ Pc]. rewrite A, A'.
    destruct (rows cur) as [|r rs] eqn:Ec.
    + apply Permutation_nil in Pc. rewrite Pc. reflexivity.
    + assert (rows cur' <> []) as N'.
      { intros E0. rewrite E0 in Pc. symmetry in Pc.
        now apply Permutation_nil in Pc. }
      destruct (order_totals_mean (r :: rs)) as (q & -> & Hq); [discriminate|].
      destruct (order_totals_mean _ N') as (q' & -> & Hq').
      cbn. rewrite Hq, Hq'. symmetry. now apply mean_order_sum_perm.
Qed.

(** The scenario of the specification: orders of 80 and 100 give 90, not the
    flat mean 60, also with the rows in another order. *)
Lemma average_order_value_witness :
  exists m m',
    calculate_revenue_metrics (fixture.frame fixture.scenario) None None = inr m
    /\ calculate_revenue_metrics (fixture.frame (rev fixture.scenario)) None None
       = inr m'
    /\ average_order_value (current_period m) =f= Fin 90
    /\ ~ average_order_value (current_period m) =f= Fin 60
    /\ average_order_value (current_period m')
       =f= average_order_value (current_period m).
Proof.
  destruct (calculate_revenue_metrics (fixture.frame fixture.scenario) None None)
    as [e|m] eqn:E; [vm_compute in E; discriminate|].
  destruct (calculate_revenue_metrics (fixture.frame (rev fixture.scenario)) None None)
    as [e|m'] eqn:E'; [vm_compute in E'; discriminate|].
  exists m, m'. split; [reflexivity|]. split; [reflexivity|].
  destruct (average_order_value_is_mean_of_order_sums _ _ _ _ E)
    as (cur & F & A & P).
  cbn in F. injection F as <-.
  destruct A as (aov & Ea & Ha & Hflat); [discriminate|].
  split; [|split].
  - rewrite Ea. cbn. rewrite Ha. vm_compute. reflexivity.
  - rewrite Ea. cbn. intros E60. apply Hflat.
    + vm_compute. lia.
    + vm_compute. reflexivity.
    + rewrite E60. vm_compute. reflexivity.
  - apply (P (fixture.frame (rev fixture.scenario)));
      [reflexivity | apply Permutation_rev | exact E'].
Defined.

(** ** Order status *)

(** C10.  [calculate_order_status_metrics] counts rows, not orders:
    [total_orders] is the number of rows of the record set, which is at least
    the number of distinct [order_id]s and larger as soon as one order has two
    line items; the count of a status is the number of rows that carry it, so
    an order whose [k] rows all have status [s] adds [k] to the count of [s];
    and the percentage of a status is its row count over the number of rows,
    times 100, rounded to two decimals. *)
Theorem order_status_counts_line_items (data : DataFrame) :
  let m := calculate_order_status_metrics data in
  let statuses := map order_status (rows data) in
  os_total_orders m = Z.of_nat (length (rows data))
  /\ (pd.nunique (map order_id (rows data)) <= length (rows data))%nat
  /\ (~ NoDup (map order_id (rows data)) ->
      (Z.of_nat (pd.nunique (map order_id (rows data))) < os_total_orders m)%Z)
  /\ (forall s, default O (status_counts m !! s) = pd.occurrences s statuses)
  /\ (forall o s,
        let own := List.filter (fun r => bool_decide (order_id r = o)) (rows data) in
        let others :=
          List.filter (fun r => negb (bool_decide (order_id r = o))) (rows data) in
        (forall r, In r own -> order_status r = s) ->
        default O (status_counts m !! s)
        = (length own + pd.occurrences s (map order_status others))%nat)
  /\ (forall s, In s statuses ->
        status_percentages m !! s
        = Some (round2 (of_nat (pd.occurrences s statuses)
                        / of_nat (length (rows data)) * Fin 100)%float)).
Proof.
  intros m statuses.
  assert (forall s, default O (status_counts m !! s) = pd.occurrences s statuses) as Counts.
  { intros s. subst m. cbn. unfold status_value_counts. fold statuses.
    rewrite to_dict_value_counts. now destruct (pd.occurrences s statuses). }
  assert (counts_sum (status_value_counts data) = length (rows data)) as Total.
  { unfold status_value_counts. rewrite counts_sum_value_counts. apply length_map. }
  split; [|split; [|split; [|split; [|split]]]].
  - subst m. cbn. now rewrite Total.
  - unfold pd.nunique. rewrite <- (length_map order_id (rows data)).
    apply unique_length_le.
  - intros N. subst m. cbn. rewrite Total. apply inj_lt.
    unfold pd.nunique. rewrite <- (length_map order_id (rows data)).
    now apply unique_length_lt.
  - exact Counts.
  - intros o s own others Hown. rewrite Counts. subst statuses own others.
    clear -Hown. induction (rows data) as [|r rs IH]; [reflexivity|].
    cbn [map List.filter] in *. rewrite occurrences_cons.
    destruct (bool_decide (order_id r = o)) eqn:E; cbn [negb length map].
    + rewrite IH by (intros r' I; apply Hown; now right).
      rewrite bool_decide_eq_true_2 by (apply Hown; now left). lia.
    + rewrite occurrences_cons, IH by exact Hown. lia.
  - intros s I. subst m. unfold calculate_order_status_metrics.
    cbn [status_percentages].
    rewrite (to_dict_map_values
               (fun c => round2 (of_nat c / of_nat (counts_sum (status_value_counts data))
                                 * Fin 100)%float)).
    rewrite lookup_fmap, Total. unfold status_value_counts. fold statuses.
    rewrite to_dict_value_counts.
    apply occurrences_pos in I. destruct (pd.occurrences s statuses); [lia|].
    reflexivity.
Qed.

(** An order with two line items next to an order with one: three rows, two
    orders, and the two-item order counts twice. *)
Lemma order_status_witness :
  let data := fixture.frame fixture.scenario in
  let m := calculate_order_status_metrics data in
  os_total_orders m = 3%Z
  /\ (2 < os_total_orders m)%Z
  /\ default O (status_counts m !! "delivered") = 3%nat
  /\ status_percentages m !! "delivered" = Some (Fin 100.00).
Proof.
  pose proof (order_status_counts_line_items (fixture.frame fixture.scenario)) as Th.
  cbv zeta in Th |- *. destruct Th as (T & _ & L & _ & K & P).
  split; [exact T|]. split; [|split].
  - apply (Z.le_lt_trans _ (Z.of_nat (pd.nunique
             (map order_id (rows (fixture.frame fixture.scenario)))))).
    + vm_compute. discriminate.
    + apply L. intros N. inversion N as [|x l I _]. apply I. now left.
  - rewrite (K "A" "delivered").
    + reflexivity.
    + intros r I. vm_compute in I. destruct I as [<-|[<-|[]]]; reflexivity.
  - specialize (P "delivered"). etransitivity; [apply P|].
    + vm_compute. tauto.
    + vm_compute. reflexivity.
Defined.

(** ** Growth rates *)

(** What [calculate_revenue_metrics] returns about the comparison period. *)
Lemma calculate_revenue_metrics_growth (data : DataFrame)
    (cf pf : option period_filter) (m : RevenueMetrics) :
  calculate_revenue_metrics data cf pf = inr m ->
  match comparison_period m with
  | Some c =>
      exists g,
        growth_rates m = Some g
        /\ revenue_growth g
           = float_growth (total_revenue (current_period m)) (total_revenue c)
        /\ aov_growth g
           = float_growth (average_order_value (current_period m))
                          (average_order_value c)
        /\ total_orders c <> 0%Z
        /\ order_growth g
           = (Fin (inject_Z (total_orders (current_period m) - total_orders c)
                   / inject_Z (total_orders c)) * Fin 100)%float
  | None => growth_rates m = None
  end.
Proof.
  unfold calculate_revenue_metrics.
  destruct (filter_period cf data data) as [e|cur]; [discriminate|].
  destruct (filter_period pf data empty_frame) as [e|cmp]; [discriminate|].
  cbn -[period_metrics]. destruct (negb (df_empty cmp)).
  - unfold int_truediv.
    destruct (total_orders (period_metrics cmp pf) =? 0)%Z eqn:Z0; [discriminate|].
    cbn -[period_metrics]. intros E. injection E as <-. cbn -[period_metrics].
    eexists. repeat split. now apply Z.eqb_neq.
  - intros E. injection E as <-. reflexivity.
Qed.

(** Where the comparison value is not zero the growth is the quotient. *)
Lemma float_growth_nonzero (current comparison : Q) :
  ~ comparison == 0 ->
  float_growth (Fin current) (Fin comparison)
  =f= Fin ((current - comparison) / comparison * 100).
Proof.
  intros N. unfold float_growth. cbn -[Qeq_bool].
  apply Qeq_bool_false in N. rewrite N. cbn. reflexivity.
Qed.

(** Where it is zero the growth is an infinity or NaN. *)
Lemma float_growth_zero (current comparison : Q) :
  comparison == 0 ->
  isfinite (float_growth (Fin current) (Fin comparison)) = false.
Proof.
  intros Z0. unfold float_growth. cbn -[Qeq_bool].
  apply Qeq_bool_iff in Z0. rewrite Z0. unfold signed_inf.
  destruct (Qeq_bool (current + - comparison) 0); [reflexivity|].
  destruct (Qltb 0 (current + - comparison)); reflexivity.
Qed.

(** A period that has rows has at least one order. *)
Lemma total_orders_nonzero (d : DataFrame) (desc : option period_filter) :
  df_empty d = false -> total_orders (period_metrics d desc) <> 0%Z.
Proof.
  intros Ee. cbn [total_orders period_metrics]. unfold df_empty in Ee.
  destruct (columns d); [discriminate|].
  destruct (rows d) as [|r rs]; [discriminate|].
  unfold pd.nunique. cbn [map pd.unique length]. lia.
Qed.

Lemma apply_filter_error (items : period_filter) (d : DataFrame) (e : exn) :
  apply_filter items d = inl e -> exists key, e = KeyError key.
Proof.
  revert d. induction items as [|[key value] items IH]; intros d; cbn.
  - discriminate.
  - destruct (has_column key d); [apply IH|].
    intros E. injection E as <-. now exists key.
Qed.

(** The only exception of [calculate_revenue_metrics] is the [KeyError] of a
    filter that names a missing column: its divisions never raise. *)
Lemma calculate_revenue_metrics_error (data : DataFrame)
    (cf pf : option period_filter) (e : exn) :
  calculate_revenue_metrics data cf pf = inl e -> exists key, e = KeyError key.
Proof.
  assert (forall f d o e', filter_period f d o = inl e' -> exists key, e' = KeyError key)
    as Hf.
  { intros [[|i items]|] d o e'; try discriminate. apply apply_filter_error. }
  unfold calculate_revenue_metrics.
  destruct (filter_period cf data data) as [e1|cur] eqn:E1.
  { cbn. intros E. injection E as <-. exact (Hf _ _ _ _ E1). }
  destruct (filter_period pf data empty_frame) as [e2|cmp] eqn:E2.
  { cbn. intros E. injection E as <-. exact (Hf _ _ _ _ E2). }
  cbn -[period_metrics]. destruct (df_empty cmp) eqn:Ee; cbn -[period_metrics];
    [discriminate|].
  unfold int_truediv.
  pose proof (total_orders_nonzero cmp pf Ee) as N. apply Z.eqb_neq in N.
  rewrite N. discriminate.
Qed.

(** With non-zero comparison values the growth rates are the quotients
    [(current - comparison) / comparison * 100]; the number of orders of a
    comparison period that has rows is never zero. *)
Lemma growth_rates_formula (data : DataFrame)
    (cf pf : option period_filter) (m : RevenueMetrics) (c : PeriodMetrics) :
  calculate_revenue_metrics data cf pf = inr m ->
  comparison_period m = Some c ->
  exists g,
    growth_rates m = Some g
    /\ order_growth g
       =f= Fin ((inject_Z (total_orders (current_period m))
                 - inject_Z (total_orders c))
                / inject_Z (total_orders c) * 100)
    /\ (forall t q,
          total_revenue (current_period m) = Fin t -> total_revenue c = Fin q ->
          ~ q == 0 ->
          revenue_growth g =f= Fin ((t - q) / q * 100))
    /\ (forall a b,
          average_order_value (current_period m) = Fin a ->
          average_order_value c = Fin b ->
          ~ b == 0 ->
          aov_growth g =f= Fin ((a - b) / b * 100)).
Proof.
  intros E Ec. pose proof (calculate_revenue_metrics_growth _ _ _ _ E) as G.
  rewrite Ec in G. destruct G as (g & Eg & Rg & Ag & No & Og).
  exists g. split; [exact Eg|]. split; [|split].
  - rewrite Og. cbn [fmul feq]. unfold Z.sub.
    rewrite inject_Z_plus, inject_Z_opp. reflexivity.
  - intros t q Et Eq Nq. rewrite Rg, Et, Eq. now apply float_growth_nonzero.
  - intros a b Ea Eb Nb. rewrite Ag, Ea, Eb. now apply float_growth_nonzero.
Qed.

(** C1.  [calculate_revenue_metrics] divides by the comparison value without
    looking at it.  When the comparison period has rows and its total revenue
    is 0, the revenue growth it returns is an infinity or NaN, never 0; the
    dashboard's own computation of the same trend returns 0 there. *)
Theorem revenue_growth_zero_comparison (data : DataFrame)
    (cf pf : option period_filter) (m : RevenueMetrics) (c : PeriodMetrics) :
  calculate_revenue_metrics data cf pf = inr m ->
  comparison_period m = Some c ->
  total_revenue c =f= Fin 0 ->
  (exists g, growth_rates m = Some g /\ isfinite (revenue_growth g) = false)
  /\ app.float_trend (total_revenue (current_period m)) (total_revenue c) = Fin 0.
Proof.
  intros E Ec Z0. pose proof (calculate_revenue_metrics_growth _ _ _ _ E) as G.
  rewrite Ec in G. destruct G as (g & Eg & Rg & _).
  destruct (calculate_revenue_metrics_current _ _ _ _ E) as (cur & _ & T & _).
  destruct (sum_price_col (rows cur)) as (t & Et & _). rewrite Et in T.
  destruct (total_revenue c) as [q| | |] eqn:Eq; try contradiction.
  cbn in Z0. split.
  - exists g. split; [exact Eg|]. rewrite Rg, T. now apply float_growth_zero.
  - unfold app.float_trend. cbn [fgtb].
    assert (Qltb 0 q = false) as -> by (apply Qltb_ge; rewrite Z0; apply Qle_refl).
    reflexivity.
Qed.

(** The free item of 2022: the report's revenue growth is [+inf], the
    dashboard's is 0. *)
Lemma revenue_growth_zero_comparison_witness :
  let data := fixture.frame fixture.free_item_2022 in
  exists m g k,
    calculate_revenue_metrics data (Some [("year", 2023%Z)]) (Some [("year", 2022%Z)])
    = inr m
    /\ growth_rates m = Some g
    /\ isfinite (revenue_growth g) = false
    /\ revenue_growth g = PInf
    /\ aov_growth g = PInf
    /\ app.main data 2023 None = inr (app.Dashboard k)
    /\ app.revenue_trend k = Fin 0
    /\ app.aov_trend k = Fin 0.
Proof.
  cbv zeta.
  destruct (calculate_revenue_metrics (fixture.frame fixture.free_item_2022)
              (Some [("year", 2023%Z)]) (Some [("year", 2022%Z)]))
    as [e|m] eqn:E; [vm_compute in E; discriminate|].
  destruct (comparison_period m) as [c|] eqn:Ec;
    [|vm_compute in E; injection E as <-; discriminate].
  assert (total_revenue c =f= Fin 0) as Z0.
  { vm_compute in E. injection E as <-. injection Ec as <-. reflexivity. }
  destruct (revenue_growth_zero_comparison _ _ _ _ _ E Ec Z0) as ((g & Eg & Hg) & _).
  exists m, g.
  destruct (app.main (fixture.frame fixture.free_item_2022) 2023 None)
    as [e|[| |k]] eqn:Em; try (vm_compute in Em; discriminate).
  exists k. split; [reflexivity|]. split; [exact Eg|]. split; [exact Hg|].
  vm_compute in E. injection E as <-. injection Eg as <-.
  vm_compute in Em. injection Em as <-.
  repeat split.
Defined.

(** ** Customer satisfaction *)

Section InjectiveOn.
Context {A B : Type}.

Lemma NoDup_map_eq (f : A -> B) (l : list A) (a b : A) :
  NoDup (map f l) -> In a l -> In b l -> f a = f b -> a = b.
Proof.
  induction l as [|x l IH]; intros N Ia Ib E; [destruct Ia|].
  cbn in N. inversion N as [|y l' Nx Nl]. subst.
  destruct Ia as [->|Ia], Ib as [->|Ib]; auto.
  - exfalso. apply Nx. rewrite E. now apply in_map.
  - exfalso. apply Nx. rewrite <- E. now apply in_map.
Qed.

End InjectiveOn.

Lemma review_data_orders (rs : list Row) :
  length (pd.unique (map fst (review_data rs))) = pd.nunique (map order_id rs).
Proof.
  unfold pd.nunique. apply Permutation_length, NoDup_Permutation;
    try apply unique_NoDup.
  intros o. rewrite !unique_In, !in_map_iff. unfold review_data. split.
  - intros ([o' s] & <- & I). apply unique_In, in_map_iff in I as (r & E & I).
    injection E as <- <-. now exists r.
  - intros (r & <- & I). exists (order_id r, review_score r). split; [reflexivity|].
    apply unique_In, in_map_iff. now exists r.
Qed.

(** C3.  [analyze_customer_satisfaction] removes a row only when both its
    [order_id] and its [review_score] repeat an earlier row.  An order that
    appears with two different scores therefore keeps two rows, and
    [total_reviews] exceeds the number of distinct orders; keeping the first
    row of every order, as the satisfaction chart does, leaves exactly as many
    rows as there are orders. *)
Theorem satisfaction_keeps_a_row_per_score (data : DataFrame) (r1 r2 : Row) :
  has_column "review_score" data = true ->
  In r1 (rows data) -> In r2 (rows data) ->
  order_id r1 = order_id r2 -> review_score r1 <> review_score r2 ->
  exists sm,
    analyze_customer_satisfaction data = Available sm
    /\ In (order_id r1, review_score r1) (review_data (rows data))
    /\ In (order_id r1, review_score r2) (review_data (rows data))
    /\ (Z.of_nat (pd.nunique (map order_id (rows data))) < total_reviews sm)%Z
    /\ length (dashboard_utils.first_per_order (rows data))
       = pd.nunique (map order_id (rows data)).
Proof.
  intros C I1 I2 Eo Ns. unfold analyze_customer_satisfaction. rewrite C. cbn [negb].
  eexists. split; [reflexivity|]. cbn [total_reviews].
  assert (In (order_id r1, review_score r1) (review_data (rows data))) as P1.
  { apply unique_In, in_map_iff. now exists r1. }
  assert (In (order_id r1, review_score r2) (review_data (rows data))) as P2.
  { rewrite Eo. apply unique_In, in_map_iff. now exists r2. }
  split; [exact P1|]. split; [exact P2|]. split.
  - rewrite <- review_data_orders, <- (length_map fst (review_data (rows data))).
    apply inj_lt, unique_length_lt. intros N.
    pose proof (NoDup_map_eq fst _ _ _ N P1 P2 eq_refl) as E. congruence.
  - unfold pd.nunique. induction (rows data) as [|r rs IH]; [reflexivity|].
    cbn [dashboard_utils.first_per_order map pd.unique length]. f_equal.
    rewrite <- (length_map order_id).
    assert (forall l,
              map order_id (List.filter
                (fun r' => negb (String.eqb (order_id r') (order_id r))) l)
              = List.filter (fun y => negb (bool_decide (y = order_id r)))
                            (map order_id l)) as Fm.
    { clear. induction l as [|x l IHl]; [reflexivity|]. cbn [List.filter map].
      destruct (String.eqb_spec (order_id x) (order_id r)) as [E|E].
      - rewrite bool_decide_eq_true_2 by exact E. exact IHl.
      - rewrite bool_decide_eq_false_2 by exact E. cbn. now rewrite IHl. }
    rewrite Fm. clear -IH.
    assert (map order_id (dashboard_utils.first_per_order rs)
            = pd.unique (map order_id rs)) as ->; [|reflexivity].
    clear IH. induction rs as [|x rs IHr]; [reflexivity|].
    cbn [dashboard_utils.first_per_order map pd.unique]. f_equal.
    rewrite <- IHr. clear.
    induction (dashboard_utils.first_per_order rs) as [|y l IHl]; [reflexivity|].
    cbn [List.filter map].
    destruct (String.eqb_spec (order_id y) (order_id x)) as [E|E].
    + rewrite bool_decide_eq_true_2 by exact E. exact IHl.
    + rewrite bool_decide_eq_false_2 by exact E. cbn. now rewrite IHl.
Qed.

(** One order with scores 5 and 1 counts as two reviews with mean 3; the
    same order on three rows with score 5 counts once. *)
Lemma satisfaction_witness :
  exists sm sm',
    analyze_customer_satisfaction (fixture.frame fixture.two_reviews) = Available sm
    /\ (1 < total_reviews sm)%Z
    /\ total_reviews sm = 2%Z
    /\ average_score sm =f= Fin 3
    /\ score_distribution sm !! 5%Z = Some 1%nat
    /\ score_distribution sm !! 1%Z = Some 1%nat
    /\ length (dashboard_utils.first_per_order fixture.two_reviews) = 1%nat
    /\ analyze_customer_satisfaction (fixture.frame fixture.three_rows_score_5)
       = Available sm'
    /\ total_reviews sm' = 1%Z
    /\ average_score sm' =f= Fin 5
    /\ score_distribution sm' !! 5%Z = Some 1%nat.
Proof.
  destruct (satisfaction_keeps_a_row_per_score
              (fixture.frame fixture.two_reviews)
              (fixture.reviewed 5 (fixture.line "A" 1 10 2023 1))
              (fixture.reviewed 1 (fixture.line "A" 1 10 2023 1)))
    as (sm & E & _ & _ & L & _).
  - reflexivity.
  - now left.
  - right. now left.
  - reflexivity.
  - discriminate.
  - exists sm. eexists. split; [exact E|]. split; [exact L|].
    vm_compute in E. injection E as <-.
    repeat split; vm_compute; reflexivity.
Defined.

(** ** An empty current period *)

Section EmptyPeriod.
Context {kind : SortKind}.

Lemma sort_values_nil {A} (f : A -> float64) : sort_values_desc f [] = [].
Proof. apply Permutation_nil. symmetry. apply sort_values_perm. Qed.

Lemma select_none (mask : Row -> bool) (data : DataFrame) :
  (forall r, In r (rows data) -> mask r = false) -> rows (select mask data) = [].
Proof.
  intros Hm. cbn. induction (rows data) as [|r rs IH]; [reflexivity|].
  cbn. rewrite (Hm r) by now left. apply IH. intros r' I. apply Hm. now right.
Qed.

(** With a [year] column, the two year filters of the report never raise. *)
Lemma calculate_revenue_metrics_years (data : DataFrame) (y cy : Z) :
  has_column "year" data = true ->
  exists m,
    calculate_revenue_metrics data (Some [("year", y)]) (Some [("year", cy)]) = inr m
    /\ current_period m
       = period_metrics (select (fun r => bool_decide (year r = Some y)) data)
                        (Some [("year", y)]).
Proof.
  intros C. unfold calculate_revenue_metrics, filter_period, apply_filter.
  rewrite C. cbn -[period_metrics df_empty select].
  change (int_cell "year") with year.
  set (cur := select (fun r => bool_decide (year r = Some y)) data).
  set (cmp := select (fun r => bool_decide (year r = Some cy)) data).
  destruct (df_empty cmp) eqn:Ee; cbn -[period_metrics].
  - eexists. split; reflexivity.
  - unfold int_truediv.
    pose proof (total_orders_nonzero cmp (Some [("year", cy)]) Ee) as N.
    apply Z.eqb_neq in N. rewrite N. cbn -[period_metrics].
    eexists. split; reflexivity.
Qed.

(** C9.  With no row in the analysis year, [main] stops with one of its two
    "no data" messages, but [generate_comprehensive_report] has no such
    branch: it aggregates the empty set, so that [average_order_value] is NaN,
    and it raises [IndexError] at [iloc[0]] as soon as a category or state
    column exists; a report that is returned carries the NaN. *)
Theorem report_on_empty_period (now : string) (data : DataFrame)
    (analysis_year comparison_year : Z) (selected_month : option Z) :
  has_column "year" data = true ->
  (forall r, In r (rows data) -> year r <> Some analysis_year) ->
  (forall r, In r (rows data) ->
             ts_year <$> order_purchase_timestamp r <> Some analysis_year) ->
  (app.main data analysis_year selected_month = inr app.NoDataAvailable
   \/ app.main data analysis_year selected_month = inr app.NoDataForRange)
  /\ (exists m,
        calculate_revenue_metrics data (Some [("year", analysis_year)])
                                  (Some [("year", comparison_year)]) = inr m
        /\ average_order_value (current_period m) = NaN)
  /\ (has_column "product_category_name" data || has_column "customer_state" data
      = true ->
      generate_comprehensive_report now data analysis_year comparison_year
      = inl IndexError)
  /\ (forall report,
        generate_comprehensive_report now data analysis_year comparison_year
        = inr report ->
        average_order_value (current_period (revenue_metrics report)) = NaN).
Proof.
  intros Cy Hy Ht.
  assert (rows (select (fun r => bool_decide (year r = Some analysis_year)) data) = [])
    as Esel.
  { apply select_none. intros r I. apply bool_decide_eq_false_2. now apply Hy. }
  destruct (calculate_revenue_metrics_years data analysis_year comparison_year Cy)
    as (m & Em & Ecur).
  assert (average_order_value (current_period m) = NaN) as Enan.
  { rewrite Ecur. cbn [average_order_value period_metrics]. now rewrite Esel. }
  split; [|split; [|split]].
  - unfold app.main. destruct (df_empty data) eqn:Ee; [now left|]. right.
    assert (forall d, rows d = [] -> df_empty d = true) as Hempty.
    { intros d E. unfold df_empty. rewrite E. now destruct (columns d). }
    rewrite (Hempty (select _ _)); [reflexivity|].
    apply select_none. cbn [rows]. intros r I.
    apply in_map_iff in I as (r0 & <- & I0). specialize (Ht r0 I0).
    unfold app.in_period, app.with_calendar. cbn [year month].
    destruct selected_month;
      rewrite (bool_decide_eq_false_2 _ Ht); reflexivity.
  - exists m. split; [exact Em | exact Enan].
  - intros Hc. unfold generate_comprehensive_report. rewrite Em.
    cbn -[analyze_product_performance analyze_geographic_performance select
          analyze_delivery_performance calculate_monthly_trends
          analyze_customer_satisfaction calculate_order_status_metrics].
    unfold analyze_product_performance, analyze_geographic_performance.
    change (has_column ?c (select ?mk data)) with (has_column c data).
    rewrite Esel. unfold with_revenue_share, group_agg.
    cbn [pd.groupby pd.group_keys map pd.dropna pd.unique pd.sort_by fold_right].
    rewrite sort_values_nil. cbn [map iloc0].
    destruct (has_column "product_category_name" data); [reflexivity|].
    cbn in Hc. rewrite Hc. reflexivity.
  - intros report. unfold generate_comprehensive_report. rewrite Em.
    cbn -[analyze_product_performance analyze_geographic_performance select
          analyze_delivery_performance calculate_monthly_trends
          analyze_customer_satisfaction calculate_order_status_metrics].
    destruct (analyze_product_performance _) as [e|pp]; [discriminate|].
    cbn -[analyze_geographic_performance select
          analyze_delivery_performance calculate_monthly_trends
          analyze_customer_satisfaction calculate_order_status_metrics].
    destruct (analyze_geographic_performance _) as [e|gp]; [discriminate|].
    cbn -[select analyze_delivery_performance calculate_monthly_trends
          analyze_customer_satisfaction calculate_order_status_metrics].
    destruct (analyze_delivery_performance _) as [e|dp]; [discriminate|].
    cbn -[select calculate_monthly_trends
          analyze_customer_satisfaction calculate_order_status_metrics].
    intros E. injection E as <-. exact Enan.
Qed.

End EmptyPeriod.

(** The scenario of 2023 queried for 2024: the dashboard warns, the report
    raises. *)
Lemma report_on_empty_period_witness :
  let data := fixture.frame fixture.scenario in
  app.main data 2024 None = inr app.NoDataForRange
  /\ @generate_comprehensive_report insertion_kind "2024-06-01 12:00:00"
       data 2024 2023 = inl IndexError.
Proof.
  cbv zeta.
  destruct (@report_on_empty_period insertion_kind "2024-06-01 12:00:00"
              (fixture.frame fixture.scenario) 2024 2023 None)
    as (M & _ & R & _).
  - reflexivity.
  - intros r [<-|[<-|[<-|[]]]]; discriminate.
  - intros r [<-|[<-|[<-|[]]]]; discriminate.
  - split.
    + destruct M as [M|M]; [vm_compute in M; discriminate | exact M].
    + apply R. reflexivity.
Defined.

(** ** Record unification *)

Section Unification.
Variable parse : string -> option Timestamp.

Lemma to_datetime_raises (column : list (option string)) :
  Exists (unparseable parse) column ->
  exists text,
    data_loader.to_datetime parse column = inl (DateParseError text)
    /\ parse text = None.
Proof.
  induction column as [|cell column IH]; intros Ex; [inversion Ex|].
  destruct cell as [text|]; cbn.
  - destruct (parse text) as [t|] eqn:Et.
    + inversion Ex as [c l (text' & E & N)|c l Ex']; subst.
      * injection E as <-. congruence.
      * destruct (IH Ex') as (bad & -> & N). now exists bad.
    + now exists text.
  - inversion Ex as [c l (text' & E & N)|c l Ex']; subst; [discriminate|].
    destruct (IH Ex') as (bad & -> & N). now exists bad.
Qed.

Lemma to_datetime_returns (column : list (option string)) :
  Forall (fun cell => ~ unparseable parse cell) column ->
  data_loader.to_datetime parse column
  = inr (map (fun cell => cell ≫= parse) column).
Proof.
  induction 1 as [|cell column N _ IH]; [reflexivity|].
  destruct cell as [text|]; cbn.
  - destruct (parse text) as [t|] eqn:Et.
    + now rewrite IH.
    + exfalso. apply N. now exists text.
  - now rewrite IH.
Qed.

Lemma sale_rows_map (sales : list data_loader.RawSale)
    (f g : data_loader.RawSale -> option Timestamp) :
  data_loader.sale_rows sales (map f sales) (map g sales)
  = map (fun s => data_loader.sale_row s (f s) (g s)) sales.
Proof.
  induction sales as [|s sales IH]; [reflexivity|]. cbn. now rewrite IH.
Qed.

(** A left merge keeps every left row, with whatever it joins to it. *)
Lemma merge_left_keeps {L R} (same : L -> R -> bool) (join : L -> option R -> L)
    (left : list L) (right : list R) (l : L) :
  In l left ->
  exists x, In (join l x) (data_loader.merge_left same join left right).
Proof.
  intros I. unfold data_loader.merge_left.
  destruct (List.filter (same l) right) as [|r ms] eqn:Ef.
  - exists None. apply in_flat_map. exists l. split; [exact I|].
    rewrite Ef. now left.
  - exists (Some r). apply in_flat_map. exists l. split; [exact I|].
    rewrite Ef. now left.
Qed.

Lemma exists_dec_unparseable (cell : option string) :
  unparseable parse cell \/ ~ unparseable parse cell.
Proof.
  destruct cell as [text|].
  - destruct (parse text) as [t|] eqn:E.
    + right. intros (text' & E' & N). injection E' as <-. congruence.
    + left. now exists text.
  - right. intros (text' & E' & _). discriminate.
Qed.

Lemma unparseable_column (column : list (option string)) :
  Exists (unparseable parse) column
  \/ Forall (fun cell => ~ unparseable parse cell) column.
Proof.
  induction column as [|cell column [IH|IH]].
  - right. constructor.
  - left. now apply Exists_cons_tl.
  - destruct (exists_dec_unparseable cell) as [U|U].
    + left. now constructor.
    + right. now constructor.
Qed.

(** C6, as the code has it.  With the five tables loaded: if a merged row
    has a purchase or delivery timestamp that is no date,
    [clean_and_prepare_data] raises on that text, [load_and_prepare_data]
    returns the empty frame and [main] ends with "No data available"; no row
    is unified.  If no timestamp is unparseable, the frame is built and every
    merged row is in it, a row with an empty timestamp cell included, its
    instant being NaT. *)
Theorem unparseable_timestamp_aborts_load (datasets : data_loader.Datasets)
    (os : list data_loader.Order) (ois : list data_loader.OrderItem)
    (ps : list data_loader.Product) (cs : list data_loader.Customer)
    (rvs : list data_loader.Review) (selected_year : Z) (selected_month : option Z) :
  data_loader.orders datasets = Some os ->
  data_loader.order_items datasets = Some ois ->
  data_loader.products datasets = Some ps ->
  data_loader.customers datasets = Some cs ->
  data_loader.reviews datasets = Some rvs ->
  let sales := data_loader.merge_orders ois os in
  (Exists (fun s => unparseable parse (data_loader.purchase_text s)
                    \/ unparseable parse (data_loader.delivered_text s)) sales ->
   (exists text,
      data_loader.clean_and_prepare_data parse datasets = inl (DateParseError text)
      /\ parse text = None)
   /\ app.load_and_prepare_data parse datasets = empty_frame
   /\ app.main (app.load_and_prepare_data parse datasets) selected_year selected_month
      = inr app.NoDataAvailable)
  /\ (Forall (fun s => ~ unparseable parse (data_loader.purchase_text s)
                       /\ ~ unparseable parse (data_loader.delivered_text s)) sales ->
      exists sales_data,
        data_loader.clean_and_prepare_data parse datasets = inr sales_data
        /\ Forall (fun s => exists r, In r (rows sales_data) /\ line_of parse s r)
                  sales).
Proof.
  intros Eo Ei Ep Ec Er sales.
  unfold app.load_and_prepare_data, data_loader.clean_and_prepare_data.
  rewrite Eo, Ei, Ep, Ec, Er. cbn [data_loader.getitem mbind result_bind mret result_ret].
  fold sales. split.
  - intros Ex.
    assert (exists text,
              (purchase ← data_loader.to_datetime parse
                            (map data_loader.purchase_text sales);
               delivered ← data_loader.to_datetime parse
                             (map data_loader.delivered_text sales);
               mret (purchase, delivered))
              = inl (DateParseError text) /\ parse text = None) as (text & Et & Nt).
    { assert (Exists (unparseable parse) (map data_loader.purchase_text sales)
              \/ (Forall (fun cell => ~ unparseable parse cell)
                         (map data_loader.purchase_text sales)
                  /\ Exists (unparseable parse)
                            (map data_loader.delivered_text sales))) as [P|[P D]].
      { destruct (unparseable_column (map data_loader.purchase_text sales)) as [P|P];
          [now left|].
        destruct (unparseable_column (map data_loader.delivered_text sales)) as [D|D];
          [now right|].
        exfalso. apply Exists_exists in Ex as (s & Is & [U|U]).
        - rewrite Forall_forall in P. apply (P (data_loader.purchase_text s)); [|exact U].
          now apply in_map.
        - rewrite Forall_forall in D. apply (D (data_loader.delivered_text s)); [|exact U].
          now apply in_map. }
      - destruct (to_datetime_raises _ P) as (text & -> & N). now exists text.
      - rewrite (to_datetime_returns _ P).
        destruct (to_datetime_raises _ D) as (text & -> & N). now exists text. }
    assert (forall k : list (option Timestamp) -> list (option Timestamp)
                       -> result DataFrame,
              (purchase ← data_loader.to_datetime parse
                            (map data_loader.purchase_text sales);
               delivered ← data_loader.to_datetime parse
                             (map data_loader.delivered_text sales);
               k purchase delivered)
              = inl (DateParseError text)) as Ek.
    { intros k. revert Et. unfold mbind, result_bind.
      destruct (data_loader.to_datetime parse (map data_loader.purchase_text sales))
        as [e|p]; [intros E; injection E as ->; reflexivity|].
      destruct (data_loader.to_datetime parse (map data_loader.delivered_text sales))
        as [e|d]; [intros E; injection E as ->; reflexivity | discriminate]. }
    rewrite Ek. split; [now exists text|]. split; reflexivity.
  - intros F.
    rewrite (to_datetime_returns (map data_loader.purchase_text sales)),
            (to_datetime_returns (map data_loader.delivered_text sales)).
    + cbn [mbind result_bind mret result_ret]. eexists. split; [reflexivity|].
      cbn [rows]. rewrite !map_map, sale_rows_map.
      apply Forall_forall. intros s Is.
      assert (In (data_loader.sale_row s (data_loader.purchase_text s ≫= parse)
                                         (data_loader.delivered_text s ≫= parse))
                 (map (fun s => data_loader.sale_row s
                                  (data_loader.purchase_text s ≫= parse)
                                  (data_loader.delivered_text s ≫= parse)) sales))
        as I0 by (apply in_map_iff; exists s; split; [reflexivity | exact Is]).
      destruct (merge_left_keeps
                  (fun r p => String.eqb (product_id r) (data_loader.p_product_id p))
                  data_loader.with_product _ ps _ I0) as (x1 & I1).
      destruct (merge_left_keeps
                  (fun r c => String.eqb (customer_id r) (data_loader.c_customer_id c))
                  data_loader.with_customer _ cs _ I1) as (x2 & I2).
      destruct (merge_left_keeps
                  (fun r v => String.eqb (order_id r) (data_loader.rv_order_id v))
                  data_loader.with_review _ rvs _ I2) as (x3 & I3).
      eexists. split; [exact I3|]. repeat split.
    + apply Forall_map. revert F. apply Forall_impl. tauto.
    + apply Forall_map. revert F. apply Forall_impl. tauto.
Qed.

End Unification.

(** Two orders, the second bought at "not a date": nothing is unified, the
    load ends with the empty frame and the dashboard without data. *)
Lemma unparseable_timestamp_counterexample :
  let raw := fixture.raw_with_bad_timestamp in
  fixture.iso_parse "not a date" = None
  /\ data_loader.clean_and_prepare_data fixture.iso_parse raw
     = inl (DateParseError "not a date")
  /\ ~ (exists sales_data,
          data_loader.clean_and_prepare_data fixture.iso_parse raw = inr sales_data
          /\ exists r, In r (rows sales_data) /\ order_id r = "A")
  /\ app.load_and_prepare_data fixture.iso_parse raw = empty_frame
  /\ app.main (app.load_and_prepare_data fixture.iso_parse raw) 2023 None
     = inr app.NoDataAvailable.
Proof.
  cbv zeta. split; [reflexivity|]. split; [vm_compute; reflexivity|].
  split; [|split; vm_compute; reflexivity].
  intros (sales_data & E & _). vm_compute in E. discriminate.
Qed.

Lemma unparseable_timestamp_witness :
  (exists text,
     data_loader.clean_and_prepare_data fixture.iso_parse
       fixture.raw_with_bad_timestamp = inl (DateParseError text)
     /\ fixture.iso_parse text = None)
  /\ app.load_and_prepare_data fixture.iso_parse fixture.raw_with_bad_timestamp
     = empty_frame
  /\ (exists sales_data r,
        data_loader.clean_and_prepare_data fixture.iso_parse
          fixture.raw_with_missing_timestamp = inr sales_data
        /\ In r (rows sales_data)
        /\ order_id r = "B"
        /\ order_delivered_customer_date r = None).
Proof.
  destruct (unparseable_timestamp_aborts_load fixture.iso_parse
              fixture.raw_with_bad_timestamp _ _ _ _ _ 2023 None
              eq_refl eq_refl eq_refl eq_refl eq_refl) as [A _].
  destruct (unparseable_timestamp_aborts_load fixture.iso_parse
              fixture.raw_with_missing_timestamp _ _ _ _ _ 2023 None
              eq_refl eq_refl eq_refl eq_refl eq_refl) as [_ B].
  destruct A as (T & L & _).
  { apply Exists_cons_tl, Exists_cons_hd. left.
    exists "not a date". split; reflexivity. }
  destruct B as (sales_data & E & F).
  { repeat constructor; intros (text & Et & N); vm_compute in Et;
      try discriminate; injection Et as <-; vm_compute in N; discriminate. }
  split; [exact T|]. split; [exact L|].
  apply Forall_inv_tail, Forall_inv in F. destruct F as (r & I & Lr).
  exists sales_data, r. split; [exact E|]. split; [exact I|].
  destruct Lr as (Eo & _ & _ & _ & Ed). split; [exact Eo | exact Ed].
Defined.

(** ** Monthly growth *)

Lemma main_monthly_growth (delivered_orders : DataFrame) (selected_year : Z)
    (selected_month : option Z) (k : app.Kpis) :
  app.main delivered_orders selected_year selected_month = inr (app.Dashboard k) ->
  app.monthly_growth k
  = app.growth_of_months
      (map snd (app.monthly_revenue
                  (current_rows delivered_orders selected_year selected_month))).
Proof.
  unfold app.main. destruct (df_empty delivered_orders); [discriminate|].
  cbv zeta. destruct (df_empty (select _ _)); [discriminate|].
  destruct (negb (df_empty (select _ _))).
  - destruct (app.int_trend _ _) as [e|o]; [discriminate|].
    intros E. injection E as <-. reflexivity.
  - intros E. injection E as <-. reflexivity.
Qed.

(** The dashboard computes its average order value as the report does. *)
Lemma main_average_order_value (delivered_orders : DataFrame) (selected_year : Z)
    (selected_month : option Z) (k : app.Kpis) :
  app.main delivered_orders selected_year selected_month = inr (app.Dashboard k) ->
  let current := current_rows delivered_orders selected_year selected_month in
  exists total aov,
    app.total_revenue (app.current_metrics k) = Fin total
    /\ total == Qsum (map price current)
    /\ app.avg_order_value (app.current_metrics k) = Fin aov
    /\ aov == mean_order_sum current.
Proof.
  unfold app.main. destruct (df_empty delivered_orders); [discriminate|].
  cbv zeta. fold (current_rows delivered_orders selected_year selected_month).
  set (current := current_rows delivered_orders selected_year selected_month).
  destruct (df_empty (select _ _)) eqn:Ee; [discriminate|].
  assert (current <> []) as N.
  { intros E0. unfold df_empty in Ee. cbn [rows columns select] in Ee.
    fold (current_rows delivered_orders selected_year selected_month) in Ee.
    fold current in Ee. rewrite E0 in Ee.
    now destruct (columns delivered_orders). }
  destruct (sum_price_col current) as (t & Et & Ht).
  destruct (order_totals_mean current N) as (a & Ea & Ha).
  cbn [rows select].
  fold (current_rows delivered_orders selected_year selected_month). fold current.
  intros E. exists t, a.
  destruct (negb (df_empty _)).
  - destruct (app.int_trend _ _) as [e|o]; [discriminate|].
    injection E as <-. cbn. rewrite Et, Ea. repeat split; assumption.
  - injection E as <-. cbn. rewrite Et, Ea. repeat split; assumption.
Qed.



(** ** Revenue shares *)

Section RevenueShare.
Context {kind : SortKind}.

Lemma share_table_nonempty (key : Row -> option string) (rs : list Row)
    (groups : list GroupRow) :
  share_table key rs groups ->
  (exists r, In r rs /\ key r <> None) -> groups <> [].
Proof.
  intros (totals & P & _) (r & Ir & Nr) ->. cbn in P.
  apply Permutation_nil in P.
  destruct (key r) as [k|] eqn:Ek; [|congruence].
  assert (In k (distinct_keys key rs)) as Ik.
  { apply nodup_In, dropna_In, in_map_iff. now exists r. }
  rewrite P in Ik. destruct Ik.
Qed.

Lemma share_table_empty (key : Row -> option string) (rs : list Row)
    (groups : list GroupRow) :
  share_table key rs groups -> (forall r, In r rs -> key r = None) -> groups = [].
Proof.
  intros (totals & P & _) Hn.
  assert (distinct_keys key rs = []) as E.
  { destruct (distinct_keys key rs) as [|k ks] eqn:Ek; [reflexivity|].
    assert (In k (distinct_keys key rs)) as Ik by (rewrite Ek; now left).
    apply nodup_In, dropna_In, in_map_iff in Ik as (r & Er & Ir).
    rewrite (Hn r Ir) in Er. discriminate. }
  rewrite E in P. apply Permutation_sym, Permutation_nil in P.
  now apply map_eq_nil in P.
Qed.


End RevenueShare.



(** * Further properties of the code *)

(** ** Left joins *)

Section JoinFacts.
Context {L R : Type}.
Variable same : L -> R -> bool.
Variable join : L -> option R -> L.

Lemma merge_left_app (l1 l2 : list L) (right : list R) :
  data_loader.merge_left same join (l1 ++ l2) right
  = data_loader.merge_left same join l1 right
    ++ data_loader.merge_left same join l2 right.
Proof. unfold data_loader.merge_left. apply flat_map_app. Qed.

Lemma merge_left_cons (l : L) (left : list L) (right : list R) :
  data_loader.merge_left same join (l :: left) right
  = data_loader.merge_left same join [l] right
    ++ data_loader.merge_left same join left right.
Proof. apply (merge_left_app [l] left). Qed.

Lemma merge_left_one_length (l : L) (right : list R) :
  length (data_loader.merge_left same join [l] right)
  = copies (length (List.filter (same l) right)).
Proof.
  unfold data_loader.merge_left. cbn [flat_map]. rewrite app_nil_r.
  destruct (List.filter (same l) right) as [|r ms]; [reflexivity|].
  rewrite length_map. unfold copies. cbn [length]. lia.
Qed.

(** Rows with the same number of matches: each is copied that many times. *)
Lemma merge_left_uniform (left : list L) (right : list R) (n : nat) :
  (forall l, In l left -> length (List.filter (same l) right) = n) ->
  length (data_loader.merge_left same join left right)
  = (length left * copies n)%nat.
Proof.
  induction left as [|l left IH]; intros U; [reflexivity|].
  rewrite merge_left_cons, length_app, merge_left_one_length, IH.
  - rewrite (U l) by (left; reflexivity). cbn [length]. lia.
  - intros l' I. apply U. right. exact I.
Qed.

(** What a join keeps of every row, it keeps of the frame. *)
Lemma merge_left_Forall (P : L -> Prop) (left : list L) (right : list R) :
  (forall l x, P l -> P (join l x)) ->
  Forall P left -> Forall P (data_loader.merge_left same join left right).
Proof.
  intros K F. induction F as [|l left Pl F IH]; [constructor|].
  rewrite merge_left_cons. apply Forall_app. split; [|exact IH].
  unfold data_loader.merge_left. cbn [flat_map]. rewrite app_nil_r.
  destruct (List.filter (same l) right) as [|r ms].
  - constructor; [apply K; exact Pl | constructor].
  - apply Forall_forall. intros y I. apply in_map_iff in I.
    destruct I as (x & <- & _). apply K. exact Pl.
Qed.

(** With at most one match per row a left join is a lookup. *)
Lemma merge_left_lookup (left : list L) (right : list R) :
  (forall l, In l left -> (length (List.filter (same l) right) <= 1)%nat) ->
  data_loader.merge_left same join left right
  = map (fun l => join l (head (List.filter (same l) right))) left.
Proof.
  induction left as [|l left IH]; intros U; [reflexivity|].
  rewrite merge_left_cons, IH by (intros l' I; apply U; right; exact I).
  cbn [map]. unfold data_loader.merge_left at 1. cbn [flat_map].
  rewrite app_nil_r.
  specialize (U l (or_introl eq_refl)).
  destruct (List.filter (same l) right) as [|r [|r' ms]]; cbn in U |- *;
    [reflexivity | reflexivity | lia].
Qed.

End JoinFacts.

Lemma filter_none {A} (f : A -> bool) (l : list A) :
  (forall a, In a l -> f a = false) -> List.filter f l = [].
Proof.
  induction l as [|a l IH]; intros N; [reflexivity|].
  cbn [List.filter]. rewrite (N a) by (left; reflexivity).
  apply IH. intros b I. apply N. right. exact I.
Qed.

(** A key column without duplicates matches a value at most once. *)
Lemma filter_key_NoDup {A} (key : A -> string) (k : string) (l : list A) :
  NoDup (map key l) ->
  (length (List.filter (fun a => String.eqb k (key a)) l) <= 1)%nat.
Proof.
  induction l as [|a l IH]; intros N; [cbn; lia|].
  cbn [map] in N. apply NoDup_cons_iff in N. destruct N as [NI N].
  cbn [List.filter]. destruct (String.eqb k (key a)) eqn:E.
  - apply String.eqb_eq in E. subst k.
    assert (List.filter (fun b => String.eqb (key a) (key b)) l = []) as ->.
    { apply filter_none. intros b I.
      apply String.eqb_neq. intros Eq. apply NI. rewrite Eq.
      apply in_map. exact I. }
    cbn. lia.
  - apply IH. exact N.
Qed.

(** ** The unified frame *)

Section UnifiedFrame.
Variable parse : string -> option Timestamp.

Lemma to_datetime_inr (column : list (option string))
    (instants : list (option Timestamp)) :
  data_loader.to_datetime parse column = inr instants ->
  instants = map (fun cell => cell ≫= parse) column.
Proof.
  revert instants. induction column as [|cell column IH]; intros instants E.
  - cbn in E. injection E as <-. reflexivity.
  - destruct cell as [text|]; cbn [data_loader.to_datetime] in E.
    + destruct (parse text) as [t|] eqn:P; [|discriminate].
      unfold mbind, result_bind in E.
      destruct (data_loader.to_datetime parse column) as [e|rest]; [discriminate|].
      injection E as <-. cbn [map]. rewrite (IH rest eq_refl).
      cbn. rewrite P. reflexivity.
    + unfold mbind, result_bind in E.
      destruct (data_loader.to_datetime parse column) as [e|rest]; [discriminate|].
      injection E as <-. cbn [map]. rewrite (IH rest eq_refl). reflexivity.
Qed.

(** The row of a merged line item before the three left joins. *)
Let base (s : data_loader.RawSale) : Row :=
  data_loader.sale_row s (data_loader.purchase_text s ≫= parse)
                         (data_loader.delivered_text s ≫= parse).

Let joined (ps : list data_loader.Product) (cs : list data_loader.Customer)
    (rvs : list data_loader.Review) (rs : list Row) : list Row :=
  data_loader.merge_left
    (fun r v => String.eqb (order_id r) (data_loader.rv_order_id v))
    data_loader.with_review
    (data_loader.merge_left
       (fun r c => String.eqb (customer_id r) (data_loader.c_customer_id c))
       data_loader.with_customer
       (data_loader.merge_left
          (fun r p => String.eqb (product_id r) (data_loader.p_product_id p))
          data_loader.with_product rs ps)
       cs)
    rvs.

(** A load that returns has made its frame by the three joins. *)
Lemma clean_and_prepare_data_inr (datasets : data_loader.Datasets)
    (os : list data_loader.Order) (ois : list data_loader.OrderItem)
    (ps : list data_loader.Product) (cs : list data_loader.Customer)
    (rvs : list data_loader.Review) (sales_data : DataFrame) :
  data_loader.orders datasets = Some os ->
  data_loader.order_items datasets = Some ois ->
  data_loader.products datasets = Some ps ->
  data_loader.customers datasets = Some cs ->
  data_loader.reviews datasets = Some rvs ->
  data_loader.clean_and_prepare_data parse datasets = inr sales_data ->
  sales_data
  = mkFrame data_loader.sales_columns
            (joined ps cs rvs (map base (data_loader.merge_orders ois os))).
Proof.
  intros Eo Ei Ep Ec Er E.
  unfold data_loader.clean_and_prepare_data in E.
  rewrite Eo, Ei, Ep, Ec, Er in E. cbn [data_loader.getitem] in E.
  unfold mbind, result_bind, mret, result_ret in E.
  destruct (data_loader.to_datetime parse
              (map data_loader.purchase_text (data_loader.merge_orders ois os)))
    as [e|purchase] eqn:P; [discriminate|].
  destruct (data_loader.to_datetime parse
              (map data_loader.delivered_text (data_loader.merge_orders ois os)))
    as [e|delivered] eqn:D; [discriminate|].
  apply to_datetime_inr in P. apply to_datetime_inr in D.
  injection E as <-. subst purchase delivered.
  rewrite !map_map, sale_rows_map. reflexivity.
Qed.

Lemma joined_cons (ps : list data_loader.Product) (cs : list data_loader.Customer)
    (rvs : list data_loader.Review) (r : Row) (rs : list Row) :
  joined ps cs rvs (r :: rs) = joined ps cs rvs [r] ++ joined ps cs rvs rs.
Proof.
  unfold joined.
  rewrite (merge_left_cons _ _ r rs), !merge_left_app. reflexivity.
Qed.

(** The rows the joins make of one row: as many as its matches multiply to,
    each with its order, item and price. *)
Lemma joined_one (ps : list data_loader.Product) (cs : list data_loader.Customer)
    (rvs : list data_loader.Review) (s : data_loader.RawSale) :
  length (joined ps cs rvs [base s]) = rows_of_sale ps cs rvs s
  /\ Forall (fun r => order_id r = data_loader.oi_order_id (fst s)
                      /\ order_item_id r = data_loader.oi_order_item_id (fst s)
                      /\ price r = data_loader.oi_price (fst s))
            (joined ps cs rvs [base s]).
Proof.
  set (P := fun r : Row =>
              order_id r = data_loader.oi_order_id (fst s)
              /\ order_item_id r = data_loader.oi_order_item_id (fst s)
              /\ price r = data_loader.oi_price (fst s)
              /\ customer_id r = data_loader.o_customer_id (snd s)).
  set (m1 := data_loader.merge_left
               (fun r p => String.eqb (product_id r) (data_loader.p_product_id p))
               data_loader.with_product [base s] ps).
  assert (Forall P m1) as F1.
  { apply merge_left_Forall.
    - intros r x (A & B & C & D). repeat split; assumption.
    - constructor; [|constructor]. repeat split. }
  assert (length m1 = copies (length (products_of ps s))) as L1.
  { unfold m1. rewrite merge_left_one_length. reflexivity. }
  set (m2 := data_loader.merge_left
               (fun r c => String.eqb (customer_id r) (data_loader.c_customer_id c))
               data_loader.with_customer m1 cs).
  assert (Forall P m2) as F2.
  { apply merge_left_Forall; [|exact F1].
    intros r x (A & B & C & D). repeat split; assumption. }
  assert (length m2 = (length m1 * copies (length (customers_of cs s)))%nat) as L2.
  { apply merge_left_uniform. intros r I.
    rewrite Forall_forall in F1. destruct (F1 r I) as (_ & _ & _ & D).
    rewrite D. reflexivity. }
  split.
  - unfold joined. fold m1. fold m2.
    rewrite (merge_left_uniform _ _ m2 rvs (length (reviews_of rvs s))).
    + rewrite L2, L1. reflexivity.
    + intros r I. rewrite Forall_forall in F2. destruct (F2 r I) as (A & _).
      rewrite A. reflexivity.
  - unfold joined. fold m1. fold m2.
    eapply Forall_impl; [|apply (merge_left_Forall _ _ P); [|exact F2]].
    + intros r (A & B & C & _). repeat split; assumption.
    + intros r x (A & B & C & D). repeat split; assumption.
Qed.

Lemma Qsum_cons (q : Q) (l : list Q) : Qsum (q :: l) = q + Qsum l.
Proof. reflexivity. Qed.

Lemma Qsum_app (l1 l2 : list Q) : Qsum (l1 ++ l2) == Qsum l1 + Qsum l2.
Proof.
  induction l1 as [|q l1 IH]; cbn [app].
  - change (Qsum []) with 0. ring.
  - rewrite !Qsum_cons, IH. ring.
Qed.

Lemma Qsum_constant {A} (f : A -> Q) (c : Q) (l : list A) :
  Forall (fun a => f a = c) l ->
  Qsum (map f l) == inject_Z (Z.of_nat (length l)) * c.
Proof.
  induction 1 as [|a l E F IH].
  - cbn [map length]. change (Qsum []) with 0. change (inject_Z (Z.of_nat 0)) with 0.
    ring.
  - cbn [map length]. rewrite Qsum_cons, IH, E, Nat2Z.inj_succ, <- Z.add_1_r,
      inject_Z_plus. ring.
Qed.

Lemma joined_count (ps : list data_loader.Product) (cs : list data_loader.Customer)
    (rvs : list data_loader.Review) (sales : list data_loader.RawSale) :
  length (joined ps cs rvs (map base sales))
  = list_sum (map (rows_of_sale ps cs rvs) sales)
  /\ Qsum (map price (joined ps cs rvs (map base sales)))
     == Qsum (map (fun s => inject_Z (Z.of_nat (rows_of_sale ps cs rvs s))
                            * data_loader.oi_price (fst s)) sales).
Proof.
  induction sales as [|s sales [IH1 IH2]]; [split; reflexivity|].
  cbn [map]. rewrite joined_cons.
  destruct (joined_one ps cs rvs s) as [L F].
  split.
  - rewrite length_app, IH1, L. reflexivity.
  - rewrite map_app, Qsum_app, IH2.
    rewrite Qsum_cons.
    rewrite (Qsum_constant price (data_loader.oi_price (fst s))).
    + rewrite L. reflexivity.
    + eapply Forall_impl; [|exact F]. intros r (_ & _ & C). exact C.
Qed.

(** With unique ids in the lookup tables the joins are lookups. *)
Lemma joined_lookup (ps : list data_loader.Product) (cs : list data_loader.Customer)
    (rvs : list data_loader.Review) (sales : list data_loader.RawSale) :
  NoDup (map data_loader.p_product_id ps) ->
  NoDup (map data_loader.c_customer_id cs) ->
  NoDup (map data_loader.rv_order_id rvs) ->
  joined ps cs rvs (map base sales) = map (unified_row parse ps cs rvs) sales.
Proof.
  intros Np Nc Nr. unfold joined.
  rewrite (merge_left_lookup _ _ (map base sales) ps)
    by (intros; apply (filter_key_NoDup data_loader.p_product_id); exact Np).
  rewrite map_map.
  rewrite (merge_left_lookup _ _ _ cs)
    by (intros; apply (filter_key_NoDup data_loader.c_customer_id); exact Nc).
  rewrite map_map.
  rewrite (merge_left_lookup _ _ _ rvs)
    by (intros; apply (filter_key_NoDup data_loader.rv_order_id); exact Nr).
  rewrite map_map. apply map_ext. intros s. reflexivity.
Qed.

(** Every join keeps the calendar columns and the purchase instant. *)
Lemma joined_calendar (ps : list data_loader.Product) (cs : list data_loader.Customer)
    (rvs : list data_loader.Review) (sales : list data_loader.RawSale) :
  Forall calendar_ok (joined ps cs rvs (map base sales)).
Proof.
  unfold joined.
  repeat (apply merge_left_Forall; [intros r x K; exact K|]).
  apply Forall_forall. intros r I. apply in_map_iff in I.
  destruct I as (s & <- & _). repeat split.
Qed.

End UnifiedFrame.

(** ** Loading *)

Section Loading.
Variable parse : string -> option Timestamp.

Lemma to_datetime_error (column : list (option string)) (e : exn) :
  data_loader.to_datetime parse column = inl e -> exists text, e = DateParseError text.
Proof.
  induction column as [|cell column IH]; intros E; [discriminate|].
  destruct cell as [text|]; cbn [data_loader.to_datetime] in E.
  - destruct (parse text) as [t|]; [|injection E as <-; eexists; reflexivity].
    unfold mbind, result_bind in E.
    destruct (data_loader.to_datetime parse column) as [e'|rest]; [|discriminate].
    injection E as <-. apply IH. reflexivity.
  - unfold mbind, result_bind in E.
    destruct (data_loader.to_datetime parse column) as [e'|rest]; [|discriminate].
    injection E as <-. apply IH. reflexivity.
Qed.

(** With the five tables at hand only a timestamp can stop the load. *)
Lemma clean_and_prepare_data_error (datasets : data_loader.Datasets) (e : exn) :
  first_missing datasets = None ->
  data_loader.clean_and_prepare_data parse datasets = inl e ->
  exists text, e = DateParseError text.
Proof.
  unfold first_missing, data_loader.clean_and_prepare_data.
  destruct (data_loader.orders datasets) as [os|]; [|discriminate].
  destruct (data_loader.order_items datasets) as [ois|]; [|discriminate].
  destruct (data_loader.products datasets) as [ps|]; [|discriminate].
  destruct (data_loader.customers datasets) as [cs|]; [|discriminate].
  destruct (data_loader.reviews datasets) as [rvs|]; [|discriminate].
  intros _. cbn [data_loader.getitem].
  unfold mbind, result_bind, mret, result_ret.
  destruct (data_loader.to_datetime parse
              (map data_loader.purchase_text (data_loader.merge_orders ois os)))
    as [e1|purchase] eqn:P.
  { intros E. injection E as <-. exact (to_datetime_error _ _ P). }
  destruct (data_loader.to_datetime parse
              (map data_loader.delivered_text (data_loader.merge_orders ois os)))
    as [e2|delivered] eqn:D.
  { intros E. injection E as <-. exact (to_datetime_error _ _ D). }
  discriminate.
Qed.

(** X1.  [clean_and_prepare_data] reads the tables 'orders', 'order_items',
    'products', 'customers' and 'reviews' from the dictionary, in this order,
    before anything else: it raises [KeyError] with the name of a table
    exactly when that table is the first of the five that the dictionary
    lacks.  [load_and_prepare_data] then returns the empty frame. *)
Theorem missing_table_raises_KeyError (datasets : data_loader.Datasets)
    (key : string) :
  (data_loader.clean_and_prepare_data parse datasets = inl (KeyError key)
   <-> first_missing datasets = Some key)
  /\ (first_missing datasets = Some key ->
      app.load_and_prepare_data parse datasets = empty_frame).
Proof.
  assert (forall k, first_missing datasets = Some k ->
          data_loader.clean_and_prepare_data parse datasets = inl (KeyError k))
    as Raises.
  { intros k. unfold first_missing, data_loader.clean_and_prepare_data.
    destruct (data_loader.orders datasets) as [os|];
      [|intros E; injection E as <-; reflexivity].
    destruct (data_loader.order_items datasets) as [ois|];
      [|intros E; injection E as <-; reflexivity].
    destruct (data_loader.products datasets) as [ps|];
      [|intros E; injection E as <-; reflexivity].
    destruct (data_loader.customers datasets) as [cs|];
      [|intros E; injection E as <-; reflexivity].
    destruct (data_loader.reviews datasets) as [rvs|];
      [|intros E; injection E as <-; reflexivity].
    discriminate. }
  split; [split; [|exact (Raises key)]|].
  - intros E. destruct (first_missing datasets) as [k|] eqn:M.
    + rewrite (Raises k eq_refl) in E. injection E as ->. reflexivity.
    + destruct (clean_and_prepare_data_error datasets _ M E) as (text & T).
      discriminate.
  - intros M. unfold app.load_and_prepare_data. rewrite (Raises key M). reflexivity.
Qed.

Lemma tables_of_load (datasets : data_loader.Datasets) (sales_data : DataFrame) :
  data_loader.clean_and_prepare_data parse datasets = inr sales_data ->
  exists os ois ps cs rvs,
    data_loader.orders datasets = Some os
    /\ data_loader.order_items datasets = Some ois
    /\ data_loader.products datasets = Some ps
    /\ data_loader.customers datasets = Some cs
    /\ data_loader.reviews datasets = Some rvs.
Proof.
  unfold data_loader.clean_and_prepare_data.
  destruct (data_loader.orders datasets) as [os|]; [|discriminate].
  destruct (data_loader.order_items datasets) as [ois|]; [|discriminate].
  destruct (data_loader.products datasets) as [ps|]; [|discriminate].
  destruct (data_loader.customers datasets) as [cs|]; [|discriminate].
  destruct (data_loader.reviews datasets) as [rvs|]; [|discriminate].
  intros _. exists os, ois, ps, cs, rvs. repeat split.
Qed.


Lemma rows_of_sale_pos (ps : list data_loader.Product)
    (cs : list data_loader.Customer) (rvs : list data_loader.Review)
    (sales : list data_loader.RawSale) :
  (length sales <= list_sum (map (rows_of_sale ps cs rvs) sales))%nat.
Proof.
  induction sales as [|s sales IH]; [reflexivity|].
  unfold list_sum in *. cbn [map fold_right length].
  assert (1 <= rows_of_sale ps cs rvs s)%nat; [|lia].
  unfold rows_of_sale, copies.
  pose proof (Nat.le_max_l 1 (length (products_of ps s))).
  pose proof (Nat.le_max_l 1 (length (customers_of cs s))).
  pose proof (Nat.le_max_l 1 (length (reviews_of rvs s))).
  nia.
Qed.

(** X3.  The three left joins of [clean_and_prepare_data] drop no line item
    and copy it once for every combination of a product, a customer and a
    review with its ids: a line item with [p] product rows, [c] customer rows
    and [v] review rows gives [max 1 p * max 1 c * max 1 v] rows of the frame,
    each with the item's price.  The prices of the frame therefore add up to
    the items' prices counted once per copy. *)
Theorem unified_rows_multiply (datasets : data_loader.Datasets)
    (os : list data_loader.Order) (ois : list data_loader.OrderItem)
    (ps : list data_loader.Product) (cs : list data_loader.Customer)
    (rvs : list data_loader.Review) (sales_data : DataFrame) :
  data_loader.orders datasets = Some os ->
  data_loader.order_items datasets = Some ois ->
  data_loader.products datasets = Some ps ->
  data_loader.customers datasets = Some cs ->
  data_loader.reviews datasets = Some rvs ->
  data_loader.clean_and_prepare_data parse datasets = inr sales_data ->
  let sales := data_loader.merge_orders ois os in
  length (rows sales_data) = list_sum (map (rows_of_sale ps cs rvs) sales)
  /\ (length sales <= length (rows sales_data))%nat
  /\ Qsum (map price (rows sales_data))
     == Qsum (map (fun s => inject_Z (Z.of_nat (rows_of_sale ps cs rvs s))
                            * data_loader.oi_price (fst s)) sales).
Proof.
  intros Eo Ei Ep Ec Er E sales.
  rewrite (clean_and_prepare_data_inr parse datasets os ois ps cs rvs sales_data
             Eo Ei Ep Ec Er E).
  cbn [rows].
  destruct (joined_count parse ps cs rvs (data_loader.merge_orders ois os))
    as [Count Total].
  split; [exact Count|]. split; [|exact Total].
  rewrite Count. apply rows_of_sale_pos.
Qed.

Lemma with_delivery_calendar (r : Row) :
  calendar_ok r -> calendar_ok (data_loader.with_delivery r).
Proof. intros K. exact K. Qed.

Lemma with_calendar_id (r : Row) : calendar_ok r -> app.with_calendar r = r.
Proof.
  destruct r. unfold calendar_ok, app.with_calendar. cbn.
  intros (-> & -> & _). reflexivity.
Qed.

(** X4.  In the frame [load_and_prepare_data] returns, the columns [year],
    [month] and [quarter] of every row are those of its purchase instant (NaN
    when it is NaT): the joins and the delivery filter keep them.  The
    assignment of [year] and [month] that [main] makes on this frame
    therefore changes no row. *)
Theorem loaded_calendar_columns (datasets : data_loader.Datasets) :
  let delivered_orders := app.load_and_prepare_data parse datasets in
  Forall calendar_ok (rows delivered_orders)
  /\ map app.with_calendar (rows delivered_orders) = rows delivered_orders.
Proof.
  cbv zeta.
  assert (Forall calendar_ok (rows (app.load_and_prepare_data parse datasets))) as F.
  { unfold app.load_and_prepare_data.
    destruct (data_loader.clean_and_prepare_data parse datasets)
      as [e|sales_data] eqn:E; [constructor|].
    destruct (tables_of_load datasets sales_data E)
      as (os & ois & ps & cs & rvs & Eo & Ei & Ep & Ec & Er).
    rewrite (clean_and_prepare_data_inr parse datasets os ois ps cs rvs sales_data
               Eo Ei Ep Ec Er E).
    unfold data_loader.filter_delivered_orders, select. cbn [rows].
    apply Forall_forall. intros r I. apply in_map_iff in I.
    destruct I as (r0 & <- & I). apply filter_In in I. destruct I as [I _].
    apply with_delivery_calendar.
    pose proof (joined_calendar parse ps cs rvs (data_loader.merge_orders ois os))
      as K.
    rewrite Forall_forall in K. apply K. exact I. }
  split; [exact F|].
  induction F as [|r rs K F IH]; [reflexivity|].
  cbn [map]. rewrite IH, (with_calendar_id r K). reflexivity.
Qed.

End Loading.

Lemma missing_table_witness :
  data_loader.clean_and_prepare_data fixture.iso_parse fixture.raw_without_reviews
  = inl (KeyError "reviews")
  /\ app.load_and_prepare_data fixture.iso_parse fixture.raw_without_reviews
     = empty_frame.
Proof.
  pose proof (missing_table_raises_KeyError fixture.iso_parse
                fixture.raw_without_reviews "reviews") as [[_ Raises] Empty].
  split; [apply Raises; reflexivity | apply Empty; reflexivity].
Defined.

Lemma string_NoDup (l : list string) : bool_decide (base.NoDup l) = true -> NoDup l.
Proof. intros D. apply NoDup_ListNoDup. exact (bool_decide_eq_true_1 _ D). Qed.


Lemma unified_rows_multiply_witness :
  exists sales_data,
    data_loader.clean_and_prepare_data fixture.iso_parse fixture.raw_reviewed_twice
    = inr sales_data
    /\ length (rows sales_data) = 2%nat
    /\ Qsum (map price (rows sales_data)) == 20.
Proof.
  destruct (data_loader.clean_and_prepare_data fixture.iso_parse
              fixture.raw_reviewed_twice)
    as [e|sales_data] eqn:E; [vm_compute in E; discriminate|].
  exists sales_data. split; [reflexivity|].
  destruct (unified_rows_multiply fixture.iso_parse fixture.raw_reviewed_twice
              _ _ _ _ _ sales_data eq_refl eq_refl eq_refl eq_refl eq_refl E)
    as (Count & _ & Total).
  split.
  - rewrite Count. vm_compute. reflexivity.
  - rewrite Total. vm_compute. reflexivity.
Defined.

Lemma loaded_calendar_witness :
  Forall calendar_ok
         (rows (app.load_and_prepare_data fixture.iso_parse fixture.raw_scenario))
  /\ map year (rows (app.load_and_prepare_data fixture.iso_parse fixture.raw_scenario))
     = [Some 2023; Some 2023; Some 2023]%Z.
Proof.
  destruct (loaded_calendar_columns fixture.iso_parse fixture.raw_scenario) as [F _].
  split; [exact F|]. vm_compute. reflexivity.
Defined.

(** ** Delivered orders *)

Lemma filter_filter_same {A} (f : A -> bool) (l : list A) :
  List.filter f (List.filter f l) = List.filter f l.
Proof.
  induction l as [|a l IH]; [reflexivity|].
  cbn [List.filter]. destruct (f a) eqn:E; [|exact IH].
  cbn [List.filter]. rewrite E, IH. reflexivity.
Qed.

Lemma filter_all {A} (f : A -> bool) (l : list A) :
  (forall a, In a l -> f a = true) -> List.filter f l = l.
Proof.
  induction l as [|a l IH]; intros T; [reflexivity|].
  cbn [List.filter]. rewrite (T a) by (left; reflexivity).
  rewrite IH; [reflexivity|]. intros b I. apply T. right. exact I.
Qed.

Lemma filter_filter {A} (f g : A -> bool) (l : list A) :
  List.filter g (List.filter f l) = List.filter (fun a => f a && g a) l.
Proof.
  induction l as [|a l IH]; [reflexivity|].
  cbn [List.filter]. destruct (f a); cbn [andb List.filter]; [|exact IH].
  destruct (g a); rewrite IH; reflexivity.
Qed.

Lemma has_column_app (name : string) (cols more : list string) (rs : list Row) :
  has_column name (mkFrame (cols ++ more) rs)
  = has_column name (mkFrame cols rs) || existsb (String.eqb name) more.
Proof. unfold has_column. cbn [columns]. apply existsb_app. Qed.

Lemma categorize_delivery_speed_Unknown (days : option Z) :
  data_loader.categorize_delivery_speed days = "Unknown" <-> days = None.
Proof.
  destruct days as [d|]; cbn; [|tauto].
  split; [|discriminate].
  destruct (d <=? 3)%Z; [discriminate|]. destruct (d <=? 7)%Z; discriminate.
Qed.

Lemma days_between_None (purchase delivered : option Timestamp) :
  data_loader.days_between purchase delivered = None
  <-> purchase = None \/ delivered = None.
Proof.
  destruct purchase, delivered; cbn; split; try tauto; try discriminate.
  intros [E|E]; discriminate.
Qed.

(** Filtering the delivered orders a second time changes no row. *)
Lemma filter_delivered_orders_rows_twice (sales_data : DataFrame) :
  rows (data_loader.filter_delivered_orders
          (data_loader.filter_delivered_orders sales_data))
  = rows (data_loader.filter_delivered_orders sales_data).
Proof.
  unfold data_loader.filter_delivered_orders, select. cbn [rows columns].
  set (delivered := fun r : Row => String.eqb (order_status r) "delivered").
  assert (forall rs, List.filter delivered (map data_loader.with_delivery rs)
                     = map data_loader.with_delivery (List.filter delivered rs)) as Comm.
  { induction rs as [|r rs IH]; [reflexivity|].
    cbn [map List.filter].
    change (delivered (data_loader.with_delivery r)) with (delivered r).
    destruct (delivered r); cbn [map]; rewrite IH; reflexivity. }
  rewrite Comm, filter_filter_same, map_map.
  apply map_ext. intros r. destruct r. reflexivity.
Qed.

(** X5.  [filter_delivered_orders] keeps the rows whose status is
    'delivered', in their order and with their prices, and adds the two
    delivery columns.  In every row it returns, [delivery_days] is the number
    of whole days from the purchase to the delivery, [delivery_category] is
    the bucket of that number, and the bucket is 'Unknown' exactly when one of
    the two instants is missing.  Filtering the result again changes none of
    its rows. *)
Theorem delivered_rows_invariant (sales_data : DataFrame) :
  let delivered := data_loader.filter_delivered_orders sales_data in
  has_column "delivery_days" delivered = true
  /\ has_column "delivery_category" delivered = true
  /\ length (rows delivered)
     = pd.occurrences "delivered" (map order_status (rows sales_data))
  /\ map price (rows delivered)
     = map price (List.filter (fun r => String.eqb (order_status r) "delivered")
                              (rows sales_data))
  /\ Forall (fun r =>
               order_status r = "delivered"
               /\ delivery_days r
                  = data_loader.days_between (order_purchase_timestamp r)
                                             (order_delivered_customer_date r)
               /\ delivery_category r
                  = Some (data_loader.categorize_delivery_speed (delivery_days r))
               /\ (delivery_category r = Some "Unknown"
                   <-> order_purchase_timestamp r = None
                       \/ order_delivered_customer_date r = None))
            (rows delivered)
  /\ rows (data_loader.filter_delivered_orders delivered) = rows delivered.
Proof.
  cbv zeta. split; [|split; [|split; [|split; [|split]]]];
    [| | | | |apply filter_delivered_orders_rows_twice];
    unfold data_loader.filter_delivered_orders, select; cbn [rows columns].
  - rewrite has_column_app. cbn. apply orb_true_r.
  - rewrite has_column_app. cbn. apply orb_true_r.
  - rewrite length_map. unfold pd.occurrences.
    induction (rows sales_data) as [|r rs IH]; [reflexivity|].
    cbn [map List.filter].
    destruct (String.eqb_spec (order_status r) "delivered") as [E|N].
    + rewrite bool_decide_eq_true_2 by exact E. cbn [length]. rewrite IH.
      reflexivity.
    + rewrite bool_decide_eq_false_2 by exact N. exact IH.
  - rewrite map_map. reflexivity.
  - apply Forall_forall. intros r I. apply in_map_iff in I.
    destruct I as (r0 & <- & I). apply filter_In in I. destruct I as [_ D].
    apply String.eqb_eq in D. cbn.
    split; [exact D|]. split; [reflexivity|]. split; [reflexivity|].
    split.
    + intros E. injection E as E.
      apply categorize_delivery_speed_Unknown in E.
      apply days_between_None. exact E.
    + intros E. apply days_between_None in E. rewrite E. reflexivity.
Qed.

Lemma delivered_rows_witness :
  let delivered :=
    data_loader.filter_delivered_orders
      (mkFrame data_loader.sales_columns
               (fixture.scenario
                ++ [fixture.line "C" 1 20 2023 2;
                    mkRow "D" 1 "P4" 5 "delivered"
                          (Some (mkTimestamp 2023 3 1 0 0 0)) None "C4"
                          (Some 2023%Z) (Some 3%Z) (Some 1%Z)
                          None None None None None None])) in
  length (rows delivered) = 5%nat
  /\ map delivery_category (rows delivered)
     = [Some "1-3 days"; Some "1-3 days"; Some "8+ days"; Some "1-3 days";
        Some "Unknown"]
  /\ Forall (fun r => order_status r = "delivered") (rows delivered).
Proof.
  cbv zeta.
  pose proof (delivered_rows_invariant
                (mkFrame data_loader.sales_columns
                   (fixture.scenario
                    ++ [fixture.line "C" 1 20 2023 2;
                        mkRow "D" 1 "P4" 5 "delivered"
                              (Some (mkTimestamp 2023 3 1 0 0 0)) None "C4"
                              (Some 2023%Z) (Some 3%Z) (Some 1%Z)
                              None None None None None None])))
    as (_ & _ & L & _ & F & _).
  split; [rewrite L; vm_compute; reflexivity|].
  split; [vm_compute; reflexivity|].
  eapply Forall_impl; [|exact F]. intros r (D & _). exact D.
Defined.

(** ** Whole days *)

(** X6.  [delivery_days] counts whole days and rounds down: for a purchase
    and a delivery in the same month, it is the difference of the two days of
    the month when the delivery's time of day is not before the purchase's,
    and one less when it is. *)
Theorem delivery_days_round_down (y m : Z) (purchase delivered : Timestamp) :
  ts_year purchase = y -> ts_month purchase = m ->
  ts_year delivered = y -> ts_month delivered = m ->
  (0 <= time_of_day purchase < 86400)%Z ->
  (0 <= time_of_day delivered < 86400)%Z ->
  data_loader.days_between (Some purchase) (Some delivered)
  = Some (if (time_of_day purchase <=? time_of_day delivered)%Z
          then (ts_day delivered - ts_day purchase)%Z
          else (ts_day delivered - ts_day purchase - 1)%Z).
Proof.
  intros Yp Mp Yd Md Tp Td. unfold data_loader.days_between. f_equal.
  unfold data_loader.epoch_seconds, time_of_day in *.
  rewrite Yp, Mp, Yd, Md.
  unfold data_loader.days_from_civil.
  set (base := (_ / 400 * 146097)%Z).
  set (yoe := (_ - _ / 400 * 400)%Z).
  set (doy := ((153 * _ + 2) / 5)%Z).
  destruct (Z.leb_spec (ts_hour purchase * 3600 + ts_minute purchase * 60
                        + ts_second purchase)
                       (ts_hour delivered * 3600 + ts_minute delivered * 60
                        + ts_second delivered)) as [Le|Lt].
  - symmetry. apply (Z.div_unique _ _ _
      ((ts_hour delivered * 3600 + ts_minute delivered * 60 + ts_second delivered)
       - (ts_hour purchase * 3600 + ts_minute purchase * 60 + ts_second purchase))%Z).
    + left. lia.
    + lia.
  - symmetry. apply (Z.div_unique _ _ _
      (86400 + (ts_hour delivered * 3600 + ts_minute delivered * 60
                + ts_second delivered)
       - (ts_hour purchase * 3600 + ts_minute purchase * 60 + ts_second purchase))%Z).
    + left. lia.
    + lia.
Qed.

Lemma delivery_days_witness :
  data_loader.days_between (Some (mkTimestamp 2023 1 10 9 0 0))
                           (Some (mkTimestamp 2023 1 13 8 59 59))
  = Some 2%Z
  /\ data_loader.categorize_delivery_speed
       (data_loader.days_between (Some (mkTimestamp 2023 1 10 9 0 0))
                                 (Some (mkTimestamp 2023 1 13 8 59 59)))
     = "1-3 days".
Proof.
  rewrite (delivery_days_round_down 2023 1 (mkTimestamp 2023 1 10 9 0 0)
             (mkTimestamp 2023 1 13 8 59 59)); try reflexivity.
  - split; reflexivity.
  - vm_compute. split; [discriminate | reflexivity].
  - vm_compute. split; [discriminate | reflexivity].
Defined.

(** ** Date ranges *)

(** X7.  [filter_by_date_range] keeps the columns, and keeps exactly the
    rows whose year lies within the year bounds that are given and whose month
    lies within the month bounds that are given, in their order.  A row
    without a year (or month) is dropped as soon as a year (or month) bound is
    given.  With no bound at all the frame comes back unchanged. *)
Theorem filter_by_date_range_bounds (data : DataFrame)
    (start_year end_year start_month end_month : option Z) :
  let filtered :=
    data_loader.filter_by_date_range data start_year end_year start_month end_month in
  columns filtered = columns data
  /\ rows filtered
     = List.filter (fun r => within start_year end_year (year r)
                             && within start_month end_month (month r))
                   (rows data)
  /\ (forall r, In r (rows filtered) ->
        (start_year <> None \/ end_year <> None -> year r <> None)
        /\ (start_month <> None \/ end_month <> None -> month r <> None))
  /\ data_loader.filter_by_date_range data None None None None = data.
Proof.
  cbv zeta.
  assert (rows (data_loader.filter_by_date_range data start_year end_year
                  start_month end_month)
          = List.filter (fun r => within start_year end_year (year r)
                                  && within start_month end_month (month r))
                        (rows data)) as Rows.
  { unfold data_loader.filter_by_date_range.
    assert (forall (bound : option Z) (mask : Z -> Row -> bool) (d : DataFrame),
              rows (match bound with Some b => select (mask b) d | None => d end)
              = List.filter (fun r => match bound with
                                      | Some b => mask b r
                                      | None => true
                                      end) (rows d)) as Step.
    { intros [b|] mask d; [reflexivity|].
      symmetry. apply filter_all. reflexivity. }
    rewrite !Step, !filter_filter. apply filter_ext. intros r.
    unfold within. rewrite !andb_assoc. reflexivity. }
  split; [|split; [exact Rows|split]].
  - unfold data_loader.filter_by_date_range, select.
    destruct start_year, end_year, start_month, end_month; reflexivity.
  - intros r I. rewrite Rows in I. apply filter_In in I. destruct I as [_ W].
    apply andb_true_iff in W. destruct W as [Wy Wm].
    unfold within in Wy, Wm. split.
    + intros B E. rewrite E in Wy.
      destruct start_year, end_year; cbn in Wy; try discriminate.
      destruct B as [B|B]; apply B; reflexivity.
    + intros B E. rewrite E in Wm.
      destruct start_month, end_month; cbn in Wm; try discriminate.
      destruct B as [B|B]; apply B; reflexivity.
  - destruct data. reflexivity.
Qed.

Lemma filter_by_date_range_bounds_witness :
  map order_id
      (rows (data_loader.filter_by_date_range (fixture.frame fixture.scenario)
               (Some 2023%Z) None (Some 2%Z) (Some 6%Z)))
  = ["B"]
  /\ data_loader.filter_by_date_range (fixture.frame fixture.scenario)
       None None None None
     = fixture.frame fixture.scenario.
Proof.
  destruct (filter_by_date_range_bounds (fixture.frame fixture.scenario)
              (Some 2023%Z) None (Some 2%Z) (Some 6%Z)) as (_ & Rows & _).
  destruct (filter_by_date_range_bounds (fixture.frame fixture.scenario)
              None None None None) as (_ & _ & _ & Same).
  split; [rewrite Rows; vm_compute; reflexivity | exact Same].
Defined.

(** X8.  The month bounds of [filter_by_date_range] apply to every row
    whatever its year: a range that runs from a month of one year to an
    earlier month of a later year (from November 2022 to February 2023, say)
    selects no row at all. *)
Theorem filter_by_date_range_wraps_to_nothing (data : DataFrame)
    (start_year end_year : option Z) (start_month end_month : Z) :
  (end_month < start_month)%Z ->
  rows (data_loader.filter_by_date_range data start_year end_year
          (Some start_month) (Some end_month)) = [].
Proof.
  intros Lt.
  unfold data_loader.filter_by_date_range.
  set (d := match end_year with Some _ => _ | None => _ end).
  unfold select. cbn [rows]. rewrite filter_filter.
  apply filter_none. intros r _.
  destruct (month r) as [m|]; cbn; [|reflexivity].
  destruct (Z.leb_spec start_month m); [|reflexivity].
  destruct (Z.leb_spec m end_month); [lia|reflexivity].
Qed.

Lemma filter_by_date_range_witness :
  rows (data_loader.filter_by_date_range (fixture.frame fixture.free_item_2022)
          (Some 2022%Z) (Some 2023%Z) (Some 11%Z) (Some 2%Z)) = []
  /\ length (rows (data_loader.filter_by_date_range
                     (fixture.frame fixture.free_item_2022)
                     (Some 2022%Z) (Some 2023%Z) None None)) = 2%nat.
Proof.
  split.
  - apply filter_by_date_range_wraps_to_nothing. reflexivity.
  - reflexivity.
Defined.

(** ** Groups of any key *)

Section GroupSums.
Context {K : Type} `{EqDecision K}.
Variable key : Row -> option K.

(** The revenues of the groups add up to the revenue of the rows, when
    every row has one of the keys. *)
Lemma group_sums_total (keys : list K) (rs : list Row) :
  NoDup keys -> (forall r, In r rs -> exists k, key r = Some k /\ In k keys) ->
  Qsum (map (fun k => Qsum (map price (pd.group_rows key k rs))) keys)
  == Qsum (map price rs).
Proof.
  intros N. revert rs. induction N as [|k keys Nk _ IH]; intros rs Hrs.
  - destruct rs as [|r rs]; [reflexivity|].
    destruct (Hrs r) as (k & _ & []). now left.
  - cbn [map]. rewrite Qsum_cons.
    set (rest := List.filter (fun r => negb (bool_decide (key r = Some k))) rs).
    assert (Qsum (map price rs)
            == Qsum (map price (pd.group_rows key k rs)) + Qsum (map price rest)) as ->.
    { unfold pd.group_rows, rest. clear. induction rs as [|r rs IHr].
      - cbn. ring.
      - cbn [List.filter]. destruct (bool_decide (key r = Some k));
          cbn [negb map]; rewrite !Qsum_cons, IHr; ring. }
    apply Qplus_comp; [reflexivity|].
    rewrite <- (IH rest).
    + apply Qsum_ext. intros k' Hk'. unfold pd.group_rows, rest.
      assert (k' <> k) as Ne by (intros ->; contradiction).
      rewrite filter_filter.
      assert (List.filter (fun r => negb (bool_decide (key r = Some k))
                                    && bool_decide (key r = Some k')) rs
              = List.filter (fun r => bool_decide (key r = Some k')) rs) as ->;
        [|reflexivity].
      apply filter_ext. intros r.
      destruct (decide (key r = Some k')) as [E|E].
      * rewrite (bool_decide_eq_true_2 _ E).
        rewrite bool_decide_eq_false_2 by congruence. reflexivity.
      * rewrite (bool_decide_eq_false_2 _ E). apply andb_false_r.
    + intros r Hr. unfold rest in Hr. apply filter_In in Hr as [Hr Hk].
      apply negb_true_iff, bool_decide_eq_false in Hk.
      destruct (Hrs r Hr) as (k' & E & [->|I]); [congruence|]. now exists k'.
Qed.

Lemma group_keys_In `{KeyOrd K} (rs : list Row) (k : K) :
  In k (pd.group_keys key rs) <-> exists r, In r rs /\ key r = Some k.
Proof.
  unfold pd.group_keys. split.
  - intros I. apply (Permutation_in _ (sort_by_perm key_leb _)) in I.
    apply unique_In, dropna_In, in_map_iff in I as (r & E & I).
    exists r. split; [exact I | exact E].
  - intros (r & I & E).
    apply (Permutation_in _ (Permutation_sym (sort_by_perm key_leb _))).
    apply unique_In, dropna_In, in_map_iff. now exists r.
Qed.

Lemma group_keys_NoDup `{KeyOrd K} (rs : list Row) : NoDup (pd.group_keys key rs).
Proof.
  unfold pd.group_keys.
  eapply Permutation_NoDup; [symmetry; apply sort_by_perm | apply unique_NoDup].
Qed.

(** The sums [groupby(key)['price'].sum()] lists are finite, and add up to
    the revenue of the rows that have a key. *)
Lemma groupby_sums `{KeyOrd K} (rs : list Row) :
  exists totals : list Q,
    map (fun g => pd.sum (price_col (snd g))) (pd.groupby key rs) = map Fin totals
    /\ Forall2 (fun k t => t == Qsum (map price (pd.group_rows key k rs)))
               (pd.group_keys key rs) totals
    /\ Qsum totals
       == Qsum (map price (List.filter (fun r => bool_decide (key r <> None)) rs)).
Proof.
  exists (map (fun k => sum_of (map price (pd.group_rows key k rs)))
              (pd.group_keys key rs)).
  split; [|split].
  - unfold pd.groupby. rewrite !map_map. apply map_ext. intros k. cbn [snd].
    rewrite price_col_Fin, sum_Fin_eq. reflexivity.
  - rewrite <- (map_id (pd.group_keys key rs)) at 1.
    apply Forall2_maps. apply Forall_forall. intros k _. apply sum_of_Qsum.
  - set (keyed := List.filter (fun r => bool_decide (key r <> None)) rs).
    rewrite <- (group_sums_total (pd.group_keys key rs) keyed).
    + rewrite <- (map_id (pd.group_keys key rs)) at 2. rewrite !map_map.
      apply Qsum_ext. intros k _. cbn beta. rewrite sum_of_Qsum.
      unfold pd.group_rows, keyed. rewrite filter_filter.
      assert (List.filter (fun r => bool_decide (key r <> None)
                                    && bool_decide (key r = Some k)) rs
              = List.filter (fun r => bool_decide (key r = Some k)) rs) as ->;
        [|reflexivity].
      apply filter_ext. intros r.
      destruct (decide (key r = Some k)) as [E|E].
      * rewrite (bool_decide_eq_true_2 _ E).
        rewrite bool_decide_eq_true_2 by congruence. reflexivity.
      * rewrite (bool_decide_eq_false_2 _ E). apply andb_false_r.
    + apply group_keys_NoDup.
    + intros r I. apply filter_In in I. destruct I as [I E].
      apply bool_decide_eq_true_1 in E.
      destruct (key r) as [k|] eqn:Ek; [|contradiction].
      exists k. split; [reflexivity|]. apply group_keys_In. now exists r.
Qed.

End GroupSums.

(** ** Monthly trends *)

Lemma Z_group_keys_sorted (key : Row -> option Z) (rs : list Row) :
  StronglySorted Z.lt (pd.group_keys key rs).
Proof.
  pose proof (group_keys_NoDup key rs) as N.
  unfold pd.group_keys in *.
  set (keys := pd.unique (pd.dropna (map key rs))) in *.
  assert (StronglySorted (fun p q : Z => key_leb p q = true)
                         (pd.sort_by key_leb keys)) as S.
  { apply Sorted_StronglySorted.
    - intros p q r. unfold key_leb, Z_ord. rewrite !Z.leb_le. lia.
    - apply sort_by_sorted. intros a b. unfold key_leb, Z_ord.
      rewrite Z.leb_le, Z.leb_gt. lia. }
  induction S as [|p l S IH F]; constructor.
  - apply IH. now inversion N.
  - inversion N as [|p' l' Np Nl]. subst. rewrite Forall_forall in *.
    intros q Iq. specialize (F q Iq). unfold key_leb, Z_ord in F.
    apply Z.leb_le in F. assert (p <> q) by (intros ->; contradiction). lia.
Qed.

(** X9.  [calculate_monthly_trends] lists the months of the year in
    ascending order, each once: exactly the months in which a row of that year
    was bought.  Its columns have one entry per listed month, and the first
    entry of both growth columns is NaN. *)
Theorem monthly_trends_months (data : DataFrame) (y : Z) :
  let trends := calculate_monthly_trends data y in
  StronglySorted Z.lt (mm_month trends)
  /\ (forall m, In m (mm_month trends)
                <-> exists r, In r (rows data) /\ year r = Some y /\ month r = Some m)
  /\ length (mm_revenue trends) = length (mm_month trends)
  /\ length (mm_orders trends) = length (mm_month trends)
  /\ length (mm_customers trends) = length (mm_month trends)
  /\ length (mm_revenue_growth trends) = length (mm_month trends)
  /\ length (mm_order_growth trends) = length (mm_month trends)
  /\ mm_month_name trends = map month_names (mm_month trends)
  /\ (mm_month trends <> [] ->
      head (mm_revenue_growth trends) = Some NaN
      /\ head (mm_order_growth trends) = Some NaN).
Proof.
  cbv zeta. unfold calculate_monthly_trends, select. cbn [rows mm_month
    mm_revenue mm_orders mm_customers mm_revenue_growth mm_order_growth
    mm_month_name].
  set (rs := List.filter (fun r => bool_decide (year r = Some y)) (rows data)).
  assert (map fst (pd.groupby month rs) = pd.group_keys month rs) as Keys.
  { unfold pd.groupby. rewrite map_map. apply map_id. }
  assert (forall s, length (times100 (pd.pct_change s)) = length s) as Len.
  { intros s. unfold times100. rewrite length_map.
    destruct s as [|x s]; [reflexivity|]. cbn [pd.pct_change length]. f_equal.
    revert x. induction s as [|x' s IH]; intros x; [reflexivity|].
    cbn [pd.pct_change_from length]. f_equal. apply IH. }
  rewrite Keys.
  split; [apply Z_group_keys_sorted|].
  split.
  { intros m. rewrite group_keys_In. split.
    - intros (r & I & E). apply filter_In in I. destruct I as [I Y].
      apply bool_decide_eq_true_1 in Y. now exists r.
    - intros (r & I & Y & E). exists r. split; [|exact E].
      apply filter_In. split; [exact I|]. now apply bool_decide_eq_true_2. }
  rewrite !Len, !length_map, <- Keys, !length_map.
  repeat (split; [reflexivity|]).
  split; [rewrite !map_map; reflexivity|].
  intros NE. destruct (pd.groupby month rs) as [|g gs]; [contradiction|].
  split; reflexivity.
Qed.

Lemma monthly_trends_witness :
  let trends := calculate_monthly_trends (fixture.frame fixture.scenario) 2023 in
  StronglySorted Z.lt (mm_month trends)
  /\ mm_month trends = [1; 2]%Z
  /\ mm_month_name trends = [Some "Jan"; Some "Feb"]
  /\ head (mm_revenue_growth trends) = Some NaN.
Proof.
  cbv zeta.
  destruct (monthly_trends_months (fixture.frame fixture.scenario) 2023)
    as (S & _ & _ & _ & _ & _ & _ & _ & First).
  split; [exact S|]. split; [vm_compute; reflexivity|].
  split; [vm_compute; reflexivity|].
  apply First. vm_compute. discriminate.
Defined.

(** X10.  The monthly revenues of [calculate_monthly_trends] are finite and
    add up to the revenue of the rows of the year that have a month.  When
    every row of the year has one, they add up to the [total_revenue] that
    [calculate_revenue_metrics] reports for the year. *)
Theorem monthly_revenue_adds_up (data : DataFrame) (y : Z)
    (pf : option period_filter) (m : RevenueMetrics) :
  calculate_revenue_metrics data (Some [("year", y)]) pf = inr m ->
  exists (totals : list Q) (total : Q),
    mm_revenue (calculate_monthly_trends data y) = map Fin totals
    /\ Qsum totals
       == Qsum (map price
                    (List.filter (fun r => bool_decide (year r = Some y)
                                           && bool_decide (month r <> None))
                                 (rows data)))
    /\ total_revenue (current_period m) = Fin total
    /\ ((forall r, In r (rows data) -> year r = Some y -> month r <> None) ->
        Qsum totals == total).
Proof.
  intros E.
  destruct (calculate_revenue_metrics_current data _ pf m E)
    as (current_data & Ec & Rev & _).
  cbn [filter_period apply_filter] in Ec.
  destruct (has_column "year" data); [|discriminate].
  injection Ec as <-.
  unfold calculate_monthly_trends. cbn [mm_revenue].
  change (rows (select (fun r => bool_decide (int_cell "year" r = Some y)) data))
    with (rows (select (fun r => bool_decide (year r = Some y)) data)) in Rev.
  set (rs := rows (select (fun r => bool_decide (year r = Some y)) data)) in *.
  destruct (groupby_sums month rs) as (totals & Et & _ & Sum).
  destruct (sum_price_col rs) as (total & Es & Eq).
  exists totals, total. split; [exact Et|]. split; [|split].
  - rewrite Sum. unfold rs, select. cbn [rows]. rewrite filter_filter. reflexivity.
  - rewrite Rev. exact Es.
  - intros All. rewrite Sum, Eq. apply Qsum_perm. apply Permutation_map.
    rewrite filter_all; [reflexivity|].
    intros r I. unfold rs, select in I. cbn [rows] in I. apply filter_In in I.
    destruct I as [I Y]. apply bool_decide_eq_true_1 in Y.
    apply bool_decide_eq_true_2. apply All; assumption.
Qed.

Lemma monthly_revenue_witness :
  exists m totals,
    calculate_revenue_metrics (fixture.frame fixture.scenario)
      (Some [("year", 2023%Z)]) None = inr m
    /\ mm_revenue (calculate_monthly_trends (fixture.frame fixture.scenario) 2023)
       = map Fin totals
    /\ mm_month (calculate_monthly_trends (fixture.frame fixture.scenario) 2023)
       = [1; 2]%Z
    /\ total_revenue (current_period m) =f= Fin (Qsum totals)
    /\ Qsum totals == 180.
Proof.
  destruct (calculate_revenue_metrics (fixture.frame fixture.scenario)
              (Some [("year", 2023%Z)]) None) as [e|m] eqn:E;
    [vm_compute in E; discriminate|].
  destruct (monthly_revenue_adds_up (fixture.frame fixture.scenario) 2023 None m E)
    as (totals & total & Et & _ & Er & All).
  exists m, totals. split; [reflexivity|]. split; [exact Et|].
  split; [vm_compute; reflexivity|].
  assert (Qsum totals == total) as Eq.
  { apply All. intros r I _. vm_compute in I.
    destruct I as [<-|[<-|[<-|[]]]]; discriminate. }
  split.
  - rewrite Er. cbn. symmetry. exact Eq.
  - rewrite Eq. vm_compute in E. injection E as <-.
    vm_compute in Er. injection Er as <-. reflexivity.
Defined.

(** ** Leading groups *)

Section SortedFacts.
Context {A B : Type}.

Lemma Sorted_map_inv (R : B -> B -> Prop) (f : A -> B) (l : list A) :
  Sorted R (map f l) -> Sorted (fun a b => R (f a) (f b)) l.
Proof.
  induction l as [|a l IH]; intros S; [constructor|].
  cbn [map] in S. inversion S as [|b l' S' Hd]. subst.
  constructor; [apply IH; exact S'|].
  destruct l as [|a' l]; [constructor|].
  cbn [map] in Hd. inversion Hd. subst. constructor. assumption.
Qed.

(** In a sorted list every element of a prefix comes before every element
    of the rest. *)
Lemma StronglySorted_firstn_skipn (R : A -> A -> Prop) (n : nat) (l : list A) :
  StronglySorted R l ->
  forall a b, In a (firstn n l) -> In b (skipn n l) -> R a b.
Proof.
  intros S. revert n. induction S as [|x l S IH F]; intros n a b Ia Ib.
  - rewrite firstn_nil in Ia. destruct Ia.
  - destruct n as [|n]; [destruct Ia|].
    cbn [firstn skipn] in Ia, Ib. destruct Ia as [<-|Ia].
    + rewrite Forall_forall in F. apply F.
      rewrite <- (firstn_skipn n l). apply in_or_app. right. exact Ib.
    + apply (IH n); assumption.
Qed.

End SortedFacts.

Section TopGroups.
Context {kind : SortKind}.
Variable key : Row -> option string.
Variable distinct : Row -> string.
Variable rs : list Row.

Let total (k : string) : Q := Qround2 (group_revenue key rs k).

(** The sorted groups, strongly: none has more revenue than one before it. *)
Lemma sorted_groups_strongly :
  StronglySorted (fun a b => total (grp_key b) <= total (grp_key a))
    (sort_values_desc grp_total_revenue (group_agg key distinct rs)).
Proof.
  apply Sorted_StronglySorted.
  - intros a b c Hab Hbc. eapply Qle_trans; eassumption.
  - apply (Sorted_map_inv (fun t t' : Q => t' <= t)
             (fun a => Qround2 (group_revenue key rs (grp_key a)))).
    apply sorted_descending.
Qed.

Lemma group_rows_keys (l : list GroupAgg) :
  map (fun g => grp_key (grp_agg g))
      (map (fun a => {| grp_agg := a;
                        revenue_share :=
                          round2 (grp_total_revenue a
                                  / pd.sum (map grp_total_revenue
                                              (sort_values_desc grp_total_revenue
                                                 (group_agg key distinct rs)))
                                  * Fin 100)%float |}) l)
  = map grp_key l.
Proof. rewrite map_map. reflexivity. Qed.

(** The first group of the table has the most revenue. *)
Lemma first_group_leads (groups : list GroupRow) (g : GroupRow) (rest : list GroupRow) :
  groups = with_revenue_share (group_agg key distinct rs) ->
  groups = g :: rest ->
  In (grp_key (grp_agg g)) (distinct_keys key rs)
  /\ forall k, In k (distinct_keys key rs) -> total k <= total (grp_key (grp_agg g)).
Proof.
  intros -> E. unfold with_revenue_share in E.
  pose proof sorted_groups_strongly as S.
  pose proof (sorted_keys_perm key distinct rs) as P.
  destruct (sort_values_desc grp_total_revenue (group_agg key distinct rs))
    as [|a sorted]; [discriminate|].
  cbn [map] in E. injection E as <- _. cbn [grp_agg].
  split.
  - apply (Permutation_in _ P). left. reflexivity.
  - intros k I. apply (Permutation_in _ (Permutation_sym P)) in I.
    cbn [map] in I. destruct I as [<-|I]; [apply Qle_refl|].
    apply in_map_iff in I. destruct I as (b & <- & I).
    inversion S as [|a' l' _ F]. subst. rewrite Forall_forall in F.
    apply F. exact I.
Qed.

(** The first [n] groups of the table: every group left out has at most the
    revenue of every group among them. *)
Lemma first_groups_lead (n : nat) (g : GroupRow) (k : string) :
  let groups := with_revenue_share (group_agg key distinct rs) in
  In g (firstn n groups) ->
  In k (distinct_keys key rs) ->
  ~ In k (map (fun g => grp_key (grp_agg g)) (firstn n groups)) ->
  total k <= total (grp_key (grp_agg g)).
Proof.
  cbv zeta. unfold with_revenue_share.
  set (sorted := sort_values_desc grp_total_revenue (group_agg key distinct rs)).
  rewrite firstn_map. intros Ig Ik Out.
  rewrite group_rows_keys in Out.
  apply in_map_iff in Ig. destruct Ig as (a & <- & Ia). cbn [grp_agg].
  apply (Permutation_in _ (Permutation_sym (sorted_keys_perm key distinct rs))) in Ik.
  fold sorted in Ik. rewrite <- (firstn_skipn n sorted), map_app in Ik.
  apply in_app_or in Ik. destruct Ik as [Ik|Ik]; [contradiction|].
  apply in_map_iff in Ik. destruct Ik as (b & <- & Ib).
  apply (StronglySorted_firstn_skipn _ n sorted sorted_groups_strongly); assumption.
Qed.

Lemma groups_length :
  length (with_revenue_share (group_agg key distinct rs))
  = length (distinct_keys key rs).
Proof.
  unfold with_revenue_share. rewrite length_map.
  rewrite <- (length_map grp_key).
  apply Permutation_length. apply sorted_keys_perm.
Qed.

(** Every row of the table carries the rounded revenue of its group. *)
Lemma groups_totals :
  Forall (fun g => grp_total_revenue (grp_agg g) = Fin (total (grp_key (grp_agg g))))
         (with_revenue_share (group_agg key distinct rs)).
Proof.
  unfold with_revenue_share. rewrite Forall_map. cbn [grp_agg].
  exact (sorted_ok key distinct rs).
Qed.

End TopGroups.

Section Leaders.
Context {kind : SortKind}.

(** X11.  When [analyze_product_performance] returns its table,
    [top_category] is a category of the data whose [total_revenue] (the
    revenue of the category, rounded to two decimals) is not below that of
    any other category, and [total_categories] is the number of distinct
    categories; rows without a category count for none. *)
Theorem top_category_leads (data : DataFrame) (pp : ProductPerformance) :
  analyze_product_performance data = inr (Available pp) ->
  let categories := distinct_keys product_category_name (rows data) in
  let total k := Qround2 (group_revenue product_category_name (rows data) k) in
  In (top_category pp) categories
  /\ (forall k, In k categories -> total k <= total (top_category pp))
  /\ total_categories pp = Z.of_nat (length categories)
  /\ head (map (fun g => grp_key (grp_agg g)) (category_performance pp))
     = Some (top_category pp)
  /\ Forall (fun g => grp_total_revenue (grp_agg g)
                      = Fin (total (grp_key (grp_agg g))))
            (category_performance pp).
Proof.
  unfold analyze_product_performance.
  destruct (has_column "product_category_name" data); [|discriminate].
  cbn [negb].
  set (groups := with_revenue_share
                   (group_agg product_category_name product_id (rows data))).
  pose proof (groups_totals product_category_name product_id (rows data)) as Totals.
  fold groups in Totals.
  destruct groups as [|g rest] eqn:G; [discriminate|].
  cbn. intros E. injection E as <-. cbn.
  destruct (first_group_leads product_category_name product_id (rows data)
              groups g rest eq_refl G) as [I Max].
  split; [exact I|]. split; [exact Max|]. split; [|split; [reflexivity|exact Totals]].
  change (S (length rest)) with (length (g :: rest)). rewrite <- G.
  unfold groups. rewrite groups_length. reflexivity.
Qed.

(** X12.  When [analyze_geographic_performance] returns its table,
    [top_5_states] holds the first five rows of [state_performance] (all of
    them when there are fewer), [top_state] is the state of its first row, and
    no state left out of it has a higher [total_revenue] than a state in
    it. *)
Theorem top_5_states_lead (data : DataFrame) (gp : GeographicPerformance) :
  analyze_geographic_performance data = inr (Available gp) ->
  let states := distinct_keys customer_state (rows data) in
  let total k := Qround2 (group_revenue customer_state (rows data) k) in
  let state g := grp_key (grp_agg g) in
  length (top_5_states gp) = Nat.min 5 (length states)
  /\ (exists rest, state_performance gp = top_5_states gp ++ rest)
  /\ head (map state (top_5_states gp)) = Some (top_state gp)
  /\ (forall g k,
        In g (top_5_states gp) -> In k states ->
        ~ In k (map state (top_5_states gp)) ->
        total k <= total (state g)).
Proof.
  unfold analyze_geographic_performance.
  destruct (has_column "customer_state" data); [|discriminate].
  cbn [negb].
  set (groups := with_revenue_share
                   (group_agg customer_state customer_id (rows data))).
  destruct groups as [|g0 rest0] eqn:G; [discriminate|].
  cbn [iloc0 mbind result_bind mret result_ret]. unfold mbind, result_bind, mret, result_ret.
  intros E. injection E as <-.
  cbn [top_5_states state_performance top_state].
  change (g0 :: firstn 4 rest0) with (firstn 5 (g0 :: rest0)). rewrite <- G.
  split; [|split; [|split]].
  - rewrite length_firstn. unfold groups. rewrite groups_length. reflexivity.
  - exists (skipn 5 groups). symmetry. apply firstn_skipn.
  - rewrite G. reflexivity.
  - intros g k Ig Ik Out.
    exact (first_groups_lead customer_state customer_id (rows data) 5 g k Ig Ik Out).
Qed.

End Leaders.

Lemma top_category_witness :
  exists pp,
    @analyze_product_performance insertion_kind
      (fixture.frame fixture.two_categories) = inr (Available pp)
    /\ top_category pp = "books"
    /\ In (top_category pp)
          (distinct_keys product_category_name fixture.two_categories)
    /\ total_categories pp = 2%Z.
Proof.
  destruct (@analyze_product_performance insertion_kind
              (fixture.frame fixture.two_categories)) as [e|[msg|pp]] eqn:Ep;
    [vm_compute in Ep; discriminate | vm_compute in Ep; discriminate |].
  exists pp.
  destruct (top_category_leads (fixture.frame fixture.two_categories) pp Ep)
    as (I & _ & N & _ & _).
  split; [reflexivity|]. split; [|split; [exact I|]].
  - vm_compute in Ep. injection Ep as <-. reflexivity.
  - rewrite N. reflexivity.
Defined.

Lemma top_5_states_witness :
  exists gp rest,
    @analyze_geographic_performance insertion_kind
      (fixture.frame fixture.two_categories) = inr (Available gp)
    /\ length (top_5_states gp) = 2%nat
    /\ state_performance gp = top_5_states gp ++ rest.
Proof.
  destruct (@analyze_geographic_performance insertion_kind
              (fixture.frame fixture.two_categories)) as [e|[msg|gp]] eqn:Eg;
    [vm_compute in Eg; discriminate | vm_compute in Eg; discriminate |].
  destruct (top_5_states_lead (fixture.frame fixture.two_categories) gp Eg)
    as (L & (rest & R) & _).
  exists gp, rest.
  split; [reflexivity|]. split; [|exact R].
  rewrite L. reflexivity.
Defined.

(** ** Percentages and means *)

Lemma filter_length_le {A} (f : A -> bool) (l : list A) :
  (length (List.filter f l) <= length l)%nat.
Proof.
  induction l as [|a l IH]; [reflexivity|].
  cbn [List.filter]. destruct (f a); cbn [length]; lia.
Qed.

Lemma filter_length_all {A} (f : A -> bool) (l : list A) :
  length (List.filter f l) = length l <-> Forall (fun a => f a = true) l.
Proof.
  induction l as [|a l IH]; [split; [constructor | reflexivity]|].
  cbn [List.filter]. pose proof (filter_length_le f l) as Le.
  destruct (f a) eqn:E; cbn [length]; split.
  - intros L. constructor; [exact E|]. apply IH. lia.
  - intros F. inversion F. subst. f_equal. apply IH. assumption.
  - intros L. lia.
  - intros F. inversion F. congruence.
Qed.

(** [k / n * 100] for a part [k] of a whole [n] that is not zero. *)
Lemma percentage_of_part (k n : nat) :
  (k <= n)%nat -> n <> O ->
  exists pct : Q,
    (of_nat k / of_nat n * Fin 100)%float = Fin pct
    /\ pct == inject_Z (Z.of_nat k) / inject_Z (Z.of_nat n) * 100
    /\ 0 <= pct <= 100
    /\ (pct == 100 <-> k = n).
Proof.
  intros Le N0.
  assert (0 < inject_Z (Z.of_nat n)) as Pos.
  { change 0 with (inject_Z 0). rewrite <- Zlt_Qlt. lia. }
  assert (inject_Z (Z.of_nat k) <= inject_Z (Z.of_nat n)) as LeQ.
  { rewrite <- Zle_Qle. lia. }
  assert (0 <= inject_Z (Z.of_nat k)) as NonNeg.
  { change 0 with (inject_Z 0). rewrite <- Zle_Qle. lia. }
  exists (inject_Z (Z.of_nat k) / inject_Z (Z.of_nat n) * 100).
  split; [|split; [reflexivity|split]].
  - unfold of_nat. rewrite fdiv_Fin; [reflexivity|].
    apply inject_nat_nonzero. exact N0.
  - split.
    + apply Qmult_le_0_compat; [|discriminate].
      apply Qle_shift_div_l; [exact Pos|]. rewrite Qmult_0_l. exact NonNeg.
    + assert (inject_Z (Z.of_nat k) / inject_Z (Z.of_nat n) <= 1) as Q1.
      { apply Qle_shift_div_r; [exact Pos|]. rewrite Qmult_1_l. exact LeQ. }
      lra.
  - split.
    + intros E.
      assert (inject_Z (Z.of_nat k) / inject_Z (Z.of_nat n) == 1) as E1 by lra.
      assert (inject_Z (Z.of_nat k) == inject_Z (Z.of_nat n)) as E2.
      { rewrite <- (Qmult_1_l (inject_Z (Z.of_nat n))), <- E1. field. lra. }
      apply (proj1 (inject_Z_injective _ _)) in E2. lia.
    + intros ->. field. lra.
Qed.

Lemma Qsum_bounds (lo hi : Q) (qs : list Q) :
  Forall (fun q => lo <= q <= hi) qs ->
  inject_Z (Z.of_nat (length qs)) * lo <= Qsum qs
  /\ Qsum qs <= inject_Z (Z.of_nat (length qs)) * hi.
Proof.
  induction 1 as [|q qs [L U] F [IHl IHu]].
  - cbn [length]. change (Qsum []) with 0. change (inject_Z (Z.of_nat 0)) with 0.
    split; lra.
  - cbn [length]. rewrite Qsum_cons, Nat2Z.inj_succ, <- Z.add_1_r, inject_Z_plus.
    change (inject_Z 1) with 1. split; lra.
Qed.

(** The mean of values within bounds lies within them. *)
Lemma mean_bounds (lo hi : Q) (qs : list Q) :
  qs <> [] -> Forall (fun q => lo <= q <= hi) qs ->
  exists mu, pd.mean (map Fin qs) = Fin mu /\ lo <= mu <= hi.
Proof.
  intros NE F. rewrite (mean_Fin_eq qs NE).
  eexists. split; [reflexivity|].
  assert (0 < inject_Z (Z.of_nat (length qs))) as Pos.
  { change 0 with (inject_Z 0). rewrite <- Zlt_Qlt.
    destruct qs; [contradiction | cbn [length]; lia]. }
  destruct (Qsum_bounds lo hi qs F) as [L U].
  rewrite sum_of_Qsum. split.
  - apply Qle_shift_div_l; [exact Pos|]. rewrite Qmult_comm. exact L.
  - apply Qle_shift_div_r; [exact Pos|]. rewrite Qmult_comm. exact U.
Qed.

(** The median of values within bounds lies within them. *)
Lemma median_bounds (lo hi : Q) (qs : list Q) :
  qs <> [] -> Forall (fun q => lo <= q <= hi) qs ->
  exists mu, pd.median (map Fin qs) = Fin mu /\ lo <= mu <= hi.
Proof.
  intros NE F. unfold pd.median. rewrite filter_notna_Fin.
  set (v := pd.sort_by pd.fleb (map Fin qs)).
  assert (Permutation v (map Fin qs)) as P by apply sort_by_perm.
  assert (forall i, (i < length v)%nat ->
                    exists q, nth i v NaN = Fin q /\ lo <= q <= hi) as Nth.
  { intros i Lt. pose proof (nth_In v NaN Lt) as I.
    apply (Permutation_in _ P) in I. apply in_map_iff in I.
    destruct I as (q & <- & I). exists q. split; [reflexivity|].
    rewrite Forall_forall in F. apply F. exact I. }
  assert (length v <> O) as N0.
  { rewrite (Permutation_length P), length_map. destruct qs; [contradiction|].
    discriminate. }
  destruct (length v) as [|n] eqn:L; [contradiction|].
  destruct (Nth (S n / 2)%nat) as (b & Eb & Bb).
  { apply Nat.div_lt; lia. }
  destruct (Nat.even (S n)) eqn:Ev.
  - destruct (Nth (S n / 2 - 1)%nat) as (a & Ea & Ba).
    { assert (S n / 2 < S n)%nat by (apply Nat.div_lt; lia). lia. }
    rewrite Ea, Eb. exists ((a + b) / 2). split; [reflexivity|].
    split.
    + apply Qle_shift_div_l; [reflexivity|]. lra.
    + apply Qle_shift_div_r; [reflexivity|]. lra.
  - exists b. split; [exact Eb | exact Bb].
Qed.

Lemma notna_opt_float (l : list (option Z)) :
  List.filter notna (map opt_float l) = map Fin (map inject_Z (pd.dropna l)).
Proof.
  induction l as [|[z|] l IH]; [reflexivity| |]; cbn [map List.filter pd.dropna].
  - cbn [opt_float of_Z notna isnan negb map]. rewrite IH. reflexivity.
  - exact IH.
Qed.

Lemma mean_opt_float (l : list (option Z)) :
  pd.mean (map opt_float l) = pd.mean (map Fin (map inject_Z (pd.dropna l))).
Proof.
  unfold pd.mean, pd.sum, pd.count.
  rewrite notna_opt_float, filter_notna_Fin. reflexivity.
Qed.

Lemma median_opt_float (l : list (option Z)) :
  pd.median (map opt_float l) = pd.median (map Fin (map inject_Z (pd.dropna l))).
Proof.
  unfold pd.median. rewrite notna_opt_float, filter_notna_Fin. reflexivity.
Qed.

Lemma mean_of_nothing (l : list (option Z)) :
  pd.dropna l = [] ->
  pd.mean (map opt_float l) = NaN /\ pd.median (map opt_float l) = NaN.
Proof.
  intros E. rewrite mean_opt_float, median_opt_float, E. split; reflexivity.
Qed.

Lemma occurrences_dropna {A} `{EqDecision A} (x : A) (l : list (option A)) :
  pd.occurrences x (pd.dropna l) = pd.occurrences (Some x) l.
Proof.
  induction l as [|[y|] l IH]; [reflexivity| |]; cbn [pd.dropna];
    rewrite !occurrences_cons; rewrite IH.
  - destruct (decide (y = x)) as [E|E].
    + rewrite !bool_decide_eq_true_2 by congruence. reflexivity.
    + rewrite !bool_decide_eq_false_2 by congruence. reflexivity.
  - rewrite bool_decide_eq_false_2 by discriminate. reflexivity.
Qed.

(** Sorting the lines of a [value_counts] does not change its dictionary. *)
Lemma to_dict_sorted_counts {K} `{Countable K} (leb : K * nat -> K * nat -> bool)
    (l : list K) :
  pd.to_dict (pd.sort_by leb (pd.value_counts l)) = pd.to_dict (pd.value_counts l).
Proof.
  unfold pd.to_dict. apply list_to_map_proper.
  - apply NoDup_ListNoDup.
    eapply Permutation_NoDup.
    + apply Permutation_map. symmetry. apply sort_by_perm.
    + change (NoDup (map fst (pd.value_counts l))).
      rewrite value_counts_keys. apply unique_NoDup.
  - apply sort_by_perm.
Qed.

(** ** Customer satisfaction *)

(** X13.  [analyze_customer_satisfaction] divides the number of
    (order, score) pairs with a score of 4 or more by the number of all pairs,
    those without a score included.  Without rows the rate is NaN (0/0).
    With rows it is a number between 0 and 100, and it is 100 exactly when
    every pair has a score of 4 or more: an order without a review keeps it
    below 100. *)
Theorem satisfaction_rate_bounds (data : DataFrame) (sm : SatisfactionMetrics) :
  analyze_customer_satisfaction data = Available sm ->
  let pairs := review_data (rows data) in
  total_reviews sm = Z.of_nat (length pairs)
  /\ (rows data = [] -> satisfaction_rate sm = NaN)
  /\ (rows data <> [] ->
      exists rate,
        satisfaction_rate sm = Fin rate
        /\ rate == inject_Z (Z.of_nat (count_at_least 4 (map snd pairs)))
                   / inject_Z (Z.of_nat (length pairs)) * 100
        /\ 0 <= rate <= 100
        /\ (rate == 100
            <-> Forall (fun p => exists z, snd p = Some z /\ (4 <= z)%Z) pairs)).
Proof.
  unfold analyze_customer_satisfaction.
  destruct (has_column "review_score" data); [|discriminate].
  cbn [negb]. intros E. injection E as <-. cbv zeta.
  cbn [total_reviews satisfaction_rate].
  split; [reflexivity|]. split.
  - intros ->. reflexivity.
  - intros NE.
    set (pairs := review_data (rows data)).
    assert (length pairs <> O) as N0.
    { unfold pairs, review_data. destruct (rows data) as [|r rs]; [contradiction|].
      discriminate. }
    assert (count_at_least 4 (map snd pairs) <= length pairs)%nat as Le.
    { unfold count_at_least. rewrite <- (length_map snd pairs).
      apply filter_length_le. }
    destruct (percentage_of_part _ _ Le N0) as (rate & Er & Eq & B & Full).
    exists rate. split; [exact Er|]. split; [exact Eq|]. split; [exact B|].
    rewrite Full. unfold count_at_least.
    rewrite <- (length_map snd pairs). rewrite filter_length_all.
    rewrite Forall_map. apply Forall_iff. intros [o [z|]]; cbn [snd].
    + rewrite Z.leb_le. split.
      * intros L. exists z. split; [reflexivity | exact L].
      * intros (z' & E & L). injection E as ->. exact L.
    + split; [discriminate|]. intros (z' & E & _). discriminate.
Qed.

Lemma satisfaction_rate_witness :
  exists sm rate,
    analyze_customer_satisfaction
      (fixture.frame (fixture.line "B" 1 10 2023 1 :: fixture.two_reviews))
    = Available sm
    /\ satisfaction_rate sm = Fin rate
    /\ 0 <= rate <= 100
    /\ rate == 100 / 3
    /\ total_reviews sm = 3%Z.
Proof.
  destruct (analyze_customer_satisfaction
              (fixture.frame (fixture.line "B" 1 10 2023 1 :: fixture.two_reviews)))
    as [msg|sm] eqn:E; [vm_compute in E; discriminate|].
  destruct (satisfaction_rate_bounds _ sm E) as (T & _ & R).
  destruct R as (rate & Er & Eq & B & _); [discriminate|].
  exists sm, rate. split; [reflexivity|]. split; [exact Er|]. split; [exact B|].
  split.
  - rewrite Eq. vm_compute. reflexivity.
  - rewrite T. vm_compute. reflexivity.
Defined.

(** X14.  [score_distribution] maps every score to the number of distinct
    (order, score) pairs that carry it, and holds no score that no pair
    carries; the pairs without a score appear in [total_reviews] only. *)
Theorem score_distribution_counts (data : DataFrame) (sm : SatisfactionMetrics) :
  analyze_customer_satisfaction data = Available sm ->
  let scores := map snd (review_data (rows data)) in
  (forall z, score_distribution sm !! z
             = match pd.occurrences (Some z) scores with
               | O => None
               | n => Some n
               end)
  /\ (forall z, score_distribution sm !! z = None
                <-> forall r, In r (rows data) -> review_score r <> Some z)
  /\ total_reviews sm
     = Z.of_nat (length (pd.dropna scores) + pd.occurrences None scores).
Proof.
  unfold analyze_customer_satisfaction.
  destruct (has_column "review_score" data); [|discriminate].
  cbn [negb]. intros E. injection E as <-. cbv zeta.
  cbn [score_distribution total_reviews].
  set (scores := map snd (review_data (rows data))).
  assert (forall z, pd.to_dict
                      (pd.sort_by (fun a b => key_leb (fst a) (fst b))
                                  (pd.value_counts (pd.dropna scores))) !! z
                    = match pd.occurrences (Some z) scores with
                      | O => None
                      | n => Some n
                      end) as Lookup.
  { intros z. rewrite to_dict_sorted_counts, to_dict_value_counts,
      occurrences_dropna. reflexivity. }
  split; [exact Lookup|]. split.
  - intros z. rewrite Lookup.
    assert (In (Some z) scores <-> exists r, In r (rows data) /\ review_score r = Some z)
      as InS.
    { unfold scores, review_data. rewrite in_map_iff. split.
      - intros ([o s] & Es & I). cbn in Es. subst s.
        apply unique_In, in_map_iff in I. destruct I as (r & Er & I).
        injection Er as _ Er. now exists r.
      - intros (r & I & Er). exists (order_id r, Some z). split; [reflexivity|].
        apply unique_In, in_map_iff. exists r. rewrite Er. now split. }
    pose proof (occurrences_pos (Some z) scores) as Pos.
    destruct (pd.occurrences (Some z) scores) as [|n] eqn:O.
    + split; [|reflexivity]. intros _ r I Er.
      assert (0 < 0)%nat; [|lia]. apply Pos, InS. now exists r.
    + split; [discriminate|]. intros None.
      assert (In (Some z) scores) as I by (apply Pos; lia).
      apply InS in I. destruct I as (r & I & Er). destruct (None r I Er).
  - f_equal. rewrite <- (length_map snd (review_data (rows data))). fold scores.
    clear. induction scores as [|[z|] l IH]; [reflexivity| |];
      cbn [pd.dropna length]; rewrite occurrences_cons.
    + rewrite bool_decide_eq_false_2 by discriminate. lia.
    + rewrite bool_decide_eq_true_2 by reflexivity. lia.
Qed.

Lemma score_distribution_witness :
  exists sm,
    analyze_customer_satisfaction
      (fixture.frame (fixture.line "B" 1 10 2023 1 :: fixture.two_reviews))
    = Available sm
    /\ score_distribution sm !! 5%Z = Some 1%nat
    /\ score_distribution sm !! 4%Z = None
    /\ total_reviews sm = 3%Z.
Proof.
  destruct (analyze_customer_satisfaction
              (fixture.frame (fixture.line "B" 1 10 2023 1 :: fixture.two_reviews)))
    as [msg|sm] eqn:E; [vm_compute in E; discriminate|].
  destruct (score_distribution_counts _ sm E) as (Lookup & _ & T).
  exists sm. split; [reflexivity|]. split; [|split].
  - rewrite Lookup. vm_compute. reflexivity.
  - rewrite Lookup. vm_compute. reflexivity.
  - rewrite T. vm_compute. reflexivity.
Defined.

(** X15.  The average and the median score skip the rows without a score.
    When some row has one and every score lies between two bounds (1 and 5 in
    the data), both are numbers between these bounds; when no row has a score
    both are NaN. *)
Theorem scores_stay_in_range (data : DataFrame) (sm : SatisfactionMetrics)
    (lo hi : Z) :
  analyze_customer_satisfaction data = Available sm ->
  (forall r z, In r (rows data) -> review_score r = Some z -> (lo <= z <= hi)%Z) ->
  ((exists r, In r (rows data) /\ review_score r <> None) ->
   exists mu med,
     average_score sm = Fin mu /\ median_score sm = Fin med
     /\ inject_Z lo <= mu <= inject_Z hi
     /\ inject_Z lo <= med <= inject_Z hi)
  /\ ((forall r, In r (rows data) -> review_score r = None) ->
      average_score sm = NaN /\ median_score sm = NaN).
Proof.
  unfold analyze_customer_satisfaction.
  destruct (has_column "review_score" data); [|discriminate].
  cbn [negb]. intros E Range. injection E as <-.
  cbn [average_score median_score].
  set (scores := map snd (review_data (rows data))).
  assert (forall o, In o scores <-> exists r, In r (rows data) /\ review_score r = o)
    as InS.
  { intros o. unfold scores, review_data. rewrite in_map_iff. split.
    - intros ([i s] & Es & I). cbn in Es. subst s.
      apply unique_In, in_map_iff in I. destruct I as (r & Er & I).
      injection Er as _ Er. now exists r.
    - intros (r & I & Er). exists (order_id r, o). split; [reflexivity|].
      apply unique_In, in_map_iff. exists r. rewrite Er. now split. }
  split.
  - intros (r & I & Some_).
    rewrite mean_opt_float, median_opt_float.
    set (qs := map inject_Z (pd.dropna scores)).
    assert (qs <> []) as NE.
    { destruct (review_score r) as [z|] eqn:Er; [|contradiction].
      assert (In z (pd.dropna scores)) as Iz.
      { apply dropna_In, InS. now exists r. }
      unfold qs. destruct (pd.dropna scores); [destruct Iz | discriminate]. }
    assert (Forall (fun q => inject_Z lo <= q <= inject_Z hi) qs) as F.
    { apply Forall_forall. intros q Iq. apply in_map_iff in Iq.
      destruct Iq as (z & <- & Iz). apply dropna_In, InS in Iz.
      destruct Iz as (r' & I' & Er'). rewrite <- !Zle_Qle.
      exact (Range r' z I' Er'). }
    destruct (mean_bounds _ _ qs NE F) as (mu & Emu & Bmu).
    destruct (median_bounds _ _ qs NE F) as (med & Emed & Bmed).
    exists mu, med. repeat split; try assumption; tauto.
  - intros AllNone. apply mean_of_nothing.
    destruct (pd.dropna scores) as [|z l] eqn:D; [reflexivity|].
    assert (In z (pd.dropna scores)) as Iz by (rewrite D; left; reflexivity).
    apply dropna_In, InS in Iz. destruct Iz as (r & I & Er).
    rewrite (AllNone r I) in Er. discriminate.
Qed.

Lemma scores_witness :
  exists sm mu med,
    analyze_customer_satisfaction (fixture.frame fixture.scenario) = Available sm
    /\ average_score sm = Fin mu /\ median_score sm = Fin med
    /\ 1 <= mu <= 5 /\ 1 <= med <= 5.
Proof.
  destruct (analyze_customer_satisfaction (fixture.frame fixture.scenario))
    as [msg|sm] eqn:E; [vm_compute in E; discriminate|].
  destruct (scores_stay_in_range _ sm 1 5 E) as [Some_ _].
  { intros r z I Er. vm_compute in I.
    destruct I as [<-|[<-|[<-|[]]]]; injection Er as <-; lia. }
  destruct Some_ as (mu & med & Emu & Emed & Bmu & Bmed).
  { exists (hd (fixture.line "A" 1 1 1 1) fixture.scenario).
    split; [left; reflexivity | discriminate]. }
  exists sm, mu, med. repeat split; try assumption; tauto.
Defined.

(** ** Delivery performance *)

(** X16.  What [analyze_delivery_performance] does is decided by the columns
    of the frame.  Without [delivery_days] it returns the 'not available'
    dictionary.  With [delivery_days] and [review_score] but without
    [delivery_category] it raises [KeyError] (the grouping by
    [delivery_category] is not guarded).  In the other cases it returns its
    metrics; they hold [satisfaction_by_delivery_speed] exactly when the frame
    has [review_score], and an empty [delivery_categories] when it has no
    [delivery_category].  The frame [clean_and_prepare_data] returns has no
    delivery column yet, so on it the analysis is 'not available'. *)
Theorem delivery_analysis_outcome (data : DataFrame) :
  match has_column "delivery_days" data,
        has_column "review_score" data,
        has_column "delivery_category" data with
  | false, _, _ =>
      analyze_delivery_performance data
      = inr (Unavailable "Delivery information not available")
  | true, true, false =>
      analyze_delivery_performance data = inl (KeyError "delivery_category")
  | true, reviewed, categorized =>
      exists dm,
        analyze_delivery_performance data = inr (Available dm)
        /\ (satisfaction_by_delivery_speed dm <> None <-> reviewed = true)
        /\ (categorized = false -> delivery_categories dm = ∅)
  end
  /\ (forall parse datasets,
        data_loader.clean_and_prepare_data parse datasets = inr data ->
        analyze_delivery_performance data
        = inr (Unavailable "Delivery information not available")).
Proof.
  split.
  2:{ intros parse datasets E.
      destruct (tables_of_load parse datasets data E)
        as (os & ois & ps & cs & rvs & Eo & Ei & Ep & Ec & Er).
      rewrite (clean_and_prepare_data_inr parse datasets os ois ps cs rvs data
                 Eo Ei Ep Ec Er E).
      reflexivity. }
  unfold analyze_delivery_performance.
  destruct (has_column "delivery_days" data); [|reflexivity].
  destruct (has_column "review_score" data),
           (has_column "delivery_category" data);
    cbn [negb]; unfold mbind, result_bind, mret, result_ret;
    try reflexivity;
    (eexists; split; [reflexivity|]; cbn [satisfaction_by_delivery_speed
       delivery_categories]; split; [|try reflexivity; discriminate]).
  - split; [reflexivity | discriminate].
  - split; [intros N; now destruct N | discriminate].
  - split; [intros N; now destruct N | discriminate].
Qed.

Lemma delivery_analysis_witness :
  analyze_delivery_performance
    (mkFrame (data_loader.sales_columns ++ ["delivery_days"]) fixture.scenario)
  = inl (KeyError "delivery_category")
  /\ analyze_delivery_performance (mkFrame data_loader.sales_columns fixture.scenario)
     = inr (Unavailable "Delivery information not available").
Proof.
  split.
  - exact (proj1 (delivery_analysis_outcome
                    (mkFrame (data_loader.sales_columns ++ ["delivery_days"])
                             fixture.scenario))).
  - exact (proj1 (delivery_analysis_outcome
                    (mkFrame data_loader.sales_columns fixture.scenario))).
Defined.

Lemma delivered_frame_columns (sales_data : DataFrame) :
  has_column "delivery_days" (data_loader.filter_delivered_orders sales_data) = true
  /\ has_column "delivery_category" (data_loader.filter_delivered_orders sales_data)
     = true.
Proof.
  unfold data_loader.filter_delivered_orders, select. cbn [rows columns].
  split; rewrite has_column_app; cbn; apply orb_true_r.
Qed.

(** A delivered row with a delivery time has one of the three buckets. *)
Lemma delivered_row_bucket (sales_data : DataFrame) (r : Row) :
  In r (rows (data_loader.filter_delivered_orders sales_data)) ->
  delivery_days r <> None ->
  exists label,
    delivery_category r = Some label
    /\ In label ["1-3 days"; "4-7 days"; "8+ days"].
Proof.
  unfold data_loader.filter_delivered_orders, select. cbn [rows].
  intros I D. apply in_map_iff in I. destruct I as (r0 & <- & _).
  cbn in D |- *.
  destruct (data_loader.days_between _ _) as [d|]; [|contradiction].
  eexists. split; [reflexivity|]. cbn.
  destruct (d <=? 3)%Z; [tauto|]. destruct (d <=? 7)%Z; tauto.
Qed.

(** X17.  On the frame [filter_delivered_orders] returns,
    [analyze_delivery_performance] always returns its metrics, and the bucket
    'Unknown' shows in none of them: the rows without a delivery time are
    dropped before the buckets are counted, and these are the only rows the
    filter labels 'Unknown'.  Only the three other buckets can have a
    count. *)
Theorem delivered_frame_has_no_unknown_bucket (sales_data : DataFrame) :
  exists dm,
    analyze_delivery_performance (data_loader.filter_delivered_orders sales_data)
    = inr (Available dm)
    /\ delivery_categories dm !! "Unknown" = None
    /\ (forall label,
          delivery_categories dm !! label <> None ->
          In label ["1-3 days"; "4-7 days"; "8+ days"])
    /\ (forall speeds,
          satisfaction_by_delivery_speed dm = Some speeds ->
          speeds !! "Unknown" = None).
Proof.
  destruct (delivered_frame_columns sales_data) as [Hd Hc].
  unfold analyze_delivery_performance in *. rewrite Hd, Hc in *. cbn [negb] in *.
  set (delivered := data_loader.filter_delivered_orders sales_data) in *.
  set (delivery_data :=
         List.filter (fun r => bool_decide (delivery_days r <> None)) (rows delivered))
    in *.
  assert (forall label,
            In label (pd.dropna (map delivery_category delivery_data)) ->
            In label ["1-3 days"; "4-7 days"; "8+ days"]) as Labels.
  { intros label I. apply dropna_In, in_map_iff in I. destruct I as (r & E & I).
    apply filter_In in I. destruct I as [I D]. apply bool_decide_eq_true_1 in D.
    destruct (delivered_row_bucket sales_data r I D) as (label' & E' & L).
    rewrite E in E'. injection E' as ->. exact L. }
  assert (forall label,
            pd.to_dict (pd.value_counts (pd.dropna (map delivery_category delivery_data)))
            !! label <> None ->
            In label ["1-3 days"; "4-7 days"; "8+ days"]) as Counted.
  { intros label. rewrite to_dict_value_counts.
    pose proof (occurrences_pos label
                  (pd.dropna (map delivery_category delivery_data))) as Pos.
    destruct (pd.occurrences label _); [intros N; now destruct N|].
    intros _. apply Labels, Pos. lia. }
  assert (pd.to_dict (pd.value_counts (pd.dropna (map delivery_category delivery_data)))
          !! "Unknown" = None) as NoUnknown.
  { destruct (pd.to_dict _ !! "Unknown") eqn:L; [|reflexivity].
    assert (In "Unknown" ["1-3 days"; "4-7 days"; "8+ days"]) as I.
    { apply Counted. rewrite L. discriminate. }
    cbn in I. intuition discriminate. }
  destruct (has_column "review_score" delivered);
    unfold mbind, result_bind, mret, result_ret;
    eexists; (split; [reflexivity|]);
    cbn [delivery_categories satisfaction_by_delivery_speed];
    (split; [exact NoUnknown|]); (split; [exact Counted|]);
    intros speeds E; [|discriminate].
  injection E as <-. unfold pd.to_dict.
  apply not_elem_of_list_to_map_1. rewrite list_elem_of_In.
  change (~ In "Unknown"
            (map fst (map (fun g => (fst g, pd.mean (review_score_col (snd g))))
                          (pd.groupby delivery_category delivery_data)))).
  rewrite map_map. unfold pd.groupby. rewrite map_map. cbn [fst]. rewrite map_id.
  intros I. apply group_keys_In in I. destruct I as (r & I & E).
  assert (In "Unknown" ["1-3 days"; "4-7 days"; "8+ days"]) as Bad.
  { apply Labels. apply dropna_In, in_map_iff. now exists r. }
  cbn in Bad. intuition discriminate.
Qed.

Lemma delivered_frame_witness :
  exists sales_data dm,
    data_loader.clean_and_prepare_data fixture.iso_parse
      fixture.raw_with_missing_timestamp = inr sales_data
    /\ analyze_delivery_performance (data_loader.filter_delivered_orders sales_data)
       = inr (Available dm)
    /\ delivery_categories dm !! "Unknown" = None
    /\ map delivery_category (rows (data_loader.filter_delivered_orders sales_data))
       = [Some "1-3 days"; Some "Unknown"].
Proof.
  destruct (data_loader.clean_and_prepare_data fixture.iso_parse
              fixture.raw_with_missing_timestamp) as [e|sales_data] eqn:E;
    [vm_compute in E; discriminate|].
  destruct (delivered_frame_has_no_unknown_bucket sales_data)
    as (dm & Ed & NoUnknown & _).
  exists sales_data, dm. split; [reflexivity|]. split; [exact Ed|].
  split; [exact NoUnknown|].
  vm_compute in E. injection E as <-. vm_compute. reflexivity.
Defined.

(** X18.  [on_time_percentage] is taken over the line items that have a
    delivery time: with none of them it is NaN (0/0), and so is the average;
    otherwise it is a number between 0 and 100, the share of these line items
    delivered within 7 days (a negative delivery time counts as on time), and
    it is 100 exactly when all of them were. *)
Theorem on_time_percentage_bounds (data : DataFrame) (dm : DeliveryMetrics) :
  analyze_delivery_performance data = inr (Available dm) ->
  let timed :=
    List.filter (fun r => bool_decide (delivery_days r <> None)) (rows data) in
  (timed = [] -> on_time_percentage dm = NaN /\ average_delivery_days dm = NaN)
  /\ (timed <> [] ->
      exists pct,
        on_time_percentage dm = Fin pct
        /\ pct == inject_Z (Z.of_nat (count_at_most 7 (map delivery_days timed)))
                  / inject_Z (Z.of_nat (length timed)) * 100
        /\ 0 <= pct <= 100
        /\ (pct == 100
            <-> Forall (fun r => exists d, delivery_days r = Some d /\ (d <= 7)%Z)
                       timed)).
Proof.
  unfold analyze_delivery_performance.
  destruct (has_column "delivery_days" data); [|discriminate].
  cbn [negb].
  set (timed := List.filter (fun r => bool_decide (delivery_days r <> None))
                            (rows data)).
  unfold mbind, result_bind, mret, result_ret.
  intros E.
  assert (on_time_percentage dm
          = (of_nat (count_at_most 7 (map delivery_days timed))
             / of_nat (length timed) * Fin 100)%float
          /\ average_delivery_days dm = pd.mean (delivery_days_col timed)) as [-> ->].
  { destruct (has_column "review_score" data);
      [destruct (has_column "delivery_category" data); [|discriminate]|];
      injection E as <-; split; reflexivity. }
  clear E. cbv zeta. split.
  - intros ->. split; reflexivity.
  - intros NE.
    assert (length timed <> O) as N0 by (destruct timed; [contradiction|discriminate]).
    assert (count_at_most 7 (map delivery_days timed) <= length timed)%nat as Le.
    { unfold count_at_most. rewrite <- (length_map delivery_days timed).
      apply filter_length_le. }
    destruct (percentage_of_part _ _ Le N0) as (pct & Ep & Eq & B & Full).
    exists pct. split; [exact Ep|]. split; [exact Eq|]. split; [exact B|].
    rewrite Full. unfold count_at_most.
    rewrite <- (length_map delivery_days timed). rewrite filter_length_all.
    rewrite Forall_map. apply Forall_iff. intros r.
    destruct (delivery_days r) as [d|].
    + rewrite Z.leb_le. split.
      * intros L. exists d. split; [reflexivity | exact L].
      * intros (d' & E & L). injection E as ->. exact L.
    + split; [discriminate|]. intros (d' & E & _). discriminate.
Qed.

Lemma on_time_percentage_witness :
  exists dm pct,
    analyze_delivery_performance (fixture.frame fixture.scenario)
    = inr (Available dm)
    /\ on_time_percentage dm = Fin pct
    /\ 0 <= pct <= 100
    /\ pct == 200 / 3.
Proof.
  destruct (analyze_delivery_performance (fixture.frame fixture.scenario))
    as [e|[msg|dm]] eqn:E;
    [vm_compute in E; discriminate | vm_compute in E; discriminate |].
  destruct (on_time_percentage_bounds _ dm E) as (_ & T).
  destruct T as (pct & Ep & Eq & B & _); [discriminate|].
  exists dm, pct. split; [reflexivity|]. split; [exact Ep|]. split; [exact B|].
  rewrite Eq. vm_compute. reflexivity.
Defined.

(** ** Completion rate *)

(** X19.  [completion_rate] is the percentage of line items whose status is
    'delivered', rounded to two decimals, and 0 when there is none (also when
    the frame has no row).  It is 100 when every row is delivered: on the
    frame [filter_delivered_orders] returns it is 100 as soon as there is a
    row. *)
Theorem completion_rate_value (data : DataFrame) :
  let m := calculate_order_status_metrics data in
  let delivered := pd.occurrences "delivered" (map order_status (rows data)) in
  (delivered = O -> completion_rate m = Fin 0)
  /\ (delivered <> O ->
      completion_rate m
      = Fin (Qround2 (inject_Z (Z.of_nat delivered)
                      / inject_Z (Z.of_nat (length (rows data))) * 100)))
  /\ (rows data <> [] ->
      Forall (fun r => order_status r = "delivered") (rows data) ->
      completion_rate m =f= Fin 100)
  /\ (rows (data_loader.filter_delivered_orders data) <> [] ->
      completion_rate
        (calculate_order_status_metrics (data_loader.filter_delivered_orders data))
      =f= Fin 100).
Proof.
  assert (forall d : DataFrame,
            let n := pd.occurrences "delivered" (map order_status (rows d)) in
            (n = O -> completion_rate (calculate_order_status_metrics d) = Fin 0)
            /\ (n <> O ->
                completion_rate (calculate_order_status_metrics d)
                = Fin (Qround2 (inject_Z (Z.of_nat n)
                                / inject_Z (Z.of_nat (length (rows d))) * 100))))
    as Value.
  { intros d. cbv zeta. unfold calculate_order_status_metrics.
    cbn [completion_rate]. unfold status_value_counts.
    rewrite counts_sum_value_counts, length_map.
    rewrite (to_dict_map_values
               (fun c => round2 (of_nat c / of_nat (length (rows d)) * Fin 100)%float)).
    rewrite lookup_fmap, to_dict_value_counts.
    pose proof (occurrences_pos "delivered" (map order_status (rows d))) as Pos.
    destruct (pd.occurrences "delivered" (map order_status (rows d))) as [|n] eqn:Occ0.
    - split; [reflexivity | intros N; now destruct N].
    - split; [discriminate|]. intros _. cbn [fmap option_fmap option_map default].
      assert (length (rows d) <> O) as N0.
      { assert (In "delivered" (map order_status (rows d))) as I by (apply Pos; lia).
        destruct (rows d); [destruct I | discriminate]. }
      unfold of_nat. rewrite fdiv_Fin by (apply inject_nat_nonzero; exact N0).
      reflexivity. }
  assert (forall d : DataFrame,
            rows d <> [] -> Forall (fun r => order_status r = "delivered") (rows d) ->
            completion_rate (calculate_order_status_metrics d) =f= Fin 100) as Full.
  { intros d NE All.
    assert (pd.occurrences "delivered" (map order_status (rows d)) = length (rows d))
      as Occ.
    { unfold pd.occurrences. rewrite <- (length_map order_status (rows d)).
      apply filter_length_all. rewrite Forall_map.
      eapply Forall_impl; [|exact All]. intros r E.
      apply bool_decide_eq_true_2. exact E. }
    destruct (Value d) as [_ V]. rewrite V, Occ.
    - assert (inject_Z (Z.of_nat (length (rows d)))
              / inject_Z (Z.of_nat (length (rows d))) * 100 == 100) as Eq.
      { field. apply inject_nat_nonzero. destruct (rows d); [contradiction|discriminate]. }
      rewrite (Qround2_comp _ _ Eq). vm_compute. reflexivity.
    - rewrite Occ. destruct (rows d); [contradiction|discriminate]. }
  cbv zeta. destruct (Value data) as [V0 V1].
  split; [exact V0|]. split; [exact V1|]. split; [apply Full|].
  intros NE. apply Full; [exact NE|].
  unfold data_loader.filter_delivered_orders, select. cbn [rows].
  apply Forall_forall. intros r I. apply in_map_iff in I.
  destruct I as (r0 & <- & I). apply filter_In in I. destruct I as [_ D].
  apply String.eqb_eq in D. exact D.
Qed.

Lemma completion_rate_witness :
  completion_rate
    (calculate_order_status_metrics
       (data_loader.filter_delivered_orders (fixture.frame fixture.scenario)))
  =f= Fin 100
  /\ completion_rate (calculate_order_status_metrics (fixture.frame [])) = Fin 0.
Proof.
  destruct (completion_rate_value (fixture.frame fixture.scenario))
    as (_ & _ & _ & Full).
  destruct (completion_rate_value (fixture.frame [])) as (Zero & _).
  split; [apply Full; vm_compute; discriminate | apply Zero; reflexivity].
Defined.

(** ** Outcomes *)

Lemma apply_filter_outcome (items : period_filter) (d : DataFrame) :
  match List.find (fun kv => negb (has_column (fst kv) d)) items with
  | Some kv => apply_filter items d = inl (KeyError (fst kv))
  | None => exists d', apply_filter items d = inr d' /\ columns d' = columns d
  end.
Proof.
  revert d. induction items as [|[key value] items IH]; intros d.
  - cbn. exists d. split; reflexivity.
  - cbn [List.find apply_filter fst].
    destruct (has_column key d) eqn:Hk; cbn [negb]; [|reflexivity].
    specialize (IH (select (fun r => bool_decide (int_cell key r = Some value)) d)).
    change (fun kv : string * Z =>
              negb (has_column (fst kv)
                      (select (fun r => bool_decide (int_cell key r = Some value)) d)))
      with (fun kv : string * Z => negb (has_column (fst kv) d)) in IH.
    destruct (List.find (fun kv => negb (has_column (fst kv) d)) items) as [kv|].
    + exact IH.
    + destruct IH as (d' & E & C). exists d'. split; [exact E|]. exact C.
Qed.

Lemma filter_period_outcome (filter : option period_filter)
    (data otherwise : DataFrame) :
  match missing_column filter data with
  | Some key => filter_period filter data otherwise = inl (KeyError key)
  | None => exists d, filter_period filter data otherwise = inr d
  end.
Proof.
  destruct filter as [[|i items]|]; cbn [missing_column filter_period];
    try (cbn; eexists; reflexivity).
  pose proof (apply_filter_outcome (i :: items) data) as O.
  destruct (List.find _ (i :: items)) as [kv|]; cbn [fmap option_fmap option_map].
  - exact O.
  - destruct O as (d & E & _). exists d. exact E.
Qed.



Section ReportOutcome.
Context {kind : SortKind}.

Lemma no_key_spec (key : Row -> option string) (rs : list Row) :
  no_key key rs = true <-> forall r, In r rs -> key r = None.
Proof.
  unfold no_key. rewrite forallb_forall. split; intros N r I.
  - exact (bool_decide_eq_true_1 _ (N r I)).
  - apply bool_decide_eq_true_2. apply N. exact I.
Qed.

(** The table of an analyzer is empty exactly when no row has a key. *)
Lemma groups_nil (key : Row -> option string) (distinct : Row -> string)
    (rs : list Row) :
  with_revenue_share (group_agg key distinct rs) = [] <-> no_key key rs = true.
Proof.
  rewrite no_key_spec.
  pose proof (groups_length key distinct rs) as L.
  split.
  - intros E r I. rewrite E in L. cbn [length] in L.
    destruct (key r) as [k|] eqn:Ek; [|reflexivity].
    assert (In k (distinct_keys key rs)) as Ik.
    { apply nodup_In, dropna_In, in_map_iff. now exists r. }
    destruct (distinct_keys key rs); [destruct Ik | discriminate].
  - intros N.
    assert (distinct_keys key rs = []) as D.
    { destruct (distinct_keys key rs) as [|k ks] eqn:D; [reflexivity|].
      assert (In k (distinct_keys key rs)) as Ik by (rewrite D; left; reflexivity).
      apply nodup_In, dropna_In, in_map_iff in Ik. destruct Ik as (r & Ek & I).
      rewrite (N r I) in Ek. discriminate. }
    rewrite D in L. destruct (with_revenue_share _); [reflexivity | discriminate].
Qed.

Lemma product_analysis_outcome (data : DataFrame) :
  if negb (has_column "product_category_name" data)
  then exists msg, analyze_product_performance data = inr (Unavailable msg)
  else if no_key product_category_name (rows data)
       then analyze_product_performance data = inl IndexError
       else exists pp, analyze_product_performance data = inr (Available pp).
Proof.
  unfold analyze_product_performance.
  destruct (has_column "product_category_name" data); cbn [negb];
    [|eexists; reflexivity].
  pose proof (groups_nil product_category_name product_id (rows data)) as Nil.
  destruct (no_key product_category_name (rows data)).
  - rewrite (proj2 Nil eq_refl). reflexivity.
  - destruct (with_revenue_share _) as [|g rest].
    + destruct Nil as [Nil _]. discriminate (Nil eq_refl).
    + cbn. eexists. reflexivity.
Qed.

Lemma geographic_analysis_outcome (data : DataFrame) :
  if negb (has_column "customer_state" data)
  then exists msg, analyze_geographic_performance data = inr (Unavailable msg)
  else if no_key customer_state (rows data)
       then analyze_geographic_performance data = inl IndexError
       else exists gp, analyze_geographic_performance data = inr (Available gp).
Proof.
  unfold analyze_geographic_performance.
  destruct (has_column "customer_state" data); cbn [negb];
    [|eexists; reflexivity].
  pose proof (groups_nil customer_state customer_id (rows data)) as Nil.
  destruct (no_key customer_state (rows data)).
  - rewrite (proj2 Nil eq_refl). reflexivity.
  - destruct (with_revenue_share _) as [|g rest].
    + destruct Nil as [Nil _]. discriminate (Nil eq_refl).
    + cbn. eexists. reflexivity.
Qed.

Lemma delivery_analysis_returns (data : DataFrame) :
  if has_column "delivery_days" data && has_column "review_score" data
     && negb (has_column "delivery_category" data)
  then analyze_delivery_performance data = inl (KeyError "delivery_category")
  else exists a, analyze_delivery_performance data = inr a.
Proof.
  unfold analyze_delivery_performance.
  destruct (has_column "delivery_days" data); cbn [negb andb];
    [|eexists; reflexivity].
  destruct (has_column "review_score" data),
           (has_column "delivery_category" data);
    cbn [negb andb]; unfold mbind, result_bind, mret, result_ret;
    try reflexivity; eexists; reflexivity.
Qed.


End ReportOutcome.


(** ** Trend indicators *)

Lemma trend_change (current previous : Q) :
  ~ previous == 0 ->
  ((Fin current - Fin previous) / Fin previous * Fin 100)%float
  = Fin ((current + - previous) / previous * 100).
Proof.
  intros NZ. unfold fsub, fneg, fadd. rewrite fdiv_Fin by exact NZ. reflexivity.
Qed.

(** X22.  [calculate_trend_indicator] on two numbers, the previous one not
    zero: the percentage it returns is the absolute value of the relative
    change [(current - previous) / previous * 100], never negative; the arrow
    and the style follow the sign of that change.  For a positive previous
    value the arrow points up exactly when the current value is larger; for a
    negative previous value it points up exactly when the current value is
    smaller.  A previous value of 0 or NaN gives the neutral triple. *)
Theorem trend_indicator_direction (current previous : Q) :
  ~ previous == 0 ->
  let change := (current - previous) / previous * 100 in
  let '(pct, arrow, css) :=
    dashboard_utils.calculate_trend_indicator (Fin current) (Fin previous) in
  pct =f= Fin (Qabs change)
  /\ (0 < change -> arrow = "↗" /\ css = "trend-positive")
  /\ (change < 0 -> arrow = "↘" /\ css = "trend-negative")
  /\ (change == 0 -> arrow = "→" /\ css = "trend-neutral")
  /\ (0 < previous -> (0 < change <-> previous < current))
  /\ (previous < 0 -> (0 < change <-> current < previous))
  /\ (forall x, dashboard_utils.calculate_trend_indicator x (Fin 0)
                = (Fin 0, "→", "trend-neutral"))
  /\ (forall x, dashboard_utils.calculate_trend_indicator x NaN
                = (Fin 0, "→", "trend-neutral")).
Proof.
  intros NZ. cbv zeta.
  assert ((current + - previous) / previous * 100
          == (current - previous) / previous * 100) as Same by reflexivity.
  assert (forall a : Q, 0 < previous -> (0 < a / previous * 100 <-> 0 < a)) as PosP.
  { intros a P. split.
    - intros C. assert (0 < a / previous) as C' by lra.
      assert (a == a / previous * previous) as -> by (field; exact NZ).
      apply Qmult_lt_0_compat; assumption.
    - intros A. assert (0 < a / previous); [|lra].
      apply Qlt_shift_div_l; [exact P|]. lra. }
  assert (forall a : Q, previous < 0 -> (0 < a / previous * 100 <-> a < 0)) as NegP.
  { intros a P.
    assert (a / previous == (- a) / (- previous)) as -> by (field; lra).
    assert (~ - previous == 0) as NZ' by lra.
    split.
    - intros C. assert (0 < - a / - previous) as C' by lra.
      assert (- a == - a / - previous * - previous) as E by (field; lra).
      assert (0 < - a); [|lra]. rewrite E.
      apply Qmult_lt_0_compat; [exact C' | lra].
    - intros A. assert (0 < - a / - previous); [|lra].
      apply Qlt_shift_div_l; lra. }
  unfold dashboard_utils.calculate_trend_indicator.
  rewrite (proj2 (Qeq_bool_false previous 0) NZ).
  rewrite (trend_change current previous NZ).
  set (change := (current + - previous) / previous * 100) in *.
  assert (change == (current - previous) / previous * 100) as Echange by exact Same.
  unfold fgtb.
  destruct (Qltb 0 change) eqn:Up.
  - apply Qltb_lt in Up.
    split; [unfold feq; rewrite <- Echange, Qabs_pos by lra; reflexivity|].
    split; [intros _; split; reflexivity|].
    split; [intros C; lra|]. split; [intros C; lra|].
    split; [intros P; rewrite <- Echange; unfold change;
            rewrite (PosP _ P); split; lra|].
    split; [intros P; rewrite <- Echange; unfold change;
            rewrite (NegP _ P); split; lra|].
    split; reflexivity.
  - apply Qltb_ge in Up. destruct (Qltb change 0) eqn:Down.
    + apply Qltb_lt in Down.
      split; [unfold fsub, fneg, fadd, feq; rewrite <- Echange, Qabs_neg by lra;
              ring|].
      split; [intros C; lra|].
      split; [intros _; split; reflexivity|].
      split; [intros C; lra|].
      split; [intros P; rewrite <- Echange; unfold change;
              rewrite (PosP _ P); split; lra|].
      split; [intros P; rewrite <- Echange; unfold change;
              rewrite (NegP _ P); split; lra|].
      split; reflexivity.
    + apply Qltb_ge in Down.
      assert (change == 0) as Z0 by lra.
      split; [unfold feq; rewrite <- Echange, Z0; reflexivity|].
      split; [intros C; lra|]. split; [intros C; lra|].
      split; [intros _; split; reflexivity|].
      split; [intros P; rewrite <- Echange; unfold change;
              rewrite (PosP _ P); split; lra|].
      split; [intros P; rewrite <- Echange; unfold change;
              rewrite (NegP _ P); split; lra|].
      split; reflexivity.
Qed.

Lemma trend_indicator_witness :
  (let '(pct, arrow, css) :=
     dashboard_utils.calculate_trend_indicator (Fin 90) (Fin 120) in
   pct =f= Fin 25 /\ arrow = "↘" /\ css = "trend-negative")
  /\ (let '(pct, arrow, css) :=
        dashboard_utils.calculate_trend_indicator (Fin (-10)) (Fin (-20)) in
      arrow = "↘").
Proof.
  split.
  - pose proof (trend_indicator_direction 90 120) as T. cbv zeta in T.
    destruct (dashboard_utils.calculate_trend_indicator (Fin 90) (Fin 120))
      as [[pct arrow] css].
    destruct T as (P & _ & Down & _); [discriminate|].
    split; [rewrite P; vm_compute; reflexivity|].
    apply Down. vm_compute. reflexivity.
  - pose proof (trend_indicator_direction (-10) (-20)) as T. cbv zeta in T.
    destruct (dashboard_utils.calculate_trend_indicator (Fin (-10)) (Fin (-20)))
      as [[pct arrow] css].
    destruct T as (_ & _ & Down & _); [discriminate|].
    apply Down. vm_compute. reflexivity.
Defined.

(** ** The satisfaction chart *)

Lemma first_per_order_In (r : Row) (rs : list Row) :
  In r (dashboard_utils.first_per_order rs) -> In r rs.
Proof.
  induction rs as [|r0 rs IH]; [intros []|].
  cbn [dashboard_utils.first_per_order]. intros [<-|I]; [left; reflexivity|].
  right. apply IH. apply filter_In in I. exact (proj1 I).
Qed.

(** Among distinct labels, the ones equal to [b]: [b] itself if it is there. *)
Lemma filter_eqb_NoDup (b : string) (l : list string) :
  NoDup l ->
  List.filter (fun x => String.eqb x b) l
  = if existsb (fun x => String.eqb x b) l then [b] else [].
Proof.
  induction l as [|x l IH]; intros N; [reflexivity|].
  apply NoDup_cons_iff in N. destruct N as [NI N].
  cbn [List.filter existsb]. destruct (String.eqb_spec x b) as [->|Ne]; cbn [orb].
  - rewrite (filter_none (fun x => String.eqb x b) l); [reflexivity|].
    intros y I. apply String.eqb_neq. intros ->. contradiction.
  - exact (IH N).
Qed.

Lemma existsb_map {A B} (f : A -> B) (p : B -> bool) (l : list A) :
  existsb p (map f l) = existsb (fun a => p (f a)) l.
Proof.
  induction l as [|a l IH]; [reflexivity|]. cbn [map existsb]. rewrite IH.
  reflexivity.
Qed.

Lemma existsb_perm {A} (p : A -> bool) (l l' : list A) :
  Permutation l l' -> existsb p l = existsb p l'.
Proof.
  induction 1 as [|x l l' _ IH|x y l|l l' l'' _ IH1 _ IH2];
    cbn [existsb]; [reflexivity | rewrite IH; reflexivity | | congruence].
  destruct (p x), (p y); reflexivity.
Qed.

Lemma existsb_unique {A} `{EqDecision A} (p : A -> bool) (l : list A) :
  existsb p (pd.unique l) = existsb p l.
Proof.
  destruct (existsb p l) eqn:E.
  - apply existsb_exists in E. destruct E as (x & I & Px).
    apply existsb_exists. exists x. split; [apply unique_In; exact I | exact Px].
  - destruct (existsb p (pd.unique l)) eqn:E'; [|reflexivity].
    apply existsb_exists in E'. destruct E' as (x & I & Px).
    apply (proj1 (unique_In _ _)) in I. rewrite <- E. symmetry.
    apply existsb_exists. exists x. split; assumption.
Qed.

(** X23.  The bars of the satisfaction chart are drawn from the first row
    of every order, when it has a delivery time and a score.  There is one bar
    for each of the buckets '1-3 days', '4-7 days', '8-14 days' and '15+ days'
    that holds such a row, in this order, and never a bar 'Unknown'.  The
    height of a bar is the mean score of its rows: a number, and within any
    bounds that hold for the scores of the data. *)
Theorem satisfaction_chart_buckets (data : DataFrame)
    (bars : list (string * float64)) (lo hi : Z) :
  dashboard_utils.satisfaction_by_delivery data = Some bars ->
  (forall r z, In r (rows data) -> review_score r = Some z -> (lo <= z <= hi)%Z) ->
  let rated :=
    List.filter (fun r => bool_decide (delivery_days r <> None)
                          && bool_decide (review_score r <> None))
                (dashboard_utils.first_per_order (rows data)) in
  let bucket r := dashboard_utils.categorize_delivery_time (delivery_days r) in
  map fst bars
  = List.filter (fun b => existsb (fun r => String.eqb (bucket r) b) rated)
                ["1-3 days"; "4-7 days"; "8-14 days"; "15+ days"]
  /\ ~ In "Unknown" (map fst bars)
  /\ Forall (fun bar =>
               exists q,
                 snd bar = Fin q
                 /\ inject_Z lo <= q <= inject_Z hi
                 /\ snd bar
                    = pd.mean (review_score_col
                                 (List.filter (fun r => String.eqb (bucket r) (fst bar))
                                              rated)))
            bars.
Proof.
  unfold dashboard_utils.satisfaction_by_delivery.
  destruct (negb (has_column "review_score" data)
            || negb (has_column "delivery_days" data)); [discriminate|].
  intros E Range. cbv zeta in E. apply (inj Some) in E. subst bars. cbv zeta.
  set (rated := List.filter (fun r => bool_decide (delivery_days r <> None)
                                      && bool_decide (review_score r <> None))
                            (dashboard_utils.first_per_order (rows data))).
  set (bucket := fun r => dashboard_utils.categorize_delivery_time (delivery_days r)).
  set (height := fun b =>
                   pd.mean (review_score_col
                              (List.filter (fun r => String.eqb (bucket r) b) rated))).
  set (keys := pd.sort_by String.leb (pd.unique (map bucket rated))).
  set (has := fun b => existsb (fun r => String.eqb (bucket r) b) rated).
  assert (NoDup keys) as N.
  { eapply Permutation_NoDup; [symmetry; apply sort_by_perm | apply unique_NoDup]. }
  assert (forall b, existsb (fun x => String.eqb x b) keys = has b) as Has.
  { intros b. unfold keys, has.
    rewrite (existsb_perm _ _ _ (sort_by_perm String.leb _)).
    rewrite existsb_unique, existsb_map. reflexivity. }
  assert (forall b, List.filter (fun m : string * float64 => String.eqb (fst m) b)
                                (map (fun b => (b, height b)) keys)
                    = if has b then [(b, height b)] else []) as Bar.
  { intros b. rewrite <- Has.
    assert (forall l : list string,
              List.filter (fun m : string * float64 => String.eqb (fst m) b)
                          (map (fun b => (b, height b)) l)
              = map (fun b => (b, height b))
                    (List.filter (fun x => String.eqb x b) l)) as Comm.
    { induction l as [|k l IH]; [reflexivity|].
      cbn [map List.filter fst]. destruct (String.eqb k b); cbn [map];
        rewrite IH; reflexivity. }
    rewrite Comm, (filter_eqb_NoDup b keys N).
    destruct (existsb (fun x => String.eqb x b) keys); reflexivity. }
  assert (has "Unknown" = false) as NoUnknown.
  { unfold has. destruct (existsb _ rated) eqn:Ex; [|reflexivity].
    apply existsb_exists in Ex. destruct Ex as (r & I & Eb).
    apply filter_In in I. destruct I as [_ D]. apply andb_true_iff in D.
    destruct D as [D _]. apply bool_decide_eq_true_1 in D.
    unfold bucket in Eb. destruct (delivery_days r) as [d|]; [|contradiction].
    cbn in Eb. destruct (d <=? 3)%Z; [discriminate|].
    destruct (d <=? 7)%Z; [discriminate|]. destruct (d <=? 14)%Z; discriminate. }
  unfold dashboard_utils.bucket_order. cbn [flat_map].
  rewrite !Bar, NoUnknown, !app_nil_r.
  assert (forall b, has b = true ->
            exists q, height b = Fin q /\ inject_Z lo <= q <= inject_Z hi) as Height.
  { intros b Hb. unfold has in Hb. apply existsb_exists in Hb.
    destruct Hb as (r & I & Eb). unfold height.
    set (group := List.filter (fun r => String.eqb (bucket r) b) rated).
    assert (In r group) as Ig by (apply filter_In; split; assumption).
    assert (forall x, In x group ->
              exists z, review_score x = Some z /\ (lo <= z <= hi)%Z) as Scored.
    { intros x Ix. apply filter_In in Ix. destruct Ix as [Ix _].
      apply filter_In in Ix. destruct Ix as [Ix D].
      apply andb_true_iff in D. destruct D as [_ D].
      apply bool_decide_eq_true_1 in D.
      destruct (review_score x) as [z|] eqn:Ez; [|contradiction].
      exists z. split; [reflexivity|].
      apply (Range x z); [apply first_per_order_In; exact Ix | exact Ez]. }
    unfold review_score_col. rewrite <- (map_map review_score opt_float).
    rewrite mean_opt_float.
    apply mean_bounds.
    - destruct (Scored r Ig) as (z & Ez & _).
      assert (In z (pd.dropna (map review_score group))) as Iz.
      { apply dropna_In, in_map_iff. now exists r. }
      destruct (pd.dropna (map review_score group)); [destruct Iz | discriminate].
    - apply Forall_forall. intros q Iq. apply in_map_iff in Iq.
      destruct Iq as (z & <- & Iz). apply dropna_In, in_map_iff in Iz.
      destruct Iz as (x & Ex & Ix). destruct (Scored x Ix) as (z' & Ez' & B).
      rewrite Ex in Ez'. injection Ez' as ->. rewrite <- !Zle_Qle. exact B. }
  assert (forall b,
            existsb (fun r => String.eqb (dashboard_utils.categorize_delivery_time
                                            (delivery_days r)) b) rated
            = has b) as Unfold by reflexivity.
  clearbody has.
  split; [|split].
  - cbn [List.filter]. rewrite !Unfold.
    destruct (has "1-3 days"), (has "4-7 days"), (has "8-14 days"),
             (has "15+ days"); reflexivity.
  - destruct (has "1-3 days"), (has "4-7 days"), (has "8-14 days"),
             (has "15+ days"); cbn; intuition discriminate.
  - repeat rewrite Forall_app.
    assert (forall b, Forall (fun bar : string * float64 =>
                        exists q, snd bar = Fin q
                                  /\ inject_Z lo <= q <= inject_Z hi
                                  /\ snd bar = height (fst bar))
                      (if has b then [(b, height b)] else [])) as One.
    { intros b. destruct (has b) eqn:Hb; constructor; [|constructor].
      destruct (Height b Hb) as (q & Eq & B). exists q. cbn [snd fst].
      split; [exact Eq|]. split; [exact B | reflexivity]. }
    repeat split; apply One.
Qed.

Lemma satisfaction_chart_witness :
  exists bars,
    dashboard_utils.satisfaction_by_delivery (fixture.frame fixture.scenario)
    = Some bars
    /\ map fst bars = ["1-3 days"; "8-14 days"]
    /\ Forall (fun bar => exists q, snd bar = Fin q /\ 1 <= q <= 5) bars.
Proof.
  destruct (dashboard_utils.satisfaction_by_delivery (fixture.frame fixture.scenario))
    as [bars|] eqn:E; [|vm_compute in E; discriminate].
  exists bars. split; [reflexivity|].
  destruct (satisfaction_chart_buckets (fixture.frame fixture.scenario) bars 1 5 E)
    as (Keys & _ & Heights).
  { intros r z I Er. vm_compute in I.
    destruct I as [<-|[<-|[<-|[]]]]; injection Er as <-; lia. }
  split.
  - rewrite Keys. vm_compute. reflexivity.
  - eapply Forall_impl; [|exact Heights].
    intros bar (q & Eq & B & _). exists q. split; [exact Eq | exact B].
Defined.

(** ** The category chart *)

Section SortedValues.
Context {kind : SortKind} {A : Type}.
Variable f : A -> float64.
Variable v : A -> Q.

(** Sorting rows by a finite value sorts them by the number it holds. *)
Lemma sort_values_desc_strongly (l : list A) :
  Forall (fun a => exists q, f a = Fin q /\ q == v a) l ->
  StronglySorted (fun a b => v b <= v a) (sort_values_desc f l).
Proof.
  intros F. apply Sorted_StronglySorted.
  { intros a b c Hab Hbc. eapply Qle_trans; eassumption. }
  assert (Forall (fun a => exists q, f a = Fin q /\ q == v a) (sort_values_desc f l))
    as Fs.
  { eapply Permutation_Forall; [symmetry; apply sort_values_perm | exact F]. }
  pose proof (sort_values_sorted _ f l) as S.
  induction S as [|a s S IH Hd]; [constructor|].
  inversion Fs as [|a' s' (qa & Ea & Va) Fs']. subst.
  constructor; [apply IH; exact Fs'|].
  destruct Hd as [|b s Hab]; [constructor|]. constructor.
  apply Forall_inv in Fs'. destruct Fs' as (qb & Eb & Vb).
  rewrite Ea, Eb in Hab. cbn in Hab. apply Qltb_ge in Hab.
  rewrite <- Va, <- Vb. exact Hab.
Qed.

End SortedValues.

Section TopTen.
Context {kind : SortKind}.
Variable str_title : string -> string.

(** X24.  The bars of the category chart: at most ten, one per category,
    each as long as the revenue of its category (the sum of the prices of its
    rows, not rounded); they come in order of revenue, the highest first, and
    no category left out has more revenue than a category shown.  Rows without
    a category count for no bar. *)
Theorem category_chart_top_ten (data : DataFrame)
    (bars : list dashboard_utils.CategoryBar) :
  dashboard_utils.category_revenue str_title data = Some bars ->
  let categories := distinct_keys product_category_name (rows data) in
  let revenue := group_revenue product_category_name (rows data) in
  length bars = Nat.min 10 (length categories)
  /\ NoDup (map dashboard_utils.bar_category bars)
  /\ Forall (fun b =>
               In (dashboard_utils.bar_category b) categories
               /\ dashboard_utils.bar_price b
                  =f= Fin (revenue (dashboard_utils.bar_category b))
               /\ dashboard_utils.display_name b
                  = str_title (dashboard_utils.replace_underscore
                                 (dashboard_utils.bar_category b)))
            bars
  /\ StronglySorted (fun a b => revenue (dashboard_utils.bar_category b)
                                <= revenue (dashboard_utils.bar_category a)) bars
  /\ (forall b k,
        In b bars -> In k categories ->
        ~ In k (map dashboard_utils.bar_category bars) ->
        revenue k <= revenue (dashboard_utils.bar_category b)).
Proof.
  unfold dashboard_utils.category_revenue.
  destruct (has_column "product_category_name" data); [|discriminate].
  cbn [negb]. intros E. injection E as <-. cbv zeta.
  set (rs := rows data).
  set (sums := map (fun g => (fst g, pd.sum (price_col (snd g))))
                   (pd.groupby product_category_name rs)).
  set (revenue := fun c : string * float64 => group_revenue product_category_name rs (fst c)).
  assert (map fst sums = pd.group_keys product_category_name rs) as Keys.
  { unfold sums, pd.groupby. rewrite !map_map. apply map_id. }
  assert (Forall (fun c => exists q, snd c = Fin q /\ q == revenue c) sums) as Fin_.
  { unfold sums, pd.groupby. rewrite map_map. apply Forall_forall.
    intros c I. apply in_map_iff in I. destruct I as (k & <- & _).
    cbn [fst snd]. rewrite price_col_Fin, sum_Fin_eq. eexists.
    split; [reflexivity|]. apply sum_of_Qsum. }
  set (sorted := sort_values_desc snd sums).
  assert (Permutation sorted sums) as P by apply sort_values_perm.
  assert (StronglySorted (fun a b => revenue b <= revenue a) sorted) as S.
  { apply sort_values_desc_strongly. exact Fin_. }
  assert (Permutation (map fst sorted) (distinct_keys product_category_name rs))
    as PK.
  { rewrite (Permutation_map fst P), Keys. apply group_keys_perm. }
  assert (NoDup (map fst sorted)) as ND.
  { eapply Permutation_NoDup; [symmetry; exact PK|]. apply NoDup_nodup. }
  assert (forall l : list (string * float64),
            map dashboard_utils.bar_category
                (map (fun c => {| dashboard_utils.bar_category := fst c;
                                  dashboard_utils.bar_price := snd c;
                                  dashboard_utils.display_name :=
                                    str_title (dashboard_utils.replace_underscore (fst c)) |})
                     l)
            = map fst l) as Cats.
  { intros l. rewrite map_map. reflexivity. }
  split; [|split; [|split; [|split]]].
  - rewrite length_map, length_firstn, <- (length_map fst sorted).
    rewrite (Permutation_length PK). reflexivity.
  - rewrite Cats, <- firstn_map.
    rewrite <- (firstn_skipn 10 (map fst sorted)) in ND.
    apply NoDup_app_remove_r in ND. exact ND.
  - apply Forall_forall. intros b I. apply in_map_iff in I.
    destruct I as (c & <- & I). cbn.
    assert (In c sorted) as Ic.
    { rewrite <- (firstn_skipn 10 sorted). apply in_or_app. left. exact I. }
    split; [|split; [|reflexivity]].
    + apply (Permutation_in _ PK). apply in_map. exact Ic.
    + apply (Permutation_in _ P) in Ic. rewrite Forall_forall in Fin_.
      destruct (Fin_ c Ic) as (q & -> & Eq). exact Eq.
  - assert (StronglySorted (fun a b => revenue b <= revenue a) (firstn 10 sorted)) as S10.
    { clear -S. generalize 10%nat. induction S as [|c l S IH F]; intros n.
      - rewrite firstn_nil. constructor.
      - destruct n as [|n]; [constructor|]. cbn [firstn]. constructor; [apply IH|].
        rewrite Forall_forall in *. intros x Ix. apply F.
        rewrite <- (firstn_skipn n l). apply in_or_app. left. exact Ix. }
    clear -S10. induction S10 as [|c l S IH F]; [constructor|].
    cbn [map]. constructor; [exact IH|].
    rewrite Forall_map. exact F.
  - intros b k Ib Ik Out. rewrite Cats in Out.
    apply in_map_iff in Ib. destruct Ib as (c & <- & Ic). cbn.
    apply (Permutation_in _ (Permutation_sym PK)) in Ik.
    rewrite <- (firstn_skipn 10 sorted), map_app in Ik.
    apply in_app_or in Ik. destruct Ik as [Ik|Ik]; [contradiction|].
    apply in_map_iff in Ik. destruct Ik as (c' & <- & Ic').
    exact (StronglySorted_firstn_skipn _ 10 sorted S c c' Ic Ic').
Qed.

End TopTen.

Lemma category_chart_witness :
  exists bars,
    @dashboard_utils.category_revenue fixture.ascii_title insertion_kind
      (fixture.frame fixture.two_categories) = Some bars
    /\ length bars = 2%nat
    /\ map dashboard_utils.display_name bars = ["Books"; "Toys"]
    /\ Forall (fun b => In (dashboard_utils.bar_category b) ["books"; "toys"]) bars.
Proof.
  destruct (@dashboard_utils.category_revenue fixture.ascii_title insertion_kind
              (fixture.frame fixture.two_categories)) as [bars|] eqn:E;
    [|vm_compute in E; discriminate].
  exists bars. split; [reflexivity|].
  destruct (@category_chart_top_ten insertion_kind fixture.ascii_title
              (fixture.frame fixture.two_categories) bars E)
    as (L & _ & F & _).
  split; [rewrite L; reflexivity|]. split.
  - vm_compute in E. injection E as <-. reflexivity.
  - eapply Forall_impl; [|exact F]. intros b (I & _).
    assert (distinct_keys product_category_name
              (rows (fixture.frame fixture.two_categories)) = ["toys"; "books"]) as D
      by (vm_compute; reflexivity).
    rewrite D in I. destruct I as [I|[I|[]]]; rewrite <- I; cbn; tauto.
Defined.

(** ** The dashboard *)

Lemma nunique_pos {A} `{EqDecision A} (l : list A) :
  l <> [] -> (0 < pd.nunique l)%nat.
Proof.
  destruct l as [|a l]; [contradiction|]. intros _.
  unfold pd.nunique. cbn [pd.unique length]. lia.
Qed.

Lemma float_trend_finite (current comparison : Q) :
  isfinite (app.float_trend (Fin current) (Fin comparison)) = true.
Proof.
  unfold app.float_trend, fgtb.
  destruct (Qltb 0 comparison) eqn:Pos; [|reflexivity].
  apply Qltb_lt in Pos.
  rewrite trend_change by lra. reflexivity.
Qed.

Lemma int_trend_returns (current comparison : Z) :
  exists q, app.int_trend current comparison = inr (Fin q).
Proof.
  unfold app.int_trend, int_truediv.
  destruct (Z.ltb_spec 0 comparison) as [Pos|_]; [|eexists; reflexivity].
  destruct (Z.eqb_spec comparison 0) as [Z0|_]; [lia|].
  eexists. reflexivity.
Qed.

(** The three ways [main] ends, and the numbers it shows. *)
Lemma main_cases (delivered_orders : DataFrame) (selected_year : Z)
    (selected_month : option Z) :
  let current := current_rows delivered_orders selected_year selected_month in
  let comparison :=
    current_rows delivered_orders (selected_year - 1) selected_month in
  if df_empty delivered_orders
  then app.main delivered_orders selected_year selected_month
       = inr app.NoDataAvailable
  else
    match current with
    | [] => app.main delivered_orders selected_year selected_month
            = inr app.NoDataForRange
    | _ :: _ =>
        exists k,
          app.main delivered_orders selected_year selected_month
          = inr (app.Dashboard k)
          /\ app.total_revenue (app.current_metrics k) = pd.sum (price_col current)
          /\ app.avg_order_value (app.current_metrics k)
             = pd.mean (order_totals current)
          /\ app.total_orders (app.current_metrics k)
             = Z.of_nat (pd.nunique (map order_id current))
          /\ match comparison with
             | [] =>
                 app.revenue_trend k = Fin 0 /\ app.orders_trend k = Fin 0
                 /\ app.aov_trend k = Fin 0
             | _ :: _ =>
                 app.revenue_trend k
                 = app.float_trend (pd.sum (price_col current))
                                   (pd.sum (price_col comparison))
                 /\ (exists q, app.orders_trend k = Fin q)
                 /\ app.aov_trend k
                    = app.float_trend (pd.mean (order_totals current))
                                      (pd.mean (order_totals comparison))
             end
    end.
Proof.
  cbv zeta. unfold app.main.
  destruct (df_empty delivered_orders) eqn:Empty; [reflexivity|].
  cbv zeta. unfold df_empty in Empty |- *. cbn [rows columns select].
  fold (current_rows delivered_orders selected_year selected_month).
  fold (current_rows delivered_orders (selected_year - 1) selected_month).
  destruct (columns delivered_orders) as [|c cs]; [discriminate|].
  destruct (current_rows delivered_orders selected_year selected_month)
    as [|r rs] eqn:Current; [reflexivity|].
  destruct (current_rows delivered_orders (selected_year - 1) selected_month)
    as [|r' rs'] eqn:Comparison; cbn [negb].
  - eexists. split; [reflexivity|]. cbn. repeat split.
  - destruct (int_trend_returns
                (Z.of_nat (pd.nunique (map order_id (r :: rs))))
                (Z.of_nat (pd.nunique (map order_id (r' :: rs')))))
      as (q & Eq).
    cbn [app.total_orders]. rewrite Eq.
    unfold mbind, result_bind, mret, result_ret.
    eexists. split; [reflexivity|]. cbn [app.total_revenue app.avg_order_value
      app.total_orders app.current_metrics app.revenue_trend app.orders_trend
      app.aov_trend].
    repeat split. exists q. reflexivity.
Qed.



(** X26.  On the dashboard the total revenue, the average order value and
    the three year-over-year trends are always numbers, never an infinity or
    NaN: each trend is computed only after its comparison value was tested to
    be positive.  The trends are 0 when no row was bought in the comparison
    period, and the current period has at least one order. *)
Theorem main_trends_are_numbers (delivered_orders : DataFrame) (selected_year : Z)
    (selected_month : option Z) (k : app.Kpis) :
  app.main delivered_orders selected_year selected_month = inr (app.Dashboard k) ->
  isfinite (app.total_revenue (app.current_metrics k)) = true
  /\ isfinite (app.avg_order_value (app.current_metrics k)) = true
  /\ isfinite (app.revenue_trend k) = true
  /\ isfinite (app.orders_trend k) = true
  /\ isfinite (app.aov_trend k) = true
  /\ (0 < app.total_orders (app.current_metrics k))%Z
  /\ (current_rows delivered_orders (selected_year - 1) selected_month = [] ->
      app.revenue_trend k = Fin 0 /\ app.orders_trend k = Fin 0
      /\ app.aov_trend k = Fin 0).
Proof.
  intros E.
  pose proof (main_cases delivered_orders selected_year selected_month) as C.
  cbv zeta in C. rewrite E in C.
  destruct (df_empty delivered_orders); [discriminate|].
  set (current := current_rows delivered_orders selected_year selected_month) in *.
  set (comparison :=
         current_rows delivered_orders (selected_year - 1) selected_month) in *.
  destruct current as [|r rs] eqn:Current; [discriminate|].
  destruct C as (k' & Ek & Rev & Aov & Orders & Trends).
  injection Ek as <-.
  destruct (sum_price_col (r :: rs)) as (t & Et & _).
  destruct (order_totals_mean (r :: rs)) as (a & Ea & _); [discriminate|].
  rewrite Rev, Aov, Orders, Et, Ea.
  split; [reflexivity|]. split; [reflexivity|].
  assert (0 < Z.of_nat (pd.nunique (map order_id (r :: rs))))%Z as Pos.
  { pose proof (nunique_pos (map order_id (r :: rs))) as P.
    cbn [map] in P |- *. specialize (P ltac:(discriminate)). lia. }
  destruct comparison as [|r' rs'] eqn:Comparison.
  - destruct Trends as (-> & -> & ->). repeat split; try reflexivity; exact Pos.
  - destruct Trends as (-> & (q & ->) & ->).
    destruct (sum_price_col (r' :: rs')) as (t' & Et' & _).
    destruct (order_totals_mean (r' :: rs')) as (a' & Ea' & _); [discriminate|].
    rewrite Et, Ea, Et', Ea', !float_trend_finite.
    repeat split; try reflexivity; try exact Pos; discriminate.
Qed.

Lemma main_trends_witness :
  exists k,
    app.main (fixture.frame fixture.free_item_2022) 2023 None = inr (app.Dashboard k)
    /\ isfinite (app.revenue_trend k) = true
    /\ isfinite (app.aov_trend k) = true
    /\ app.orders_trend k =f= Fin 0.
Proof.
  destruct (app.main (fixture.frame fixture.free_item_2022) 2023 None)
    as [e|[| |k]] eqn:E; try (vm_compute in E; discriminate).
  exists k. split; [reflexivity|].
  destruct (main_trends_are_numbers _ _ _ k E) as (_ & _ & R & _ & A & _).
  split; [exact R|]. split; [exact A|].
  vm_compute in E. injection E as <-. reflexivity.
Defined.

Lemma current_rows_bought (delivered_orders : DataFrame) (selected_year : Z)
    (selected_month : option Z) (r : Row) :
  In r (current_rows delivered_orders selected_year selected_month) ->
  app.purchase_month r <> None.
Proof.
  unfold current_rows. intros I. apply filter_In in I. destruct I as [I P].
  apply in_map_iff in I. destruct I as (r0 & <- & _).
  unfold app.in_period in P. unfold app.purchase_month.
  cbn [app.with_calendar year order_purchase_timestamp] in *.
  destruct (order_purchase_timestamp r0) as [t|]; [discriminate|].
  destruct selected_month; cbn in P; discriminate.
Qed.

(** X27.  On the dashboard the monthly revenues behind the growth figure
    and the revenue chart are finite, and they add up to the total revenue of
    the KPI row: every row of the selected period has a purchase month. *)
Theorem kpi_revenue_is_monthly_total (delivered_orders : DataFrame)
    (selected_year : Z) (selected_month : option Z) (k : app.Kpis) :
  app.main delivered_orders selected_year selected_month = inr (app.Dashboard k) ->
  let current := current_rows delivered_orders selected_year selected_month in
  exists (totals : list Q) (total : Q),
    map snd (app.monthly_revenue current) = map Fin totals
    /\ app.total_revenue (app.current_metrics k) = Fin total
    /\ Qsum totals == total.
Proof.
  intros E. cbv zeta.
  destruct (main_average_order_value _ _ _ k E) as (total & _ & Et & Eq & _).
  set (current := current_rows delivered_orders selected_year selected_month) in *.
  destruct (groupby_sums app.purchase_month current) as (totals & Em & _ & Sum).
  exists totals, total. split; [|split; [exact Et|]].
  - unfold app.monthly_revenue. rewrite map_map. exact Em.
  - rewrite Sum, Eq. rewrite filter_all; [reflexivity|].
    intros r I. apply bool_decide_eq_true_2.
    exact (current_rows_bought _ _ _ r I).
Qed.

Lemma kpi_revenue_witness :
  exists k totals,
    app.main (fixture.frame fixture.scenario) 2023 None = inr (app.Dashboard k)
    /\ map snd (app.monthly_revenue
                  (current_rows (fixture.frame fixture.scenario) 2023 None))
       = map Fin totals
    /\ app.total_revenue (app.current_metrics k) =f= Fin (Qsum totals)
    /\ Qsum totals == 180.
Proof.
  destruct (app.main (fixture.frame fixture.scenario) 2023 None)
    as [e|[| |k]] eqn:E; try (vm_compute in E; discriminate).
  destruct (kpi_revenue_is_monthly_total _ _ _ k E) as (totals & total & Em & Et & Eq).
  exists k, totals. split; [reflexivity|]. split; [exact Em|].
  split.
  - rewrite Et. cbn. symmetry. exact Eq.
  - rewrite Eq. vm_compute in E. injection E as <-.
    vm_compute in Et. injection Et as <-. reflexivity.
Defined.

Section AfterLoad.
Variable parse : string -> option Timestamp.

(** X28.  After [load_and_prepare_data], [main] ends with 'No data
    available' in exactly two cases: the load raised (a table is missing or a
    timestamp is no date), or it returned a frame in which no line item has
    the status 'delivered'. *)
Theorem no_data_after_load (datasets : data_loader.Datasets) (selected_year : Z)
    (selected_month : option Z) :
  app.main (app.load_and_prepare_data parse datasets) selected_year selected_month
  = inr app.NoDataAvailable
  <-> (exists e, data_loader.clean_and_prepare_data parse datasets = inl e)
      \/ (exists sales_data,
            data_loader.clean_and_prepare_data parse datasets = inr sales_data
            /\ forall r, In r (rows sales_data) -> order_status r <> "delivered").
Proof.
  pose proof (main_cases (app.load_and_prepare_data parse datasets)
                selected_year selected_month) as C.
  cbv zeta in C.
  assert (app.main (app.load_and_prepare_data parse datasets)
            selected_year selected_month = inr app.NoDataAvailable
          <-> df_empty (app.load_and_prepare_data parse datasets) = true) as ->.
  { destruct (df_empty (app.load_and_prepare_data parse datasets)).
    - rewrite C. tauto.
    - destruct (current_rows _ _ _).
      + rewrite C. split; discriminate.
      + destruct C as (k & -> & _). split; discriminate. }
  unfold app.load_and_prepare_data.
  destruct (data_loader.clean_and_prepare_data parse datasets)
    as [e|sales_data] eqn:E.
  - split; [intros _; left; now exists e | reflexivity].
  - unfold data_loader.filter_delivered_orders, select, df_empty.
    cbn [rows columns].
    destruct (columns sales_data ++ ["delivery_days"; "delivery_category"])
      as [|c cs] eqn:Cols.
    { apply app_eq_nil in Cols. destruct Cols as [_ Cols]. discriminate. }
    split.
    + intros Empty. right. exists sales_data. split; [reflexivity|].
      intros r I D.
      assert (In (data_loader.with_delivery r)
                 (map data_loader.with_delivery
                      (List.filter (fun r => String.eqb (order_status r) "delivered")
                                   (rows sales_data)))) as Bad.
      { apply in_map. apply filter_In. split; [exact I|].
        apply String.eqb_eq. exact D. }
      destruct (map data_loader.with_delivery _); [destruct Bad | discriminate].
    + intros [(e & Bad)|(sd & Esd & None)]; [discriminate|].
      injection Esd as <-.
      rewrite (filter_none _ (rows sales_data)); [reflexivity|].
      intros r I. apply String.eqb_neq. exact (None r I).
Qed.

End AfterLoad.

Lemma no_data_after_load_witness :
  app.main (app.load_and_prepare_data fixture.iso_parse fixture.raw_without_reviews)
           2023 None
  = inr app.NoDataAvailable.
Proof.
  apply (no_data_after_load fixture.iso_parse fixture.raw_without_reviews 2023 None).
  left. exists (KeyError "reviews"). reflexivity.
Defined.

(** ** The data summary *)

Lemma instant_min_max (column : list (option Timestamp)) :
  match data_loader.instant_min column, data_loader.instant_max column with
  | Some a, Some b =>
      In (Some a) column /\ In (Some b) column
      /\ forall t, In (Some t) column ->
           (data_loader.epoch_seconds a <= data_loader.epoch_seconds t
            <= data_loader.epoch_seconds b)%Z
  | None, None => forall t, ~ In (Some t) column
  | _, _ => False
  end.
Proof.
  unfold data_loader.instant_min, data_loader.instant_max.
  assert (forall t, In (Some t) column <-> In t (pd.dropna column)) as D.
  { intros t. symmetry. apply dropna_In. }
  destruct (pd.dropna column) as [|t0 ts].
  - intros t I. apply D in I. destruct I.
  - set (lt := fun m x =>
                 if (data_loader.epoch_seconds x <? data_loader.epoch_seconds m)%Z
                 then x else m).
    set (gt := fun m x =>
                 if (data_loader.epoch_seconds m <? data_loader.epoch_seconds x)%Z
                 then x else m).
    assert (forall ts t0,
              In (fold_left lt ts t0) (t0 :: ts)
              /\ forall t, In t (t0 :: ts) ->
                   (data_loader.epoch_seconds (fold_left lt ts t0)
                    <= data_loader.epoch_seconds t)%Z) as Min.
    { clear. induction ts as [|x ts IH]; intros t0.
      - cbn. split; [left; reflexivity|]. intros t [<-|[]]. lia.
      - cbn [fold_left]. destruct (IH (lt t0 x)) as [I Le]. split.
        + destruct I as [I|I]; [|right; right; exact I].
          rewrite <- I. unfold lt. destruct (_ <? _)%Z; [right|]; left; reflexivity.
        + assert (data_loader.epoch_seconds (lt t0 x) <= data_loader.epoch_seconds t0
                  /\ data_loader.epoch_seconds (lt t0 x)
                     <= data_loader.epoch_seconds x)%Z as [L0 Lx].
          { unfold lt. destruct (Z.ltb_spec (data_loader.epoch_seconds x)
                                            (data_loader.epoch_seconds t0)); lia. }
          pose proof (Le (lt t0 x) (or_introl eq_refl)) as Lf.
          intros t [<-|[<-|I']]; [lia | lia |]. apply Le. right. exact I'. }
    assert (forall ts t0,
              In (fold_left gt ts t0) (t0 :: ts)
              /\ forall t, In t (t0 :: ts) ->
                   (data_loader.epoch_seconds t
                    <= data_loader.epoch_seconds (fold_left gt ts t0))%Z) as Max.
    { clear. induction ts as [|x ts IH]; intros t0.
      - cbn. split; [left; reflexivity|]. intros t [<-|[]]. lia.
      - cbn [fold_left]. destruct (IH (gt t0 x)) as [I Le]. split.
        + destruct I as [I|I]; [|right; right; exact I].
          rewrite <- I. unfold gt. destruct (_ <? _)%Z; [right|]; left; reflexivity.
        + assert (data_loader.epoch_seconds t0 <= data_loader.epoch_seconds (gt t0 x)
                  /\ data_loader.epoch_seconds x
                     <= data_loader.epoch_seconds (gt t0 x))%Z as [L0 Lx].
          { unfold gt. destruct (Z.ltb_spec (data_loader.epoch_seconds t0)
                                            (data_loader.epoch_seconds x)); lia. }
          pose proof (Le (gt t0 x) (or_introl eq_refl)) as Lf.
          intros t [<-|[<-|I']]; [lia | lia |]. apply Le. right. exact I'. }
    destruct (Min ts t0) as [Imin Lmin]. destruct (Max ts t0) as [Imax Lmax].
    split; [apply D; exact Imin|]. split; [apply D; exact Imax|].
    intros t I. apply D in I. split; [apply Lmin | apply Lmax]; exact I.
Qed.

Lemma counts_sum_perm {K} (l l' : list (K * nat)) :
  Permutation l l' -> counts_sum l = counts_sum l'.
Proof.
  unfold counts_sum.
  induction 1 as [|x l l' _ IH|x y l|l l' l'' _ IH1 _ IH2]; cbn [map fold_right];
    [reflexivity | rewrite IH; reflexivity | lia | congruence].
Qed.

(** X29.  In the dictionary of [get_data_summary], [total_records] is the
    number of rows; the counts of [order_statuses] add up to it, each being
    the number of rows of its status; no unique count exceeds it; the two
    counts of optional columns are 0 when the column is missing; the revenue
    is the sum of all prices; and [date_range] runs from an earliest to a
    latest purchase instant among the rows (both NaT when no row has one). *)
Theorem data_summary_counts (data : DataFrame) :
  let s := data_loader.get_data_summary data in
  data_loader.total_records s = Z.of_nat (length (rows data))
  /\ counts_sum (map_to_list (data_loader.order_statuses s)) = length (rows data)
  /\ (forall status,
        default O (data_loader.order_statuses s !! status)
        = pd.occurrences status (map order_status (rows data)))
  /\ (data_loader.unique_orders s <= data_loader.total_records s)%Z
  /\ (data_loader.unique_customers s <= data_loader.total_records s)%Z
  /\ (data_loader.unique_products s <= data_loader.total_records s)%Z
  /\ (0 <= data_loader.product_categories s <= data_loader.total_records s)%Z
  /\ (0 <= data_loader.geographic_coverage s <= data_loader.total_records s)%Z
  /\ (has_column "product_category_name" data = false ->
      data_loader.product_categories s = 0%Z)
  /\ (has_column "customer_state" data = false ->
      data_loader.geographic_coverage s = 0%Z)
  /\ data_loader.total_revenue s =f= Fin (Qsum (map price (rows data)))
  /\ match data_loader.date_range s with
     | (Some first, Some last) =>
         (exists r, In r (rows data) /\ order_purchase_timestamp r = Some first)
         /\ (exists r, In r (rows data) /\ order_purchase_timestamp r = Some last)
         /\ forall r t, In r (rows data) -> order_purchase_timestamp r = Some t ->
              (data_loader.epoch_seconds first <= data_loader.epoch_seconds t
               <= data_loader.epoch_seconds last)%Z
     | (None, None) => forall r, In r (rows data) -> order_purchase_timestamp r = None
     | _ => False
     end.
Proof.
  cbv zeta. unfold data_loader.get_data_summary.
  cbn [data_loader.total_records data_loader.order_statuses
       data_loader.unique_orders data_loader.unique_customers
       data_loader.unique_products data_loader.product_categories
       data_loader.geographic_coverage data_loader.total_revenue
       data_loader.date_range].
  assert (forall (l : list string), (Z.of_nat (pd.nunique l) <= Z.of_nat (length l))%Z)
    as Le.
  { intros l. apply Nat2Z.inj_le. apply unique_length_le. }
  assert (forall (l : list (option string)),
            (0 <= Z.of_nat (pd.nunique (pd.dropna l)) <= Z.of_nat (length l))%Z)
    as LeOpt.
  { intros l. split; [lia|]. eapply Z.le_trans; [apply Le|].
    apply Nat2Z.inj_le. induction l as [|[x|] l IH]; cbn [pd.dropna length]; lia. }
  split; [reflexivity|]. split.
  { rewrite (counts_sum_perm _ (pd.value_counts (map order_status (rows data)))).
    - rewrite counts_sum_value_counts. apply length_map.
    - unfold pd.to_dict. apply map_to_list_to_map. apply NoDup_ListNoDup.
      change (NoDup (map fst (pd.value_counts (map order_status (rows data))))).
      rewrite value_counts_keys. apply unique_NoDup. }
  split.
  { intros status. rewrite to_dict_value_counts.
    destruct (pd.occurrences status (map order_status (rows data))); reflexivity. }
  split; [rewrite <- (length_map order_id (rows data)); apply Le|].
  split; [rewrite <- (length_map customer_id (rows data)); apply Le|].
  split; [rewrite <- (length_map product_id (rows data)); apply Le|].
  split.
  { destruct (has_column "product_category_name" data); [|lia].
    rewrite <- (length_map product_category_name (rows data)). apply LeOpt. }
  split.
  { destruct (has_column "customer_state" data); [|lia].
    rewrite <- (length_map customer_state (rows data)). apply LeOpt. }
  split; [intros ->; reflexivity|]. split; [intros ->; reflexivity|].
  split.
  { destruct (sum_price_col (rows data)) as (t & -> & Eq). exact Eq. }
  pose proof (instant_min_max (map order_purchase_timestamp (rows data))) as M.
  destruct (data_loader.instant_min _) as [first|],
           (data_loader.instant_max _) as [last|]; try contradiction.
  - destruct M as (If & Il & B). apply in_map_iff in If, Il.
    destruct If as (rf & Ef & If). destruct Il as (rl & El & Il).
    split; [now exists rf|]. split; [now exists rl|].
    intros r t I Et. apply B. apply in_map_iff. now exists r.
  - intros r I. destruct (order_purchase_timestamp r) as [t|] eqn:Et; [|reflexivity].
    destruct (M t). apply in_map_iff. now exists r.
Qed.

Lemma data_summary_witness :
  let s := data_loader.get_data_summary (fixture.frame fixture.scenario) in
  data_loader.total_records s = 3%Z
  /\ data_loader.unique_orders s = 2%Z
  /\ default O (data_loader.order_statuses s !! "delivered") = 3%nat
  /\ data_loader.date_range s
     = (Some (mkTimestamp 2023 1 10 9 0 0), Some (mkTimestamp 2023 2 1 8 0 0))
  /\ data_loader.total_revenue s =f= Fin 180.
Proof.
  cbv zeta.
  destruct (data_summary_counts (fixture.frame fixture.scenario))
    as (T & _ & Count & _ & _ & _ & _ & _ & _ & _ & Rev & _).
  split; [rewrite T; reflexivity|]. split; [vm_compute; reflexivity|].
  split; [rewrite Count; vm_compute; reflexivity|].
  split; [vm_compute; reflexivity|].
  etransitivity; [exact Rev|]. vm_compute. reflexivity.
Defined.
